(** * AttendXpress: the attendance-code lifecycle and the heuristic engine

A shallow embedding of [attendance_app/models.py], [forms.py],
[views.py] and [ai_service.py], and the properties of the
specification that concern them.

Conventions of the embedding

- Python [int] is [Z]; Python [float] is IEEE 754 binary64, taken from
  the Standard Library's executable specification [SpecFloat] at
  precision 53 and maximal exponent 1024 (round to nearest, ties to
  even), so every arithmetic step rounds as the interpreter does.
- A Python exception is a value of [exn]; code that may raise lives in
  the [result] monad.
- Text is [string] (ASCII).
- The relational store is a record of tables, each a list of rows in
  insertion order; a view is a function from the store and the request
  to a new store and a response. *)

From Stdlib Require Import ZArith List String Ascii Bool Lia.
From Stdlib Require Import SpecFloat DecimalString Sorted Permutation.
Import ListNotations.
Open Scope string_scope.
Open Scope Z_scope.

(* ===================================================================== *)
(** * The Python runtime *)
(* ===================================================================== *)

(** The exceptions the modelled code can raise. *)
Inductive exn : Type :=
| ZeroDivisionError
| ValueError
| OverflowError
| DoesNotExist (model : string)
| MultipleObjectsReturned
| IntegrityError
| Http404.

Inductive result (A : Type) : Type :=
| Ok (a : A)
| Raise (e : exn).
Arguments Ok {A} a.
Arguments Raise {A} e.

Definition bind {A B : Type} (c : result A) (k : A -> result B) : result B :=
  match c with
  | Ok a => k a
  | Raise e => Raise e
  end.

Notation "x <- c ;; k" := (bind c (fun x => k))
  (at level 61, c at next level, right associativity).

Module Py.

(** ** binary64 *)

Definition prec : Z := 53.
Definition emax : Z := 1024.

Definition float : Type := spec_float.

Definition fadd : float -> float -> float := SFadd prec emax.
Definition fmul : float -> float -> float := SFmul prec emax.
Definition fdiv : float -> float -> float := SFdiv prec emax.
Definition flt : float -> float -> bool := SFltb.

(** [a > b] on floats. *)
Definition fgt (a b : float) : bool := flt b a.

Definition is_zero (x : float) : bool :=
  match x with S754_zero _ => true | _ => false end.

(** The correctly rounded quotient of two positive integers: what a
    decimal literal denotes, and what [int / int] computes. *)
Definition round_ratio (sign : bool) (n d : Z) : float :=
  let '(q, e, l) := SFdiv_core_binary prec emax n 0 d 0 in
  binary_round_aux prec emax sign q e l.

(** [float(n)] for an [int], as the mixed operations [int * float] and
    [float / int] convert their [int] operand. *)
Definition of_int (n : Z) : float := binary_normalize prec emax n 0 false.

(** The literal [n / 10^k] written in decimal notation, e.g.
    [dec 95 2] is [0.95]. *)
Definition dec (n : Z) (k : Z) : float :=
  if n =? 0 then S754_zero false else round_ratio false n (10 ^ k).

(** [a / b] on two [int]s: correctly rounded, [ZeroDivisionError] on a
    zero divisor. (The operands are row counts: the [OverflowError] of
    integers beyond the range of a float is out of reach.) *)
Definition int_truediv (a b : Z) : result float :=
  if b =? 0 then Raise ZeroDivisionError
  else if a =? 0 then Ok (S754_zero (b <? 0))
  else Ok (round_ratio (xorb (a <? 0) (b <? 0)) (Z.abs a) (Z.abs b)).

(** [a / b] on two [float]s *)
Definition float_truediv (a b : float) : result float :=
  if is_zero b then Raise ZeroDivisionError else Ok (fdiv a b).

(** [int(x)]: truncation toward zero. *)
Definition int_of_float (x : float) : result Z :=
  match x with
  | S754_zero _ => Ok 0
  | S754_nan => Raise ValueError
  | S754_infinity _ => Raise OverflowError
  | S754_finite s m e =>
      let a := if 0 <=? e then Z.shiftl (Zpos m) e
               else Z.shiftr (Zpos m) (- e) in
      Ok (if s then - a else a)
  end.

(** Round half to even of the rational [n / d], [0 < d]. *)
Definition round_half_even (n d : Z) : Z :=
  let q := n / d in
  let r := n mod d in
  match 2 * r ?= d with
  | Lt => q
  | Gt => q + 1
  | Eq => if Z.even q then q else q + 1
  end.

(** [round(x, ndigits)] for [0 <= ndigits]: the exact value of [x] is
    rounded half to even at [ndigits] decimals, and the decimal result
    is read back as the nearest float. *)
Definition round (x : float) (ndigits : Z) : float :=
  match x with
  | S754_finite s m e =>
      let p := 10 ^ ndigits in
      let n := if 0 <=? e then Zpos m * 2 ^ e * p
               else round_half_even (Zpos m * p) (2 ^ (- e)) in
      if n =? 0 then S754_zero s else round_ratio s n p
  | _ => x
  end.

(** ** Numbers whose type is decided at run time *)

Inductive num : Type :=
| Int (n : Z)
| Float (x : float).

Definition to_float (a : num) : float :=
  match a with
  | Int n => of_int n
  | Float x => x
  end.

(** [a + b] *)
Definition add (a b : num) : num :=
  match a, b with
  | Int m, Int n => Int (m + n)
  | _, _ => Float (fadd (to_float a) (to_float b))
  end.

(** [a / b]: always a [float]. *)
Definition truediv (a b : num) : result float :=
  match a, b with
  | Int m, Int n => int_truediv m n
  | _, _ => float_truediv (to_float a) (to_float b)
  end.

(** [sum(xs)]: a left fold of [+] from the [int] 0, as CPython adds
    before 3.12. (Later interpreters compensate the rounding error of the
    fold, which can change the last bits of a sum.) *)
Definition sum (xs : list float) : num :=
  fold_left (fun acc x => add acc (Float x)) xs (Int 0).

(** [min(a, b)] on floats: the first argument unless the second is
    smaller. *)
Definition fmin (a b : float) : float := if flt b a then b else a.

(** [xs[-n:]] and [xs[:n]] for [0 < n] *)
Definition last_n {A : Type} (n : nat) (xs : list A) : list A :=
  skipn (List.length xs - n)%nat xs.
Definition first_n {A : Type} (n : nat) (xs : list A) : list A :=
  firstn n xs.

End Py.

(* ===================================================================== *)
(** * Text *)
(* ===================================================================== *)

Module Str.

(** The double quote character, as a one-character string. *)
Definition dquote : string := String (ascii_of_nat 34) EmptyString.

(** [str.isspace] on ASCII: the blanks among the first 128 characters.
    The interpreter also counts blanks beyond them (U+0085, U+00A0 and
    others), which this type of text does not hold. *)
Definition is_space (c : ascii) : bool :=
  let n := nat_of_ascii c in
  ((9 <=? n) && (n <=? 13) || (28 <=? n) && (n <=? 32))%nat.

Fixpoint lstrip (s : string) : string :=
  match s with
  | String c rest => if is_space c then lstrip rest else s
  | EmptyString => EmptyString
  end.

Fixpoint rev_acc (s acc : string) : string :=
  match s with
  | String c rest => rev_acc rest (String c acc)
  | EmptyString => acc
  end.

Definition rev (s : string) : string := rev_acc s EmptyString.

(** [s.strip()] *)
Definition strip (s : string) : string := rev (lstrip (rev (lstrip s))).

Definition upper_char (c : ascii) : ascii :=
  let n := nat_of_ascii c in
  if ((97 <=? n) && (n <=? 122))%nat then ascii_of_nat (n - 32) else c.

(** [s.upper()] on ASCII text; beyond it the interpreter maps more
    letters and can change the length of the text. *)
Fixpoint upper (s : string) : string :=
  match s with
  | String c rest => String (upper_char c) (upper rest)
  | EmptyString => EmptyString
  end.

(** [s.split(sep)[0]]: the text before the first [sep]. *)
Fixpoint split_head (sep : ascii) (s : string) : string :=
  match s with
  | String c rest =>
      if Ascii.eqb c sep then EmptyString else String c (split_head sep rest)
  | EmptyString => EmptyString
  end.

Definition digit_value (c : ascii) : option Z :=
  let n := nat_of_ascii c in
  if ((48 <=? n) && (n <=? 57))%nat then Some (Z.of_nat (n - 48)) else None.

Fixpoint parse_digits (s : string) (acc : Z) : option Z :=
  match s with
  | EmptyString => Some acc
  | String c rest =>
      match digit_value c with
      | Some d => parse_digits rest (10 * acc + d)
      | None => None
      end
  end.

(** [int(s)] on a string of decimal digits; anything else raises
    [ValueError]. (The interpreter also reads a sign, blanks around the
    digits and underscores between them; the code applies [int] to the
    hours of its four fixed slots only.) *)
Definition to_int (s : string) : result Z :=
  match s with
  | EmptyString => Raise ValueError
  | _ => match parse_digits s 0 with
         | Some n => Ok n
         | None => Raise ValueError
         end
  end.

Definition digit (n : Z) : string :=
  String (ascii_of_nat (48 + Z.to_nat (n mod 10))) EmptyString.

(** A number from 0 to 99 on two digits, as [%H], [%M] and [%I] print. *)
Definition two_digits (n : Z) : string := digit (n / 10) ++ digit n.

(** [sep.join(parts)] *)
Fixpoint join (sep : string) (parts : list string) : string :=
  match parts with
  | [] => EmptyString
  | [p] => p
  | p :: rest => p ++ sep ++ join sep rest
  end.

(** [str(n)] for [0 <= n] *)
Definition of_int (n : Z) : string := NilZero.string_of_uint (N.to_uint (Z.to_N n)).

(** [f'{x:.1f}']: the exact value of [x] rounded half to even at one
    decimal. *)
Definition format_1f (x : Py.float) : string :=
  match x with
  | S754_nan => "nan"
  | S754_infinity s => if s then "-inf" else "inf"
  | S754_zero s => if s then "-0.0" else "0.0"
  | S754_finite s m e =>
      let n := if 0 <=? e then Zpos m * 2 ^ e * 10
               else Py.round_half_even (Zpos m * 10) (2 ^ (- e)) in
      (if s then "-" else EmptyString) ++ of_int (n / 10) ++ "." ++ digit n
  end.

End Str.

(* ===================================================================== *)
(** * Dates and times *)
(* ===================================================================== *)

(** A [datetime.date] is its proleptic Gregorian ordinal
    ([date.toordinal()]); [d + timedelta(days=i)] is [d + i]. *)
Definition date : Type := Z.

(** [d.weekday()]: Monday is 0, Sunday is 6. Ordinal 1 is a Monday. *)
Definition weekday (d : date) : Z := (d + 6) mod 7.

(** [d.strftime('%A')] *)
Definition day_name (d : date) : string :=
  nth (Z.to_nat (weekday d))
      ["Monday"; "Tuesday"; "Wednesday"; "Thursday"; "Friday"; "Saturday";
       "Sunday"] "Monday".

(** A [datetime.time] *)
Record time : Type := mk_time {
  hour : Z;
  minute : Z;
  second : Z;
  microsecond : Z
}.

(** [t.strftime('%H:%M')] *)
Definition strftime_HM (t : time) : string :=
  Str.two_digits (hour t) ++ ":" ++ Str.two_digits (minute t).

Definition usec_per_hour : Z := 3600000000.
Definition usec_per_day : Z := 24 * usec_per_hour.

(** A naive [datetime.datetime]: microseconds since midnight of ordinal 0
    on the wall clock. A [timedelta] is a number of microseconds. *)
Definition naive : Type := Z.

Definition time_usec (t : time) : Z :=
  ((hour t * 60 + minute t) * 60 + second t) * 1000000 + microsecond t.

(** [datetime.datetime.combine(d, t)] *)
Definition combine (d : date) (t : time) : naive := d * usec_per_day + time_usec t.

(** [timedelta(hours=h)] *)
Definition hours (h : Z) : Z := h * usec_per_hour.

(** The time zone of the settings ([TIME_ZONE], with [USE_TZ] on): its
    offset from UTC, in microseconds, at a wall-clock time. The settings
    module is not among the sources, so the zone is a parameter. *)
Class TimeZone : Type := { utcoffset : naive -> Z }.

(** The two [tzinfo] objects the code meets: UTC, which [timezone.now()]
    and the values read from the table carry, and the configured zone,
    which [make_aware] attaches. *)
Inductive tzinfo : Type := UTC | Local.

Definition tzinfo_eqb (a b : tzinfo) : bool :=
  match a, b with
  | UTC, UTC | Local, Local => true
  | _, _ => false
  end.

(** An aware [datetime.datetime]: a wall-clock time and its zone. *)
Record datetime : Type := mk_datetime {
  wall : naive;
  tz : tzinfo
}.

Section Clock.
Context {zone : TimeZone}.

(** The absolute time an aware datetime denotes: [dt - dt.utcoffset()],
    the offset of the configured zone being looked up at the wall-clock
    time, as a [zoneinfo] zone does. *)
Definition instant (dt : datetime) : Z :=
  match tz dt with
  | UTC => wall dt
  | Local => wall dt - utcoffset (wall dt)
  end.

(** [timezone.make_aware(dt)]: the naive time read in the current zone. *)
Definition make_aware (dt : naive) : datetime := mk_datetime dt Local.

(** [dt + delta]: wall-clock arithmetic, the zone is kept. *)
Definition dt_add (dt : datetime) (delta : Z) : datetime :=
  mk_datetime (wall dt + delta) (tz dt).

(** [a < b] on aware datetimes: the wall clocks are compared when both
    carry the same [tzinfo], the absolute times otherwise. *)
Definition dt_lt (a b : datetime) : bool :=
  if tzinfo_eqb (tz a) (tz b) then wall a <? wall b
  else instant a <? instant b.

(** [timezone.now()] when the clock reads [clock] (UTC). *)
Definition timezone_now (clock : Z) : datetime := mk_datetime clock UTC.

(** What a [DateTimeField] keeps of an aware datetime: its absolute
    time, read back in UTC. *)
Definition as_stored (dt : datetime) : datetime := mk_datetime (instant dt) UTC.

(** [dt.date()] *)
Definition dt_date (dt : datetime) : date := wall dt / usec_per_day.

(** [dt.strftime('%I:%M %p')]: the twelve-hour clock. *)
Definition strftime_IMp (dt : datetime) : string :=
  let h := (wall dt mod usec_per_day) / usec_per_hour in
  let m := (wall dt mod usec_per_hour) / 60000000 in
  Str.two_digits ((h + 11) mod 12 + 1) ++ ":" ++ Str.two_digits m ++ " "
    ++ (if h <? 12 then "AM" else "PM").

End Clock.

(* ===================================================================== *)
(** * The object-relational layer *)
(* ===================================================================== *)

(** A [dict] with string keys, as the request carries them: the pairs
    in the order they were sent. [request.POST] is a [QueryDict], which
    keeps every value sent under a key. *)
Definition dict : Type := list (string * string).

(** [d.get(key)]: of the values sent under the key, a [QueryDict] gives
    the last. *)
Fixpoint dict_get (d : dict) (key : string) : option string :=
  match d with
  | [] => None
  | (k, v) :: rest =>
      match dict_get rest key with
      | Some later => Some later
      | None => if String.eqb k key then Some v else None
      end
  end.

(** [except Model.DoesNotExist] catches this exception. *)
Definition is_DoesNotExist (model : string) (e : exn) : bool :=
  match e with
  | DoesNotExist m => String.eqb m model
  | _ => false
  end.

(** [Model.objects.get(...)]: the one row that satisfies the lookup. *)
Definition objects_get {A : Type} (model : string) (lookup : A -> bool)
    (table : list A) : result A :=
  match filter lookup table with
  | [] => Raise (DoesNotExist model)
  | [row] => Ok row
  | _ :: _ :: _ => Raise MultipleObjectsReturned
  end.

(** [get_object_or_404(Model, ...)]: a missing row becomes [Http404]. *)
Definition get_object_or_404 {A : Type} (model : string) (lookup : A -> bool)
    (table : list A) : result A :=
  match objects_get model lookup table with
  | Raise (DoesNotExist _) => Raise Http404
  | r => r
  end.

(** The value an [AutoField] gives to a new row. *)
Definition next_pk (pks : list Z) : Z := 1 + fold_right Z.max 0 pks.

Definition opt_eqb (a : option Z) (b : Z) : bool :=
  match a with
  | Some x => x =? b
  | None => false
  end.

(** [django.utils.ipv6.clean_ipv6_address(value, unpack_ipv4=False)],
    which is not among the sources: the canonical text of an IPv6
    address, [None] where it raises [ValidationError]. It is a parameter
    of the embedding. *)
Class IPv6Library : Type := { clean_ipv6_address : string -> option string }.

(** What a [GenericIPAddressField] writes to its column. The column is
    taken to be a text column, which keeps the text it is given. *)
Module GenericIPAddressField.

(** [":" in value] *)
Fixpoint has_colon (value : string) : bool :=
  match value with
  | String c rest => Ascii.eqb c ":" || has_colon rest
  | EmptyString => false
  end.

(** [get_prep_value]: a text with a colon is replaced by its canonical
    form when the library accepts it as an IPv6 address, and kept as it
    is otherwise. *)
Definition get_prep_value {ipv6 : IPv6Library} (value : option string)
  : option string :=
  match value with
  | None => None
  | Some v =>
      if negb (String.eqb v EmptyString) && has_colon v
      then match clean_ipv6_address v with
           | Some canonical => Some canonical
           | None => Some v
           end
      else Some v
  end.

(** [connection.ops.adapt_ipaddressfield_value]: [value or None]. *)
Definition adapt_ipaddressfield_value (value : option string) : option string :=
  match value with
  | Some EmptyString => None
  | _ => value
  end.

(** [get_db_prep_value] *)
Definition get_db_prep_value {ipv6 : IPv6Library} (value : option string)
  : option string :=
  adapt_ipaddressfield_value (get_prep_value value).

End GenericIPAddressField.

(* ===================================================================== *)
(** * models.py *)
(* ===================================================================== *)

(** [django.contrib.auth.models.User], the columns the code reads. *)
Module User.
Record t : Type := mk {
  pk : Z;
  username : string;
  first_name : string;
  last_name : string
}.

(** [user.get_full_name()] *)
Definition get_full_name (self : t) : string :=
  Str.strip (first_name self ++ " " ++ last_name self).
End User.

Module UserProfile.
(** [ROLE_CHOICES] *)
Inductive Role : Type := faculty | student.

Definition role_eqb (a b : Role) : bool :=
  match a, b with
  | faculty, faculty | student, student => true
  | _, _ => false
  end.

Record t : Type := mk {
  user : Z;
  role : Role;
  department : string;
  student_id : string;
  phone : string
}.
End UserProfile.

Module Course.
Record t : Type := mk {
  pk : Z;
  name : string;
  code : string;
  faculty : option Z;
  students : list Z;
  department : string;
  semester : string
}.

(** [course.students.count()] *)
Definition students_count (self : t) : Z := Z.of_nat (List.length (students self)).

(** [course.students.filter(pk=user_pk).exists()] *)
Definition has_student (self : t) (user_pk : Z) : bool :=
  existsb (Z.eqb user_pk) (students self).
End Course.

Module AttendanceRecord.
(** [VERIFICATION_CHOICES] *)
Inductive Verification : Type := code | face | manual.

Record t : Type := mk {
  pk : Z;
  makeup_class : Z;
  student : Z;
  is_present : bool;
  marked_at : datetime;
  verification_method : Verification;
  remarks : string;
  ip_address : option string;
  face_confidence : option Py.float
}.

(** [AttendanceRecord.objects.filter(makeup_class=m, student=s)] *)
Definition for_pair (m s : Z) (r : t) : bool :=
  (makeup_class r =? m) && (student r =? s).

(** [AttendanceRecord.objects.create(...)], with the defaults of the
    model for the columns that are not given; [unique_together] makes a
    second row for the same pair an [IntegrityError]. The row is returned
    as the table keeps it: [ip_address] is a [GenericIPAddressField]
    (models.py, line 105), which rewrites the text on its way to the
    column. *)
Definition create {ipv6 : IPv6Library} (now : datetime) (table : list t)
    (m s : Z) (present : bool) (method : Verification) (ip : option string)
  : result (t * list t) :=
  if existsb (for_pair m s) table then Raise IntegrityError
  else
    let row := mk (next_pk (map pk table)) m s present now method
                  EmptyString (GenericIPAddressField.get_db_prep_value ip)
                  None in
    Ok (row, (table ++ [row])%list).
End AttendanceRecord.

Module Notification.
(** [TYPE_CHOICES] *)
Inductive Type_ : Type :=
| makeup_scheduled | code_generated | attendance_marked
| reminder | alert | ai_suggestion.

Record t : Type := mk {
  pk : option Z;
  recipient : Z;
  notification_type : Type_;
  title : string;
  message : string;
  is_read : bool;
  related_class : option Z;
  created_at : option datetime
}.

(** [Notification(...)]: an instance that is not saved yet. *)
Definition new (recipient : Z) (type : Type_) (title message : string)
    (related : option Z) : t :=
  mk None recipient type title message false related None.

Definition pks (table : list t) : list Z :=
  flat_map (fun n => match pk n with Some k => [k] | None => [] end) table.

Definition insert (now : datetime) (table : list t) (n : t) : list t :=
  (table ++ [mk (Some (next_pk (pks table))) (recipient n) (notification_type n)
                (title n) (message n) (is_read n) (related_class n) (Some now)])%list.

(** [Notification.objects.create(...)] *)
Definition create (now : datetime) (table : list t)
    (recipient : Z) (type : Type_) (title message : string)
    (related : option Z) : list t :=
  insert now table (new recipient type title message related).

(** [Notification.objects.bulk_create(rows)] *)
Definition bulk_create (now : datetime) (table : list t) (rows : list t) : list t :=
  fold_left (insert now) rows table.
End Notification.

(** [STATUS_CHOICES] *)
Inductive Status : Type := scheduled | active | completed | cancelled.

Definition status_eqb (a b : Status) : bool :=
  match a, b with
  | scheduled, scheduled | active, active
  | completed, completed | cancelled, cancelled => true
  | _, _ => false
  end.

Module MakeUpClass.
Record t : Type := mk {
  pk : option Z;
  course : Z;
  faculty : Z;
  title : string;
  description : string;
  scheduled_date : date;
  start_time : time;
  end_time : time;
  venue : string;
  remedial_code : string;
  code_expiry : option datetime;
  status : Status;
  reason : string;
  max_attendance : Z;
  ai_recommendations : option string;
  predicted_attendance : option Z;
  created_at : option datetime;
  updated_at : option datetime
}.

Definition with_pk (v : option Z) (m : t) : t :=
  mk v (course m) (faculty m) (title m) (description m) (scheduled_date m)
     (start_time m) (end_time m) (venue m) (remedial_code m) (code_expiry m)
     (status m) (reason m) (max_attendance m) (ai_recommendations m)
     (predicted_attendance m) (created_at m) (updated_at m).

Definition with_code_expiry (v : option datetime) (m : t) : t :=
  mk (pk m) (course m) (faculty m) (title m) (description m) (scheduled_date m)
     (start_time m) (end_time m) (venue m) (remedial_code m) v
     (status m) (reason m) (max_attendance m) (ai_recommendations m)
     (predicted_attendance m) (created_at m) (updated_at m).

Definition with_status (v : Status) (m : t) : t :=
  mk (pk m) (course m) (faculty m) (title m) (description m) (scheduled_date m)
     (start_time m) (end_time m) (venue m) (remedial_code m) (code_expiry m)
     v (reason m) (max_attendance m) (ai_recommendations m)
     (predicted_attendance m) (created_at m) (updated_at m).

Definition with_created_at (v : option datetime) (m : t) : t :=
  mk (pk m) (course m) (faculty m) (title m) (description m) (scheduled_date m)
     (start_time m) (end_time m) (venue m) (remedial_code m) (code_expiry m)
     (status m) (reason m) (max_attendance m) (ai_recommendations m)
     (predicted_attendance m) v (updated_at m).

Definition with_updated_at (v : option datetime) (m : t) : t :=
  mk (pk m) (course m) (faculty m) (title m) (description m) (scheduled_date m)
     (start_time m) (end_time m) (venue m) (remedial_code m) (code_expiry m)
     (status m) (reason m) (max_attendance m) (ai_recommendations m)
     (predicted_attendance m) (created_at m) v.

(** [m.get_status_display()] *)
Definition get_status_display (m : t) : string :=
  match status m with
  | scheduled => "Scheduled"
  | active => "Active"
  | completed => "Completed"
  | cancelled => "Cancelled"
  end.

(** Truth values of the two fields the guard of [save] tests: a [date]
    and a [time] are always true. *)
Definition date_bool (_ : date) : bool := true.
Definition time_bool (_ : time) : bool := true.

Definition is_none {A : Type} (o : option A) : bool :=
  match o with None => true | Some _ => false end.

Section WithZone.
Context {zone : TimeZone}.

(** The expiry [save] gives a session that has none:
    [timezone.make_aware(combine(date, end_time)) + timedelta(hours=1)]. *)
Definition default_expiry (self : t) : datetime :=
  dt_add (make_aware (combine (scheduled_date self) (end_time self))) (hours 1).

(** The first statement of [save]. *)
Definition fill_code_expiry (self : t) : t :=
  if is_none (code_expiry self) && date_bool (scheduled_date self)
     && time_bool (end_time self)
  then with_code_expiry (Some (default_expiry self)) self
  else self.

(** What the table keeps of an instance: datetimes as absolute times. *)
Definition stored (self : t) : t :=
  with_code_expiry (option_map as_stored (code_expiry self)) self.

(** [super().save()]: the row is written under its key, a new key is
    drawn for an instance that has none, [updated_at] is refreshed
    (and [created_at] set on insertion), and the unique constraint on
    [remedial_code] is enforced against the other rows. *)
Definition super_save (now : datetime) (table : list t) (self : t)
  : result (t * list t) :=
  let others :=
    filter (fun r => negb (match pk self with
                           | Some k => opt_eqb (pk r) k
                           | None => false
                           end)) table in
  if existsb (fun r => String.eqb (remedial_code r) (remedial_code self)) others
  then Raise IntegrityError
  else
    let self := with_updated_at (Some now) self in
    match pk self with
    | Some k =>
        if existsb (fun r => opt_eqb (pk r) k) table
        then Ok (self,
                 map (fun r => if opt_eqb (pk r) k then stored self else r) table)
        else
          let self := with_created_at (Some now) self in
          Ok (self, (table ++ [stored self])%list)
    | None =>
        let k := next_pk (flat_map (fun r => match pk r with
                                             | Some k => [k]
                                             | None => []
                                             end) table) in
        let self := with_created_at (Some now) (with_pk (Some k) self) in
        Ok (self, (table ++ [stored self])%list)
    end.

(** [MakeUpClass.save] *)
Definition save (now : datetime) (table : list t) (self : t)
  : result (t * list t) :=
  super_save now table (fill_code_expiry self).

(** [MakeUpClass.is_code_valid], read when the clock shows [now]. *)
Definition is_code_valid (now : datetime) (self : t) : bool :=
  if status_eqb (status self) active && negb (is_none (code_expiry self))
  then match code_expiry self with
       | Some expiry => dt_lt now expiry
       | None => false
       end
  else false.

End WithZone.

(** [MakeUpClass.attendance_count] *)
Definition attendance_count (records : list AttendanceRecord.t) (self : t) : Z :=
  Z.of_nat (List.length
    (filter (fun r => opt_eqb (pk self) (AttendanceRecord.makeup_class r)
                      && AttendanceRecord.is_present r) records)).
End MakeUpClass.

(** The store: one table per model. *)
Record DB : Type := mk_DB {
  users : list User.t;
  profiles : list UserProfile.t;
  courses : list Course.t;
  makeup_classes : list MakeUpClass.t;
  attendance_records : list AttendanceRecord.t;
  notifications : list Notification.t
}.

Definition with_makeup_classes (v : list MakeUpClass.t) (db : DB) : DB :=
  mk_DB (users db) (profiles db) (courses db) v (attendance_records db)
        (notifications db).

Definition with_attendance_records (v : list AttendanceRecord.t) (db : DB) : DB :=
  mk_DB (users db) (profiles db) (courses db) (makeup_classes db) v
        (notifications db).

Definition with_notifications (v : list Notification.t) (db : DB) : DB :=
  mk_DB (users db) (profiles db) (courses db) (makeup_classes db)
        (attendance_records db) v.

(** [makeup.course]: the row the foreign key points to. *)
Definition course_of (db : DB) (m : MakeUpClass.t) : result Course.t :=
  objects_get "Course" (fun c => Course.pk c =? MakeUpClass.course m) (courses db).

(* ===================================================================== *)
(** * forms.py *)
(* ===================================================================== *)

Module AttendanceCodeForm.

Fixpoint has_nul (s : string) : bool :=
  match s with
  | String c rest => (nat_of_ascii c =? 0)%nat || has_nul rest
  | EmptyString => false
  end.

(** [clean_remedial_code] *)
Definition clean_remedial_code (value : string) : string :=
  Str.upper (Str.strip value).

(** [form.is_valid()] and [form.cleaned_data['remedial_code']] in one:
    [None] when the form is unbound or the field is rejected. The field
    is a required [CharField(max_length=20)]: its value is stripped,
    must not be empty, holds no null character and at most 20
    characters. *)
Definition cleaned_remedial_code (data : dict) : option string :=
  match data with
  | [] => None
  | _ =>
      match dict_get data "remedial_code" with
      | None => None
      | Some raw =>
          let value := Str.strip raw in
          if String.eqb value EmptyString then None
          else if has_nul value then None
          else if (20 <? String.length value)%nat then None
          else Some (clean_remedial_code value)
      end
  end.

End AttendanceCodeForm.

(* ===================================================================== *)
(** * views.py *)
(* ===================================================================== *)

Record HttpRequest : Type := mk_request {
  user : option User.t;      (* [None] is the anonymous user *)
  method : string;
  POST : dict;
  META : dict
}.

(** The [result] dictionary of [mark_attendance]. *)
Record CheckIn : Type := mk_result {
  status : string;
  message : string;
  class : option string
}.

Inductive HttpResponse : Type :=
| redirect (to : string) (pk : option Z)
| HttpResponseNotAllowed
| render_mark_attendance (result : option CheckIn)
| JsonResponse_chart (present absent enrolled : Z) (rate : Py.num).

Definition view : Type := DB -> HttpRequest -> result (DB * HttpResponse).

(** [@login_required] *)
Definition login_required (v : User.t -> view) : view :=
  fun db request =>
    match user request with
    | Some u => v u db request
    | None => Ok (db, redirect "login" None)
    end.

(** [@require_POST] *)
Definition require_POST (v : view) : view :=
  fun db request =>
    if String.eqb (method request) "POST" then v db request
    else Ok (db, HttpResponseNotAllowed).

Definition profile_of (db : DB) (u : User.t) : result UserProfile.t :=
  get_object_or_404 "UserProfile"
    (fun p => UserProfile.user p =? User.pk u) (profiles db).

(** The five outcomes of a check-in, as [mark_attendance] builds them. *)
Definition not_found : CheckIn :=
  mk_result "error" "Invalid remedial code. Please check and try again." None.

Definition not_enrolled : CheckIn :=
  mk_result "error" "You are not enrolled in this course." None.

Definition inactive_or_expired (makeup : MakeUpClass.t) : CheckIn :=
  mk_result "error"
    ("This code is not currently active. Class status: "
       ++ MakeUpClass.get_status_display makeup ++ ".") None.

Definition already_marked (makeup : MakeUpClass.t) : CheckIn :=
  mk_result "warning"
    ("You have already marked attendance for " ++ Str.dquote
       ++ MakeUpClass.title makeup ++ Str.dquote ++ ".") None.

Definition success (makeup : MakeUpClass.t) (c : Course.t) : CheckIn :=
  mk_result "success"
    ("Attendance marked successfully for " ++ Str.dquote
       ++ MakeUpClass.title makeup ++ Str.dquote ++ " — " ++ Course.code c ++ "!")
    (Some (MakeUpClass.title makeup)).

(** The origin address [mark_attendance] records: the first entry of
    [X-Forwarded-For] when the header is there, the peer address
    otherwise. *)
Definition client_ip (meta : dict) : option string :=
  match dict_get meta "HTTP_X_FORWARDED_FOR" with
  | Some (String c rest) => Some (Str.split_head "," (String c rest))
  | _ => dict_get meta "REMOTE_ADDR"
  end.

(** A saved instance's key; relating to an unsaved one is a [ValueError]. *)
Definition pk_of (m : MakeUpClass.t) : result Z :=
  match MakeUpClass.pk m with
  | Some k => Ok k
  | None => Raise ValueError
  end.

Section Views.
Context {zone : TimeZone}.
Context {ipv6 : IPv6Library}.

(** [AIService.send_code_notification] (ai_service.py) *)
Definition send_code_notification (now : datetime) (db : DB)
    (makeup_class : MakeUpClass.t) : result (DB * Z) :=
  c <- course_of db makeup_class ;;
  let enrolled_students := Course.students c in
  let alerts :=
    map (fun s =>
           Notification.new s Notification.code_generated
             ("Attendance Code Active: " ++ Course.code c)
             ("The remedial code for " ++ Str.dquote
                ++ MakeUpClass.title makeup_class ++ Str.dquote
                ++ " is now active. Use code: "
                ++ MakeUpClass.remedial_code makeup_class
                ++ " to mark your attendance. Code expires at "
                ++ match MakeUpClass.code_expiry makeup_class with
                   | Some e => strftime_IMp e
                   | None => "end of session"
                   end ++ ".")
             (MakeUpClass.pk makeup_class))
        enrolled_students in
  let db :=
    match alerts with
    | [] => db
    | _ => with_notifications
             (Notification.bulk_create now (notifications db) alerts) db
    end in
  Ok (db, Z.of_nat (List.length alerts)).

(** The lookup shared by the faculty actions:
    [get_object_or_404(MakeUpClass, pk=pk, faculty=request.user)]. *)
Definition owned_makeup (db : DB) (u : User.t) (pk : Z) : result MakeUpClass.t :=
  get_object_or_404 "MakeUpClass"
    (fun m => opt_eqb (MakeUpClass.pk m) pk
              && (MakeUpClass.faculty m =? User.pk u))
    (makeup_classes db).

(** [activate_code] *)
Definition activate_code (clock : Z) (pk : Z) : view :=
  login_required (fun u => require_POST (fun db request =>
    let now := timezone_now clock in
    makeup <- owned_makeup db u pk ;;
    let makeup := MakeUpClass.with_status active makeup in
    saved <- MakeUpClass.save now (makeup_classes db) makeup ;;
    let db := with_makeup_classes (snd saved) db in
    sent <- send_code_notification now db (fst saved) ;;
    Ok (fst sent, redirect "makeup_detail" (Some pk)))).

(** [complete_class] *)
Definition complete_class (clock : Z) (pk : Z) : view :=
  login_required (fun u => require_POST (fun db request =>
    let now := timezone_now clock in
    makeup <- owned_makeup db u pk ;;
    let makeup := MakeUpClass.with_status completed makeup in
    saved <- MakeUpClass.save now (makeup_classes db) makeup ;;
    let db := with_makeup_classes (snd saved) db in
    Ok (db, redirect "makeup_detail" (Some pk)))).

(** The body of the [try] statement of [mark_attendance], for a form
    that gave [code]. *)
Definition check_in (now : datetime) (u : User.t) (code : string) : view :=
  fun db request =>
    match objects_get "MakeUpClass"
            (fun m => String.eqb (MakeUpClass.remedial_code m) code)
            (makeup_classes db) with
    | Raise e =>
        if is_DoesNotExist "MakeUpClass" e
        then Ok (db, render_mark_attendance (Some not_found))
        else Raise e
    | Ok makeup =>
        c <- course_of db makeup ;;
        let enrolled := Course.has_student c (User.pk u) in
        if negb enrolled
        then Ok (db, render_mark_attendance (Some not_enrolled))
        else if negb (MakeUpClass.is_code_valid now makeup)
        then Ok (db, render_mark_attendance (Some (inactive_or_expired makeup)))
        else
          k <- pk_of makeup ;;
          if existsb (AttendanceRecord.for_pair k (User.pk u))
                     (attendance_records db)
          then Ok (db, render_mark_attendance (Some (already_marked makeup)))
          else
            let ip := client_ip (META request) in
            created <- AttendanceRecord.create now (attendance_records db)
                         k (User.pk u) true AttendanceRecord.code ip ;;
            let db := with_attendance_records (snd created) db in
            let db :=
              with_notifications
                (Notification.create now (notifications db)
                   (MakeUpClass.faculty makeup)
                   Notification.attendance_marked
                   "Attendance Marked"
                   (User.get_full_name u ++ " marked attendance for "
                      ++ Str.dquote ++ MakeUpClass.title makeup
                      ++ Str.dquote ++ ".")
                   (Some k)) db in
            Ok (db, render_mark_attendance (Some (success makeup c)))
    end.

(** [mark_attendance] *)
Definition mark_attendance (clock : Z) : view :=
  login_required (fun u db request =>
    let now := timezone_now clock in
    profile <- profile_of db u ;;
    if negb (UserProfile.role_eqb (UserProfile.role profile) UserProfile.student)
    then Ok (db, redirect "dashboard" None)
    else
      match (if String.eqb (method request) "POST"
             then AttendanceCodeForm.cleaned_remedial_code (POST request)
             else None) with
      | Some code => check_in now u code db request
      | None => Ok (db, render_mark_attendance None)
      end).

(** [api_attendance_chart] *)
Definition api_attendance_chart (makeup_pk : Z) : view :=
  login_required (fun u db request =>
    makeup <- get_object_or_404 "MakeUpClass"
                (fun m => opt_eqb (MakeUpClass.pk m) makeup_pk)
                (makeup_classes db) ;;
    let records :=
      filter (fun r => AttendanceRecord.makeup_class r =? makeup_pk)
             (attendance_records db) in
    let present :=
      Z.of_nat (List.length (filter AttendanceRecord.is_present records)) in
    c <- course_of db makeup ;;
    let enrolled := Course.students_count c in
    let absent := enrolled - present in
    rate <- (if negb (enrolled =? 0)
             then q <- Py.int_truediv present enrolled ;;
                  Ok (Py.Float (Py.round (Py.fmul q (Py.of_int 100)) 1))
             else Ok (Py.Int 0)) ;;
    Ok (db, JsonResponse_chart present (Z.max absent 0) enrolled rate)).

End Views.

(* ===================================================================== *)
(** * ai_service.py *)
(* ===================================================================== *)

(** [for x in xs: acc = step(acc, x)], where a step may raise. *)
Fixpoint for_each {A B : Type} (step : B -> A -> result B) (xs : list A) (acc : B)
  : result B :=
  match xs with
  | [] => Ok acc
  | x :: rest => acc <- step acc x ;; for_each step rest acc
  end.

(** A stable sort: [before a b] says that [a] may stand before [b]. It is
    what [order_by] and [list.sort] are taken to do with equal keys: the
    rows keep the order they had. *)
Fixpoint insert_sorted {A : Type} (before : A -> A -> bool) (x : A) (l : list A)
  : list A :=
  match l with
  | [] => [x]
  | y :: rest =>
      if before x y then x :: y :: rest else y :: insert_sorted before x rest
  end.

Definition stable_sort {A : Type} (before : A -> A -> bool) (l : list A) : list A :=
  fold_right (insert_sorted before) [] l.

Module AIService.

Record Prediction : Type := mk_prediction {
  predicted_count : Z;
  enrolled_count : Z;
  predicted_rate : Py.float;
  rush_level : string;
  confidence : Py.float
}.

Record Recommendation : Type := mk_recommendation {
  date_ : date;               (* printed by [isoformat] *)
  day : string;
  start_time : string;
  end_time : string;
  score : Z;
  reason : string
}.

Record Insight : Type := mk_insight {
  type : string;
  icon : string;
  text : string;
  severity : string
}.

Record Analysis : Type := mk_analysis {
  message : option string;
  insights : list Insight;
  total_classes : option Z
}.

(** ** predict_attendance *)

(** [MakeUpClass.objects.filter(course=course, status='completed')] *)
Definition completed_classes (db : DB) (c : Course.t) : list MakeUpClass.t :=
  filter (fun m => (MakeUpClass.course m =? Course.pk c)
                   && status_eqb (MakeUpClass.status m) completed)
         (makeup_classes db).

(** [... .order_by('-scheduled_date')[:10]] *)
Definition past_classes (db : DB) (c : Course.t) : list MakeUpClass.t :=
  firstn 10
    (stable_sort (fun a b => MakeUpClass.scheduled_date b
                             <=? MakeUpClass.scheduled_date a)
                 (completed_classes db c)).

(** The base rate: 0.75 without history, the mean attendance rate of
    the past classes otherwise. [counts] holds [cls.attendance_count]
    for each of the past classes, in their order. *)
Definition base_rate (enrolled_count : Z) (counts : list Z) : result Py.float :=
  match counts with
  | [] => Ok (Py.dec 75 2)
  | _ =>
      total_rate <-
        for_each (fun total_rate attendance_count =>
                    if 0 <? enrolled_count
                    then rate <- Py.int_truediv attendance_count enrolled_count ;;
                         Ok (Py.add total_rate (Py.Float rate))
                    else Ok total_rate)
                 counts (Py.Int 0) ;;
      Py.truediv total_rate (Py.Int (Z.of_nat (List.length counts)))
  end.

(** [day_factors.get(day, 0.80)] *)
Definition day_factor (day : Z) : Py.float :=
  match day with
  | 0 => Py.dec 85 2
  | 1 => Py.dec 90 2
  | 2 => Py.dec 88 2
  | 3 => Py.dec 92 2
  | 4 => Py.dec 80 2
  | 5 => Py.dec 60 2
  | 6 => Py.dec 45 2
  | _ => Py.dec 80 2
  end.

(** The time-of-day factor of a start hour. *)
Definition time_factor (hour : Z) : Py.float :=
  if (9 <=? hour) && (hour <=? 11) then Py.dec 95 2
  else if (14 <=? hour) && (hour <=? 16) then Py.dec 90 2
  else if (17 <=? hour) && (hour <=? 19) then Py.dec 75 2
  else Py.dec 65 2.

Definition rush_level_of (predicted_rate : Py.float) : string :=
  if Py.fgt predicted_rate (Py.dec 85 2) then "high"
  else if Py.fgt predicted_rate (Py.dec 65 2) then "medium"
  else "low".

(** [predicted_rate = base_rate * day_factor * time_factor] *)
Definition rate_of (base : Py.float) (scheduled_date : date) (start : time)
  : Py.float :=
  Py.fmul (Py.fmul base (day_factor (weekday scheduled_date)))
          (time_factor (hour start)).

Definition predict_attendance (db : DB) (c : Course.t) (scheduled_date : date)
    (start : time) : result Prediction :=
  let past := past_classes db c in
  let enrolled_count :=
    if Course.students_count c =? 0 then 30 else Course.students_count c in
  base <- base_rate enrolled_count
            (map (MakeUpClass.attendance_count (attendance_records db)) past) ;;
  let predicted_rate := rate_of base scheduled_date start in
  predicted_count <-
    Py.int_of_float (Py.fmul (Py.of_int enrolled_count) predicted_rate) ;;
  Ok (mk_prediction
        predicted_count
        enrolled_count
        (Py.round (Py.fmul predicted_rate (Py.of_int 100)) 1)
        (rush_level_of predicted_rate)
        (Py.round
           (Py.fmin (Py.dec 95 2)
              (Py.fadd (Py.dec 5 1)
                 (Py.fmul (Py.of_int (Z.of_nat (List.length past)))
                          (Py.dec 5 2))))
           2)).

(** ** get_schedule_recommendations *)

(** [int(time_str.split(':')[0])] *)
Definition hour_of (time_str : string) : result Z :=
  Str.to_int (Str.split_head ":" time_str).

Definition mem (x : Z) (l : list Z) : bool := existsb (Z.eqb x) l.

(** [_score_slot] *)
Definition _score_slot (d : date) (time_str : string) : result Z :=
  hour <- hour_of time_str ;;
  let day := weekday d in
  let score := 100 in
  let score := if mem day [1; 2; 3] then score + 10 else score in
  let score :=
    if (9 <=? hour) && (hour <=? 11) then score + 20
    else if (14 <=? hour) && (hour <=? 16) then score + 15
    else score in
  Ok score.

(** [_slot_reason] *)
Definition _slot_reason (d : date) (time_str : string) : result string :=
  hour <- hour_of time_str ;;
  let day := weekday d in
  let reasons := [] in
  let reasons :=
    if mem day [1; 2]
    then (reasons ++ ["Mid-week slots see higher attendance"])%list
    else reasons in
  let reasons :=
    if (9 <=? hour) && (hour <=? 11)
    then (reasons ++ ["Morning sessions have best engagement"])%list
    else if (14 <=? hour) && (hour <=? 16)
    then (reasons ++ ["Afternoon slots are well-attended"])%list
    else reasons in
  Ok (match reasons with
      | [] => "Good availability window"
      | _ => Str.join "; " reasons
      end).

Definition slots : list (string * string) :=
  [("09:00", "10:30"); ("10:30", "12:00"); ("14:00", "15:30"); ("15:30", "17:00")].

Definition good_days : list Z := [0; 1; 2; 3].

(** The booked slots: the date and the printed start time of every
    scheduled or active session of the course. Dates are compared
    themselves, their [isoformat] being one to one. *)
Definition booked_slots (db : DB) (c : Course.t) : list (date * string) :=
  map (fun m => (MakeUpClass.scheduled_date m,
                 strftime_HM (MakeUpClass.start_time m)))
      (filter (fun m => (MakeUpClass.course m =? Course.pk c)
                        && (status_eqb (MakeUpClass.status m) scheduled
                            || status_eqb (MakeUpClass.status m) active))
              (makeup_classes db)).

Definition is_booked (booked : list (date * string)) (d : date) (start : string)
  : bool :=
  existsb (fun b => (fst b =? d) && String.eqb (snd b) start) booked.

(** The inner loop: the free slots of one day are appended. *)
Definition scan_day (booked : list (date * string)) (check_date : date)
    (recommendations : list Recommendation) : result (list Recommendation) :=
  for_each (fun recommendations slot =>
              let '(start, end_) := slot in
              if negb (is_booked booked check_date start)
              then
                score <- _score_slot check_date start ;;
                reason <- _slot_reason check_date start ;;
                Ok (recommendations
                      ++ [mk_recommendation check_date (day_name check_date)
                            start end_ score reason])%list
              else Ok recommendations)
           slots recommendations.

(** The outer loop over the day offsets, with its [break]. *)
Fixpoint scan (booked : list (date * string)) (base : date) (offsets : list Z)
    (recommendations : list Recommendation) : result (list Recommendation) :=
  match offsets with
  | [] => Ok recommendations
  | i :: rest =>
      let check_date := base + i in
      if mem (weekday check_date) good_days
      then
        recommendations <- scan_day booked check_date recommendations ;;
        if (5 <=? List.length recommendations)%nat
        then Ok recommendations
        else scan booked base rest recommendations
      else scan booked base rest recommendations
  end.

(** [range(14)] *)
Definition range14 : list Z := map Z.of_nat (seq 0 14).

(** [recommendations.sort(key=score, reverse=True)] *)
Definition sort_by_score (l : list Recommendation) : list Recommendation :=
  stable_sort (fun a b => score b <=? score a) l.

Definition get_schedule_recommendations (clock : Z) (db : DB) (c : Course.t)
  : result (list Recommendation) :=
  let booked := booked_slots db c in
  let base := dt_date (timezone_now clock) + 1 in
  recommendations <- scan booked base range14 [] ;;
  Ok (firstn 5 (sort_by_score recommendations)).

(** ** analyze_attendance_patterns *)

(** [day_stats[day].append(rate)] on a dictionary that keeps the order
    in which its keys came. *)
Fixpoint append_to (stats : list (string * list Py.float)) (day : string)
    (rate : Py.float) : list (string * list Py.float) :=
  match stats with
  | [] => [(day, [rate])]
  | (k, v) :: rest =>
      if String.eqb k day then (k, (v ++ [rate])%list) :: rest
      else (k, v) :: append_to rest day rate
  end.

(** [sum(xs) / len(xs)] *)
Definition mean (xs : list Py.float) : result Py.float :=
  Py.truediv (Py.sum xs) (Py.Int (Z.of_nat (List.length xs))).

(** [max(day_stats, key=mean, default=None)]: the first key whose mean
    no later one exceeds. *)
Definition best_day_of (stats : list (string * list Py.float))
  : result (option string) :=
  match stats with
  | [] => Ok None
  | (k0, v0) :: rest =>
      m0 <- mean v0 ;;
      best <- for_each (fun best kv =>
                          m <- mean (snd kv) ;;
                          if Py.fgt m (snd best) then Ok (fst kv, m) else Ok best)
                       rest (k0, m0) ;;
      Ok (Some (fst best))
  end.

(** [cls.attendance_count / enrolled * 100] *)
Definition rate_percent (db : DB) (enrolled : Z) (cls : MakeUpClass.t)
  : result Py.float :=
  q <- Py.int_truediv (MakeUpClass.attendance_count (attendance_records db) cls)
                      enrolled ;;
  Ok (Py.fmul q (Py.of_int 100)).

(** [map], where the function may raise. *)
Definition map_each {A B : Type} (f : A -> result B) (xs : list A)
  : result (list B) :=
  for_each (fun acc x => y <- f x ;; Ok (acc ++ [y])%list) xs [].

(** The rates of the completed sessions, oldest first. *)
Definition rates_by_date (db : DB) (c : Course.t) (enrolled : Z)
  : result (list Py.float) :=
  map_each (rate_percent db enrolled)
    (stable_sort (fun a b => MakeUpClass.scheduled_date a
                             <=? MakeUpClass.scheduled_date b)
                 (completed_classes db c)).

(** [sum(rates[-3:]) / 3] and [sum(rates[:3]) / 3] *)
Definition recent_avg (rates : list Py.float) : result Py.float :=
  Py.truediv (Py.sum (Py.last_n 3 rates)) (Py.Int 3).
Definition older_avg (rates : list Py.float) : result Py.float :=
  Py.truediv (Py.sum (Py.first_n 3 rates)) (Py.Int 3).

(** The dictionary appended for the trend. *)
Definition trend_insight (trend : string) (recent older : Py.float) : Insight :=
  mk_insight "trend"
    (if String.eqb trend "improving" then "📈" else "📉")
    ("Attendance is " ++ trend ++ " (recent: " ++ Str.format_1f recent
       ++ "% vs earlier: " ++ Str.format_1f older ++ "%)")
    (if String.eqb trend "improving" then "info" else "warning").

(** The block under [# Overall trend]. *)
Definition trend_block (rates : list Py.float) (insights : list Insight)
  : result (list Insight) :=
  if (3 <=? List.length rates)%nat
  then
    recent <- recent_avg rates ;;
    older <- older_avg rates ;;
    let trend := if Py.fgt recent older then "improving" else "declining" in
    Ok (insights ++ [trend_insight trend recent older])%list
  else Ok insights.

(** The block under [# Day analysis]. *)
Definition day_block (db : DB) (enrolled : Z) (classes : list MakeUpClass.t)
    (insights : list Insight) : result (list Insight) :=
  day_stats <-
    for_each (fun day_stats cls =>
                rate <- rate_percent db enrolled cls ;;
                Ok (append_to day_stats
                      (day_name (MakeUpClass.scheduled_date cls)) rate))
             classes [] ;;
  best_day <- best_day_of day_stats ;;
  match best_day with
  | Some (String ch rest as best) =>
      let values :=
        match find (fun kv => String.eqb (fst kv) best) day_stats with
        | Some kv => snd kv
        | None => []
        end in
      avg <- mean values ;;
      Ok (insights
            ++ [mk_insight "best_day" "📅"
                  (best ++ " shows the highest average attendance ("
                     ++ Str.format_1f avg ++ "%)")
                  "success"])%list
  | _ => Ok insights
  end.

Definition analyze_attendance_patterns (db : DB) (c : Course.t) : result Analysis :=
  let classes := completed_classes db c in
  match classes with
  | [] => Ok (mk_analysis (Some "Not enough data for analysis yet.") [] None)
  | _ =>
      let insights := [] in
      let enrolled :=
        if Course.students_count c =? 0 then 1 else Course.students_count c in
      insights <- day_block db enrolled classes insights ;;
      rates <- rates_by_date db c enrolled ;;
      insights <- trend_block rates insights ;;
      Ok (mk_analysis None insights (Some (Z.of_nat (List.length classes))))
  end.

End AIService.

(* ===================================================================== *)
(** * Sample data *)
(* ===================================================================== *)

Module Sample.

(** Two settings: UTC, and a zone five and a half hours ahead of it. *)
Definition utc : TimeZone := {| utcoffset := fun _ => 0 |}.
Definition ist : TimeZone := {| utcoffset := fun _ => 19800000000 |}.

Definition at_ (t : Z) : datetime := mk_datetime t UTC.

(** A library that knows one IPv6 address, in two spellings. *)
Definition ipv6 : IPv6Library :=
  {| clean_ipv6_address := fun text =>
       if String.eqb text "2001:0DB8:0:0:0:0:0:1" || String.eqb text "2001:db8::1"
       then Some "2001:db8::1"
       else None |}.

Definition lecturer : User.t := User.mk 1 "faculty1" "Sarah" "Johnson".
Definition pupil : User.t := User.mk 2 "student1" "Student1" "Smith".
Definition stranger : User.t := User.mk 3 "student2" "Student2" "Smith".

Definition people : list UserProfile.t :=
  [UserProfile.mk 1 UserProfile.faculty "Computer Science" EmptyString EmptyString;
   UserProfile.mk 2 UserProfile.student "Computer Science" "CS-2024-001" EmptyString;
   UserProfile.mk 3 UserProfile.student "Computer Science" "CS-2024-002" EmptyString].

Definition cs301 : Course.t :=
  Course.mk 1 "Data Structures" "CS301" (Some 1) [2] "Computer Science" "Spring".

(** A session on day 738159, a Tuesday, from 10:00 to 11:30. *)
Definition session (st : Status) (expiry : option datetime) : MakeUpClass.t :=
  MakeUpClass.mk (Some 1) 1 1 "Linked Lists Review" EmptyString 738159
    (mk_time 10 0 0 0) (mk_time 11 30 0 0) "Room 301" "AB12CD34" expiry st
    EmptyString 100 None None (Some (at_ 0)) (Some (at_ 0)).

Definition store (st : Status) (expiry : option datetime)
    (records : list AttendanceRecord.t) : DB :=
  mk_DB [lecturer; pupil; stranger] people [cs301] [session st expiry] records [].

Definition post (u : User.t) (code : string) : HttpRequest :=
  mk_request (Some u) "POST" [("remedial_code", code)]
    [("REMOTE_ADDR", "10.0.0.7")].

Definition old_mark : AttendanceRecord.t :=
  AttendanceRecord.mk 1 1 2 true (at_ 5) AttendanceRecord.code EmptyString None None.

(** A course of thirty students with three completed sessions, attended
    by 20, 25 and 30 of them. *)
Definition big_course : Course.t :=
  Course.mk 7 "Algorithms" "CS302" (Some 1) (map Z.of_nat (seq 1 30)) EmptyString EmptyString.

Definition past (k : Z) (d : date) : MakeUpClass.t :=
  MakeUpClass.mk (Some k) 7 1 "Review" EmptyString d (mk_time 10 0 0 0)
    (mk_time 11 30 0 0) "Room 301" ("CODE000" ++ Str.of_int k) (Some (at_ 0))
    completed EmptyString 100 None None (Some (at_ 0)) (Some (at_ 0)).

Definition marks (k : Z) (n : nat) : list AttendanceRecord.t :=
  map (fun i => AttendanceRecord.mk (100 * k + Z.of_nat i) k (Z.of_nat i) true
                  (at_ 0) AttendanceRecord.code EmptyString None None)
      (seq 1 n).

Definition history : DB :=
  mk_DB [] [] [big_course]
    [past 1 738130; past 2 738137; past 3 738144]
    (marks 1 20 ++ marks 2 25 ++ marks 3 30)%list [].

(** A course of three students with four completed sessions, a week
    apart, attended by 1, 3, 2 and 1 of them. *)
Definition trio : Course.t :=
  Course.mk 9 "Compilers" "CS303" (Some 1) [1; 2; 3] EmptyString EmptyString.

Definition held (k : Z) (d : date) : MakeUpClass.t :=
  MakeUpClass.mk (Some k) 9 1 "Exercises" EmptyString d (mk_time 10 0 0 0)
    (mk_time 11 30 0 0) "Room 301" ("CODE00" ++ Str.of_int k) (Some (at_ 0))
    completed EmptyString 100 None None (Some (at_ 0)) (Some (at_ 0)).

Definition uneven : DB :=
  mk_DB [] [] [trio]
    [held 11 738130; held 12 738137; held 13 738144; held 14 738151]
    (marks 11 1 ++ marks 12 3 ++ marks 13 2 ++ marks 14 1)%list [].

End Sample.

(** The status of the session stored under a key. *)
Definition status_at (db : DB) (k : Z) : option Status :=
  option_map MakeUpClass.status
    (find (fun m => opt_eqb (MakeUpClass.pk m) k) (makeup_classes db)).


(** The store a view leaves behind; an exception leaves it as it was. *)
Definition store_after (db : DB) (r : result (DB * HttpResponse)) : DB :=
  match r with
  | Ok (db', _) => db'
  | Raise _ => db
  end.

(* ===================================================================== *)
(** * The vocabulary of the check-in properties *)
(* ===================================================================== *)

Section Vocabulary.
Context {zone : TimeZone}.
Context {ipv6 : IPv6Library}.

(** The session a submitted code designates. *)
Definition held_by (db : DB) (code : string) (makeup : MakeUpClass.t) : Prop :=
  objects_get "MakeUpClass"
    (fun m => String.eqb (MakeUpClass.remedial_code m) code)
    (makeup_classes db) = Ok makeup.

(** The student is a member of the course. *)
Definition enrolled_in (u : User.t) (c : Course.t) : Prop :=
  In (User.pk u) (Course.students c).

(** The session is not active, or the clock has reached its expiry. *)
Definition expired (clock : Z) (makeup : MakeUpClass.t) : Prop :=
  MakeUpClass.status makeup <> active
  \/ exists e, MakeUpClass.code_expiry makeup = Some e /\ instant e <= clock.

(** The session is active and the clock is before its expiry. *)
Definition valid (clock : Z) (makeup : MakeUpClass.t) : Prop :=
  MakeUpClass.status makeup = active
  /\ exists e, MakeUpClass.code_expiry makeup = Some e /\ clock < instant e.

(** A mark exists for the student at the session of key [k]. *)
Definition marked (db : DB) (u : User.t) (k : Z) : Prop :=
  exists r, In r (attendance_records db)
            /\ AttendanceRecord.makeup_class r = k
            /\ AttendanceRecord.student r = User.pk u.

(** No other row of the table holds the code of [self]: the unique
    constraint lets [self] be written. *)
Definition code_is_free (table : list MakeUpClass.t) (self : MakeUpClass.t) : Prop :=
  forall r, In r table ->
    MakeUpClass.remedial_code r = MakeUpClass.remedial_code self ->
    exists k, MakeUpClass.pk self = Some k /\ MakeUpClass.pk r = Some k.

End Vocabulary.

(** The time-of-day table as the specification words it, each range
    half-open on the start hour: an hour at the upper end of a range is
    outside it. It is compared with [AIService.time_factor] below. *)
Definition time_factor_half_open (hour : Z) : Py.float :=
  if (9 <=? hour) && (hour <? 11) then Py.dec 95 2
  else if (14 <=? hour) && (hour <? 16) then Py.dec 90 2
  else if (17 <=? hour) && (hour <? 19) then Py.dec 75 2
  else Py.dec 65 2.

(** ** The vocabulary of the recommendation properties *)

(** One recommendation stands before another: its score is not smaller. *)
Definition score_ge (a b : AIService.Recommendation) : Prop :=
  AIService.score b <= AIService.score a.

(** One recommendation stands strictly before another, as the
    specification words the order of the result. *)
Definition score_gt (a b : AIService.Recommendation) : Prop :=
  AIService.score b < AIService.score a.

(** The number of slots a day contributes to the scan: its free slots if
    it is one of the good days, none otherwise. *)
Definition day_count (booked : list (date * string)) (d : date) : nat :=
  if AIService.mem (weekday d) AIService.good_days
  then List.length
         (filter (fun slot => negb (AIService.is_booked booked d (fst slot)))
                 AIService.slots)
  else 0%nat.

(** The number of candidates the days before offset [i] contribute. *)
Definition collected_before (booked : list (date * string)) (base : date) (i : nat)
  : nat :=
  list_sum (map (fun j => day_count booked (base + Z.of_nat j)) (seq 0 i)).

(** ** The vocabulary of the trend *)




(* ===================================================================== *)
(** * The rest of the code: generation, enrollment, the inbox, alerts *)
(* ===================================================================== *)

(** ** models.py: the code generator *)

(** [string.ascii_uppercase + string.digits] *)
Definition code_alphabet : list ascii :=
  list_ascii_of_string "ABCDEFGHIJKLMNOPQRSTUVWXYZ0123456789".

(** [generate_remedial_code]. [random.choices(population, k=8)] takes
    [population[floor(random() * 36)]] eight times; [draws i] is that
    index at draw [i], a number below 36 since [random()] is below 1. *)
Definition generate_remedial_code (draws : nat -> nat) : string :=
  string_of_list_ascii
    (map (fun i => nth (draws i) code_alphabet "A"%char) (seq 0 8)).

(** [makeup.remedial_code = v] *)
Definition set_remedial_code (v : string) (m : MakeUpClass.t) : MakeUpClass.t :=
  MakeUpClass.mk (MakeUpClass.pk m) (MakeUpClass.course m) (MakeUpClass.faculty m)
    (MakeUpClass.title m) (MakeUpClass.description m)
    (MakeUpClass.scheduled_date m) (MakeUpClass.start_time m)
    (MakeUpClass.end_time m) (MakeUpClass.venue m) v
    (MakeUpClass.code_expiry m) (MakeUpClass.status m) (MakeUpClass.reason m)
    (MakeUpClass.max_attendance m) (MakeUpClass.ai_recommendations m)
    (MakeUpClass.predicted_attendance m) (MakeUpClass.created_at m)
    (MakeUpClass.updated_at m).

(** ** The calendar *)

(** [date.year], [date.month] and [date.day] of an ordinal from 1 (the
    first of January of year 1) on, as the interpreter splits it: by
    cycles of 400, 100 and 4 years. *)
Definition days_before_month (month : Z) : Z :=
  nth (Z.to_nat month) [0; 0; 31; 59; 90; 120; 151; 181; 212; 243; 273; 304; 334] 0.

Definition days_in_month (month : Z) : Z :=
  nth (Z.to_nat month) [0; 31; 28; 31; 30; 31; 30; 31; 31; 30; 31; 30; 31] 0.

Definition ord2ymd (ordinal : date) : Z * Z * Z :=
  let n := ordinal - 1 in
  let n400 := n / 146097 in
  let n := n mod 146097 in
  let year := n400 * 400 + 1 in
  let n100 := n / 36524 in
  let n := n mod 36524 in
  let n4 := n / 1461 in
  let n := n mod 1461 in
  let n1 := n / 365 in
  let n := n mod 365 in
  let year := year + n100 * 100 + n4 * 4 + n1 in
  if (n1 =? 4) || (n100 =? 4) then (year - 1, 12, 31)
  else
    let leapyear := (n1 =? 3) && (negb (n4 =? 24) || (n100 =? 3)) in
    let month := Z.shiftr (n + 50) 5 in
    let preceding :=
      days_before_month month + (if (2 <? month) && leapyear then 1 else 0) in
    if n <? preceding
    then
      let month := month - 1 in
      let preceding :=
        preceding
        - (days_in_month month + (if (month =? 2) && leapyear then 1 else 0)) in
      (year, month, n - preceding + 1)
    else (year, month, n - preceding + 1).

Definition month_name (month : Z) : string :=
  nth (Z.to_nat month)
      [EmptyString; "January"; "February"; "March"; "April"; "May"; "June";
       "July"; "August"; "September"; "October"; "November"; "December"]
      EmptyString.

(** [d.strftime("%B %d, %Y")] *)
Definition strftime_BdY (d : date) : string :=
  let '(year, month, day) := ord2ymd d in
  month_name month ++ " " ++ Str.two_digits day ++ ", " ++ Str.of_int year.

(** [t.strftime("%I:%M %p")] on a [datetime.time] *)
Definition time_strftime_IMp (t : time) : string :=
  Str.two_digits ((hour t + 11) mod 12 + 1) ++ ":" ++ Str.two_digits (minute t)
    ++ " " ++ (if hour t <? 12 then "AM" else "PM").

(** ** ai_service.py: the alerts of a new session *)

(** [AIService.generate_auto_alerts] *)
Definition generate_auto_alerts (now : datetime) (db : DB)
    (makeup_class : MakeUpClass.t) : result (DB * Z) :=
  c <- course_of db makeup_class ;;
  let enrolled_students := Course.students c in
  let alerts :=
    map (fun s =>
           Notification.new s Notification.makeup_scheduled
             ("Makeup Class: " ++ Course.code c)
             ("A makeup class " ++ Str.dquote ++ MakeUpClass.title makeup_class
                ++ Str.dquote ++ " has been scheduled for "
                ++ strftime_BdY (MakeUpClass.scheduled_date makeup_class)
                ++ " at "
                ++ time_strftime_IMp (MakeUpClass.start_time makeup_class)
                ++ " in " ++ MakeUpClass.venue makeup_class ++ ". "
                ++ "Your remedial code will be shared before the session.")
             (MakeUpClass.pk makeup_class))
        enrolled_students in
  let db :=
    match alerts with
    | [] => db
    | _ => with_notifications
             (Notification.bulk_create now (notifications db) alerts) db
    end in
  Ok (db, Z.of_nat (List.length alerts)).

(** ** views.py: the views that answer in JSON, and the inbox *)

Inductive json : Type :=
| JStr (s : string)
| JBool (b : bool)
| JInt (n : Z).

(** The responses of these views: those of the views above, a
    [JsonResponse] with its status, and the page of the inbox. *)
Inductive Reply : Type :=
| page (r : HttpResponse)
| JsonResponse (status : Z) (body : list (string * json))
| render_notifications (rows : list Notification.t) (profile : UserProfile.t)
| render_makeup_detail (makeup : MakeUpClass.t) (profile : UserProfile.t)
    (attendance_records : list AttendanceRecord.t) (enrolled_count : Z)
    (ai_insights : option AIService.Analysis)
    (prediction : option AIService.Prediction)
    (my_record : option AttendanceRecord.t).

(** [@login_required] and [@require_POST], for a view of any response. *)
Definition login_required_as {R : Type} (inj : HttpResponse -> R)
    (v : User.t -> DB -> HttpRequest -> result (DB * R))
  : DB -> HttpRequest -> result (DB * R) :=
  fun db request =>
    match user request with
    | Some u => v u db request
    | None => Ok (db, inj (redirect "login" None))
    end.

Definition require_POST_as {R : Type} (inj : HttpResponse -> R)
    (v : DB -> HttpRequest -> result (DB * R))
  : DB -> HttpRequest -> result (DB * R) :=
  fun db request =>
    if String.eqb (method request) "POST" then v db request
    else Ok (db, inj HttpResponseNotAllowed).

Definition with_courses (v : list Course.t) (db : DB) : DB :=
  mk_DB (users db) (profiles db) v (makeup_classes db) (attendance_records db)
        (notifications db).

(** [course.students.add(user)]: a member is not added again. The list
    keeps the members in the order they joined; the order in which
    [course.students.all()] hands them over is the database's (there is
    no ORDER BY), so nothing below depends on the order of the list. *)
Definition add_student (user_pk : Z) (c : Course.t) : Course.t :=
  if Course.has_student c user_pk then c
  else Course.mk (Course.pk c) (Course.name c) (Course.code c) (Course.faculty c)
         (Course.students c ++ [user_pk])%list (Course.department c)
         (Course.semester c).

(** [notification.is_read = True] *)
Definition mark_read (n : Notification.t) : Notification.t :=
  Notification.mk (Notification.pk n) (Notification.recipient n)
    (Notification.notification_type n) (Notification.title n)
    (Notification.message n) true (Notification.related_class n)
    (Notification.created_at n).

(** [Notification.objects.filter(recipient=user, is_read=False).count()] *)
Definition unread_count (db : DB) (u : User.t) : Z :=
  Z.of_nat (List.length
    (filter (fun n => (Notification.recipient n =? User.pk u)
                      && negb (Notification.is_read n))
            (notifications db))).

Module views.
Section WithZone.
Context {zone : TimeZone}.
Context {ipv6 : IPv6Library}.

(** [regenerate_code]; [draws] is the random source of the generator. *)
Definition regenerate_code (draws : nat -> nat) (clock pk : Z)
  : DB -> HttpRequest -> result (DB * Reply) :=
  login_required_as page (fun u => require_POST_as page (fun db request =>
    profile <- profile_of db u ;;
    if negb (UserProfile.role_eqb (UserProfile.role profile) UserProfile.faculty)
    then Ok (db, JsonResponse 403 [("error", JStr "Unauthorized")])
    else
      makeup <- owned_makeup db u pk ;;
      let makeup := set_remedial_code (generate_remedial_code draws) makeup in
      saved <- MakeUpClass.save (timezone_now clock) (makeup_classes db) makeup ;;
      Ok (with_makeup_classes (snd saved) db,
          JsonResponse 200
            [("code", JStr (MakeUpClass.remedial_code (fst saved)));
             ("success", JBool true)]))).

(** [enroll_course] *)
Definition enroll_course : DB -> HttpRequest -> result (DB * Reply) :=
  login_required_as page (fun u => require_POST_as page (fun db request =>
    profile <- profile_of db u ;;
    if negb (UserProfile.role_eqb (UserProfile.role profile) UserProfile.student)
    then Ok (db, JsonResponse 403 [("error", JStr "Only students can enroll")])
    else
      let course_code :=
        Str.upper (Str.strip (match dict_get (POST request) "course_code" with
                              | Some v => v
                              | None => EmptyString
                              end)) in
      match objects_get "Course"
              (fun c => String.eqb (Course.code c) course_code) (courses db) with
      | Ok course =>
          let db :=
            with_courses
              (map (fun c => if Course.pk c =? Course.pk course
                             then add_student (User.pk u) c else c)
                   (courses db)) db in
          Ok (db, JsonResponse 200
                    [("success", JBool true);
                     ("course", JStr (Course.name course));
                     ("code", JStr (Course.code course))])
      | Raise e =>
          if is_DoesNotExist "Course" e
          then Ok (db, JsonResponse 404
                         [("error", JStr "Course not found with that code.")])
          else Raise e
      end)).

(** [api_unread_count] *)
Definition api_unread_count : DB -> HttpRequest -> result (DB * Reply) :=
  login_required_as page (fun u db request =>
    Ok (db, JsonResponse 200 [("count", JInt (unread_count db u))])).

(** The time a stored notification was created. *)
Definition created_key (n : Notification.t) : Z :=
  match Notification.created_at n with
  | Some d => instant d
  | None => 0
  end.

(** [notifications]. The unread rows of the user are updated before the
    profile is looked up, so the update is kept when the lookup raises:
    the view returns the store beside its outcome. The rows handed to the
    page are read after the update, newest first ([ordering] of the
    model). *)
Definition notifications (db : DB) (request : HttpRequest) : DB * result Reply :=
  match user request with
  | None => (db, Ok (page (redirect "login" None)))
  | Some u =>
      let db :=
        with_notifications
          (map (fun n => if (Notification.recipient n =? User.pk u)
                            && negb (Notification.is_read n)
                         then mark_read n else n)
               (notifications db)) db in
      let notifs :=
        stable_sort (fun a b => created_key b <=? created_key a)
          (filter (fun n => Notification.recipient n =? User.pk u)
                  (notifications db)) in
      (db, profile <- profile_of db u ;; Ok (render_notifications notifs profile))
  end.

(** [makeup_detail]. The two access checks come first; the course of
    the session is read for a student in the second check, and for every
    user who passes the checks. *)
Definition makeup_detail (pk : Z) : DB -> HttpRequest -> result (DB * Reply) :=
  login_required_as page (fun u db request =>
    makeup <- get_object_or_404 "MakeUpClass"
                (fun m => opt_eqb (MakeUpClass.pk m) pk) (makeup_classes db) ;;
    profile <- profile_of db u ;;
    let is_faculty :=
      UserProfile.role_eqb (UserProfile.role profile) UserProfile.faculty in
    let is_student :=
      UserProfile.role_eqb (UserProfile.role profile) UserProfile.student in
    if is_faculty && negb (MakeUpClass.faculty makeup =? User.pk u)
    then Ok (db, page (redirect "makeup_list" None))
    else
      outsider <- (if is_student
                   then c <- course_of db makeup ;;
                        Ok (negb (Course.has_student c (User.pk u)))
                   else Ok false) ;;
      if (outsider : bool)
      then Ok (db, page (redirect "dashboard" None))
      else
        let records :=
          filter (fun r => AttendanceRecord.makeup_class r =? pk)
                 (attendance_records db) in
        c <- course_of db makeup ;;
        let enrolled_count := Course.students_count c in
        if is_faculty
        then
          ai_insights <- AIService.analyze_attendance_patterns db c ;;
          prediction <- AIService.predict_attendance db c
                          (MakeUpClass.scheduled_date makeup)
                          (MakeUpClass.start_time makeup) ;;
          Ok (db, render_makeup_detail makeup profile records enrolled_count
                    (Some ai_insights) (Some prediction) None)
        else
          let my_record :=
            head (filter (AttendanceRecord.for_pair pk (User.pk u))
                         (attendance_records db)) in
          Ok (db, render_makeup_detail makeup profile records enrolled_count
                    None None my_record)).

End WithZone.
End views.

(** ** forms.py: the validation of a new session *)

Module MakeUpClassForm.





End MakeUpClassForm.

(** ** The vocabulary of the further properties *)

(** A text of ASCII characters: those on which the model of [str.strip]
    and [str.upper] is that of the interpreter. *)
Definition ascii_text (s : string) : Prop :=
  forall c, In c (list_ascii_of_string s) -> (nat_of_ascii c < 128)%nat.


(** The constraints of the table of sessions: every row has a key, no two
    rows share a key, no two rows share a code. *)
Definition sessions_ok (table : list MakeUpClass.t) : Prop :=
  NoDup (map MakeUpClass.pk table)
  /\ NoDup (map MakeUpClass.remedial_code table)
  /\ forall r, In r table -> MakeUpClass.pk r <> None.

(** The session and the student of a mark. *)
Definition mark_pair (r : AttendanceRecord.t) : Z * Z :=
  (AttendanceRecord.makeup_class r, AttendanceRecord.student r).

(** [unique_together]: no two marks for one session and one student. *)
Definition marks_ok (records : list AttendanceRecord.t) : Prop :=
  NoDup (map mark_pair records).

(** An upper-case letter or a digit. *)
Definition is_code_char (c : ascii) : bool :=
  let n := nat_of_ascii c in
  ((65 <=? n) && (n <=? 90) || (48 <=? n) && (n <=? 57))%nat.

(* ===================================================================== *)
(** * Properties *)
(* ===================================================================== *)

(** ** The validity of a code *)

Section CodeValidity.
Context {zone : TimeZone}.
Context {ipv6 : IPv6Library}.

Lemma now_before (clock : Z) (e : datetime) :
  dt_lt (timezone_now clock) e = (clock <? instant e).
Proof.
  unfold dt_lt, instant, timezone_now; simpl.
  destruct (tz e); reflexivity.
Qed.

Lemma status_eqb_eq (a b : Status) : status_eqb a b = true <-> a = b.
Proof. destruct a, b; simpl; split; intro H; congruence. Qed.

Lemma is_code_valid_spec (clock : Z) (m : MakeUpClass.t) :
  MakeUpClass.is_code_valid (timezone_now clock) m = true <->
  MakeUpClass.status m = active /\
  exists e, MakeUpClass.code_expiry m = Some e /\ clock < instant e.
Proof.
  unfold MakeUpClass.is_code_valid.
  destruct (status_eqb (MakeUpClass.status m) active) eqn:Hs; simpl.
  - apply status_eqb_eq in Hs.
    destruct (MakeUpClass.code_expiry m) as [e|]; simpl.
    + rewrite now_before, Z.ltb_lt. split.
      * intro H. split; [assumption | exists e; split; [reflexivity | assumption]].
      * intros [_ [e' [He' Hlt]]]. injection He' as <-. assumption.
    + split; [discriminate | intros [_ [e [He _]]]; discriminate].
  - split; [discriminate|].
    intros [Hact _]. apply status_eqb_eq in Hact. congruence.
Qed.

(** C3. [is_code_valid] holds exactly when the session is active and the
    clock is strictly before the stored expiry; in particular it fails
    when the clock reads the expiry itself. *)
Theorem is_code_valid_iff (clock : Z) (m : MakeUpClass.t) :
  (MakeUpClass.is_code_valid (timezone_now clock) m = true <->
     MakeUpClass.status m = active /\
     exists e, MakeUpClass.code_expiry m = Some e /\ clock < instant e)
  /\ (MakeUpClass.status m <> active ->
      MakeUpClass.is_code_valid (timezone_now clock) m = false)
  /\ (forall e, MakeUpClass.code_expiry m = Some e -> instant e <= clock ->
      MakeUpClass.is_code_valid (timezone_now clock) m = false).
Proof.
  split; [apply is_code_valid_spec|]. split.
  - intro Hs. apply not_true_is_false. intro Hv.
    apply is_code_valid_spec in Hv. tauto.
  - intros e He Hle. apply not_true_is_false. intro Hv.
    apply is_code_valid_spec in Hv. destruct Hv as [_ [e' [He' Hlt]]].
    rewrite He in He'. injection He' as <-. lia.
Qed.

End CodeValidity.

(** An active session whose expiry is 17:00 UTC, written in a zone five
    and a half hours ahead: valid one microsecond before, not at the
    expiry itself. *)
Lemma is_code_valid_iff_witness :
  let e := mk_datetime 1000 Local in
  let m := Sample.session active (Some e) in
  @instant Sample.ist e = -19799999000
  /\ @MakeUpClass.is_code_valid Sample.ist (timezone_now (-19799999001)) m = true
  /\ @MakeUpClass.is_code_valid Sample.ist (timezone_now (-19799999000)) m = false.
Proof.
  intros e m. split; [reflexivity|]. split.
  - apply (proj1 (@is_code_valid_iff Sample.ist (-19799999001) m)).
    split; [reflexivity|]. exists e. split; [reflexivity|]. vm_compute. reflexivity.
  - apply (proj2 (proj2 (@is_code_valid_iff Sample.ist (-19799999000) m)) e).
    + reflexivity.
    + vm_compute. discriminate.
Defined.

(** ** Check-in *)

Lemma filter_none {A : Type} (f : A -> bool) (l : list A) :
  (forall x, In x l -> f x = false) -> filter f l = [].
Proof.
  induction l as [|a l IH]; intro H; simpl; [reflexivity|].
  rewrite (H a (or_introl eq_refl)). apply IH.
  intros x Hx. apply H. right. assumption.
Qed.

Lemma has_student_In (c : Course.t) (k : Z) :
  Course.has_student c k = true <-> In k (Course.students c).
Proof.
  unfold Course.has_student. rewrite existsb_exists. split.
  - intros [x [Hx He]]. apply Z.eqb_eq in He. subst x. assumption.
  - intro H. exists k. split; [assumption | apply Z.eqb_refl].
Qed.

Lemma for_pair_exists (table : list AttendanceRecord.t) (m s : Z) :
  existsb (AttendanceRecord.for_pair m s) table = true <->
  exists r, In r table /\ AttendanceRecord.makeup_class r = m
            /\ AttendanceRecord.student r = s.
Proof.
  rewrite existsb_exists. unfold AttendanceRecord.for_pair.
  split; intros [r [Hr H]]; exists r; split; try assumption.
  - apply andb_true_iff in H. destruct H as [H1 H2].
    apply Z.eqb_eq in H1, H2. split; assumption.
  - destruct H as [-> ->]. rewrite !Z.eqb_refl. reflexivity.
Qed.

Section CheckIn.
Context {zone : TimeZone}.
Context {ipv6 : IPv6Library}.

Variable clock : Z.
Variable db : DB.
Variable request : HttpRequest.
Variable u : User.t.
Variable code : string.

Lemma expired_not_valid (makeup : MakeUpClass.t) :
  expired clock makeup -> MakeUpClass.is_code_valid (timezone_now clock) makeup = false.
Proof.
  intro Hx. apply not_true_is_false. intro Hv.
  apply is_code_valid_spec in Hv. destruct Hv as [Hact [e' [He' Hlt]]].
  destruct Hx as [Hs | [e [He Hle]]]; [contradiction|].
  rewrite He in He'. injection He' as <-. lia.
Qed.

Lemma valid_is_valid (makeup : MakeUpClass.t) :
  valid clock makeup -> MakeUpClass.is_code_valid (timezone_now clock) makeup = true.
Proof. intro H. apply is_code_valid_spec. exact H. Qed.

Hypothesis Huser : user request = Some u.
Hypothesis Hstudent :
  exists profile, profile_of db u = Ok profile
                  /\ UserProfile.role profile = UserProfile.student.
Hypothesis Hpost : method request = "POST".
Hypothesis Hform :
  AttendanceCodeForm.cleaned_remedial_code (POST request) = Some code.

Lemma mark_attendance_check_in :
  mark_attendance clock db request
  = check_in (timezone_now clock) u code db request.
Proof.
  unfold mark_attendance, login_required. rewrite Huser.
  destruct Hstudent as [profile [Hp Hr]]. rewrite Hp. simpl.
  rewrite Hr, Hpost, Hform. reflexivity.
Qed.

(** C1. The outcomes of a check-in are decided in this order: a code no
    session holds gives [not_found]; then a student who is not enrolled
    gets [not_enrolled], whatever the state of the code; then an inactive
    or expired code gives [inactive_or_expired], whether or not a mark
    exists; then an existing mark gives [already_marked]; and only then
    does the check-in succeed. The four refusals leave the store as it
    was. *)
Theorem checkin_precedence :
  ((forall m, In m (makeup_classes db) -> MakeUpClass.remedial_code m <> code) ->
   mark_attendance clock db request
   = Ok (db, render_mark_attendance (Some not_found)))
  /\ (forall makeup c k,
        held_by db code makeup -> course_of db makeup = Ok c ->
        MakeUpClass.pk makeup = Some k ->
        (~ enrolled_in u c ->
         mark_attendance clock db request
         = Ok (db, render_mark_attendance (Some not_enrolled)))
        /\ (~ enrolled_in u c -> expired clock makeup ->
            mark_attendance clock db request
            = Ok (db, render_mark_attendance (Some not_enrolled)))
        /\ (enrolled_in u c -> expired clock makeup ->
            mark_attendance clock db request
            = Ok (db, render_mark_attendance (Some (inactive_or_expired makeup))))
        /\ (enrolled_in u c -> valid clock makeup -> marked db u k ->
            mark_attendance clock db request
            = Ok (db, render_mark_attendance (Some (already_marked makeup))))
        /\ (enrolled_in u c -> valid clock makeup -> ~ marked db u k ->
            exists db',
              mark_attendance clock db request
              = Ok (db', render_mark_attendance (Some (success makeup c))))).
Proof.
  rewrite mark_attendance_check_in. unfold check_in. split.
  - intro Hnone. unfold objects_get. rewrite filter_none; [reflexivity|].
    intros m Hm. apply String.eqb_neq. apply Hnone. assumption.
  - intros makeup c k Hheld Hc Hk. unfold held_by in Hheld.
    rewrite Hheld, Hc. simpl.
    assert (Hout : ~ enrolled_in u c -> Course.has_student c (User.pk u) = false).
    { intro Hn. apply not_true_is_false. intro H. apply Hn.
      apply has_student_In. assumption. }
    assert (Hin : enrolled_in u c -> Course.has_student c (User.pk u) = true).
    { intro H. apply has_student_In. assumption. }
    repeat split.
    + intro Hn. rewrite (Hout Hn). reflexivity.
    + intros Hn _. rewrite (Hout Hn). reflexivity.
    + intros He Hx. rewrite (Hin He), (expired_not_valid makeup Hx). reflexivity.
    + intros He Hv Hm. rewrite (Hin He), (valid_is_valid makeup Hv).
      unfold pk_of. rewrite Hk. simpl.
      rewrite (proj2 (for_pair_exists _ _ _) Hm). reflexivity.
    + intros He Hv Hm. rewrite (Hin He), (valid_is_valid makeup Hv).
      unfold pk_of. rewrite Hk. simpl.
      assert (Hfree : existsb (AttendanceRecord.for_pair k (User.pk u))
                              (attendance_records db) = false).
      { apply not_true_is_false. intro H. apply Hm.
        apply for_pair_exists. assumption. }
      rewrite Hfree. unfold AttendanceRecord.create. rewrite Hfree. simpl.
      eexists. reflexivity.
Qed.

End CheckIn.

(** A student who is not enrolled presents, in lower case and with a
    blank, the code of a completed session whose expiry has passed: the
    answer is [not_enrolled]. *)
Lemma checkin_precedence_witness :
  @mark_attendance Sample.utc Sample.ipv6 500
    (Sample.store completed (Some (Sample.at_ 100)) [])
    (Sample.post Sample.stranger " ab12cd34")
  = Ok (Sample.store completed (Some (Sample.at_ 100)) [],
        render_mark_attendance (Some not_enrolled)).
Proof.
  pose proof (@checkin_precedence Sample.utc Sample.ipv6 500
                (Sample.store completed (Some (Sample.at_ 100)) [])
                (Sample.post Sample.stranger " ab12cd34")
                Sample.stranger "AB12CD34" eq_refl) as H.
  destruct H as [_ H].
  - exists (UserProfile.mk 3 UserProfile.student "Computer Science" "CS-2024-002"
                           EmptyString).
    split; reflexivity.
  - reflexivity.
  - reflexivity.
  - destruct (H (Sample.session completed (Some (Sample.at_ 100))) Sample.cs301 1
                eq_refl eq_refl eq_refl) as [_ [H2 _]].
    apply H2.
    + unfold enrolled_in. simpl. intros [E | []]. discriminate E.
    + left. simpl. discriminate.
Defined.

Section CheckInEffect.
Context {zone : TimeZone}.
Context {ipv6 : IPv6Library}.

Lemma check_in_success (now : datetime) (u : User.t) (code : string)
    (db db' : DB) (request : HttpRequest) (r : CheckIn) :
  check_in now u code db request = Ok (db', render_mark_attendance (Some r)) ->
  status r = "success" ->
  exists makeup c k,
    held_by db code makeup
    /\ course_of db makeup = Ok c
    /\ MakeUpClass.pk makeup = Some k
    /\ Course.has_student c (User.pk u) = true
    /\ MakeUpClass.is_code_valid now makeup = true
    /\ existsb (AttendanceRecord.for_pair k (User.pk u)) (attendance_records db)
       = false
    /\ r = success makeup c
    /\ db' = with_notifications
               (Notification.create now (notifications db)
                  (MakeUpClass.faculty makeup) Notification.attendance_marked
                  "Attendance Marked"
                  (User.get_full_name u ++ " marked attendance for "
                     ++ Str.dquote ++ MakeUpClass.title makeup ++ Str.dquote ++ ".")
                  (Some k))
               (with_attendance_records
                  (attendance_records db
                     ++ [AttendanceRecord.mk
                           (next_pk (map AttendanceRecord.pk (attendance_records db)))
                           k (User.pk u) true now AttendanceRecord.code EmptyString
                           (GenericIPAddressField.get_db_prep_value
                              (client_ip (META request)))
                           None])%list
                  db).
Proof.
  unfold check_in, held_by. intros H Hs.
  destruct (objects_get "MakeUpClass" _ (makeup_classes db)) as [makeup|e] eqn:Hget.
  - destruct (course_of db makeup) as [c|e] eqn:Hc; simpl in H; [|discriminate].
    destruct (Course.has_student c (User.pk u)) eqn:Hin; simpl in H;
      [|injection H as _ <-; discriminate Hs].
    destruct (MakeUpClass.is_code_valid now makeup) eqn:Hv; simpl in H;
      [|injection H as _ <-; discriminate Hs].
    unfold pk_of in H.
    destruct (MakeUpClass.pk makeup) as [k|] eqn:Hk; simpl in H; [|discriminate].
    destruct (existsb (AttendanceRecord.for_pair k (User.pk u))
                      (attendance_records db)) eqn:Hm;
      [injection H as _ <-; discriminate Hs|].
    unfold AttendanceRecord.create in H. rewrite Hm in H. simpl in H.
    injection H as <- <-.
    exists makeup, c, k. repeat split; reflexivity || assumption.
  - destruct (is_DoesNotExist "MakeUpClass" e); [|discriminate].
    injection H as _ <-. discriminate Hs.
Qed.


End CheckInEffect.


(** ** The expiry of a session *)

Lemma next_pk_fresh (pks : list Z) (k : Z) : In k pks -> k < next_pk pks.
Proof.
  unfold next_pk. induction pks as [|a l IH]; cbn [fold_right In]; [contradiction|].
  intros [-> | H]; [lia|]. specialize (IH H). lia.
Qed.

Lemma opt_eqb_eq (o : option Z) (k : Z) : opt_eqb o k = true <-> o = Some k.
Proof.
  destruct o as [x|]; simpl.
  - rewrite Z.eqb_eq. split; congruence.
  - split; discriminate.
Qed.

Lemma find_replaced {A : Type} (p : A -> bool) (x : A) (l : list A) :
  p x = true -> existsb p l = true ->
  find p (map (fun r => if p r then x else r) l) = Some x.
Proof.
  intros Hx. induction l as [|a l IH]; simpl; [discriminate|].
  destruct (p a) eqn:Ha; simpl.
  - rewrite Hx. reflexivity.
  - rewrite Ha. exact IH.
Qed.

Lemma objects_get_In {A : Type} (model : string) (p : A -> bool) (l : list A)
    (x : A) :
  objects_get model p l = Ok x -> In x l /\ p x = true.
Proof.
  unfold objects_get. intro H.
  destruct (filter p l) as [|a [|b rest]] eqn:Hf; try discriminate.
  injection H as ->. apply filter_In. rewrite Hf. left. reflexivity.
Qed.

Lemma get_object_or_404_In {A : Type} (model : string) (p : A -> bool)
    (l : list A) (x : A) :
  get_object_or_404 model p l = Ok x -> In x l /\ p x = true.
Proof.
  unfold get_object_or_404. intro H. apply (objects_get_In model).
  destruct (objects_get model p l) as [a|[]]; congruence.
Qed.

Section Expiry.
Context {zone : TimeZone}.
Context {ipv6 : IPv6Library}.

Lemma as_stored_idem (e : datetime) : as_stored (as_stored e) = as_stored e.
Proof. reflexivity. Qed.


Lemma code_is_free_existsb (table : list MakeUpClass.t) (self : MakeUpClass.t) :
  code_is_free table self ->
  existsb (fun r => String.eqb (MakeUpClass.remedial_code r)
                               (MakeUpClass.remedial_code self))
    (filter (fun r => negb (match MakeUpClass.pk self with
                            | Some k => opt_eqb (MakeUpClass.pk r) k
                            | None => false
                            end)) table) = false.
Proof.
  intro Hfree. apply not_true_is_false. intro H.
  apply existsb_exists in H. destruct H as [r [Hr Hcode]].
  apply filter_In in Hr. destruct Hr as [Hr Hpk].
  apply String.eqb_eq in Hcode.
  destruct (Hfree r Hr Hcode) as [k [Hs Hk]].
  rewrite Hs, Hk in Hpk. simpl in Hpk. rewrite Z.eqb_refl in Hpk. discriminate.
Qed.

(** What [super().save()] does to a row whose code is free. *)
Lemma super_save_ok (now : datetime) (table : list MakeUpClass.t)
    (self : MakeUpClass.t) :
  code_is_free table self ->
  exists self' table',
    MakeUpClass.super_save now table self = Ok (self', table')
    /\ MakeUpClass.code_expiry self' = MakeUpClass.code_expiry self
    /\ MakeUpClass.status self' = MakeUpClass.status self
    /\ In (MakeUpClass.stored self') table'
    /\ exists k, MakeUpClass.pk self' = Some k
         /\ (forall r, In r table' -> MakeUpClass.pk r = Some k ->
               r = MakeUpClass.stored self')
         /\ (forall j, MakeUpClass.pk self = Some j -> j = k).
Proof.
  intro Hfree. unfold MakeUpClass.super_save.
  rewrite (code_is_free_existsb table self Hfree). simpl.
  destruct (MakeUpClass.pk self) as [k|] eqn:Hpk.
  - destruct (existsb (fun r => opt_eqb (MakeUpClass.pk r) k) table) eqn:Hex.
    + eexists _, _. split; [reflexivity|]. simpl.
      split; [reflexivity|]. split; [reflexivity|]. split.
      * apply existsb_exists in Hex. destruct Hex as [r [Hr Hk]].
        apply in_map_iff. exists r. rewrite Hk. split; [reflexivity | assumption].
      * exists k. split; [assumption|]. split; [|intros j Hj; congruence].
        intros r Hr Hk. apply in_map_iff in Hr. destruct Hr as [r0 [Hr0 _]].
        destruct (opt_eqb (MakeUpClass.pk r0) k) eqn:E; [congruence|].
        subst r0. apply opt_eqb_eq in Hk. congruence.
    + eexists _, _. split; [reflexivity|]. simpl.
      split; [reflexivity|]. split; [reflexivity|]. split.
      * apply in_or_app. right. left. reflexivity.
      * exists k. split; [assumption|]. split; [|intros j Hj; congruence].
        intros r Hr Hk. apply in_app_or in Hr. destruct Hr as [Hr | [Hr | []]].
        -- exfalso. apply opt_eqb_eq in Hk.
           assert (existsb (fun r => opt_eqb (MakeUpClass.pk r) k) table = true)
             by (apply existsb_exists; exists r; split; assumption).
           congruence.
        -- symmetry. exact Hr.
  - eexists _, _. split; [reflexivity|]. simpl.
    split; [reflexivity|]. split; [reflexivity|]. split.
    + apply in_or_app. right. left. reflexivity.
    + eexists. split; [reflexivity|]. split; [|intros j Hj; discriminate].
      intros r Hr Hk. apply in_app_or in Hr. destruct Hr as [Hr | [Hr | []]].
      * exfalso.
        assert (Hlt : next_pk (flat_map (fun r => match MakeUpClass.pk r with
                                                  | Some k => [k]
                                                  | None => []
                                                  end) table)
                      < next_pk (flat_map (fun r => match MakeUpClass.pk r with
                                                    | Some k => [k]
                                                    | None => []
                                                    end) table)).
        { apply next_pk_fresh. apply in_flat_map. exists r. split; [assumption|].
          rewrite Hk. left. reflexivity. }
        lia.
      * symmetry. exact Hr.
Qed.

Lemma super_save_update (now : datetime) (table : list MakeUpClass.t)
    (self : MakeUpClass.t) (k : Z) :
  code_is_free table self ->
  MakeUpClass.pk self = Some k ->
  existsb (fun r => opt_eqb (MakeUpClass.pk r) k) table = true ->
  MakeUpClass.super_save now table self
  = Ok (MakeUpClass.with_updated_at (Some now) self,
        map (fun r => if opt_eqb (MakeUpClass.pk r) k
                      then MakeUpClass.stored
                             (MakeUpClass.with_updated_at (Some now) self)
                      else r) table).
Proof.
  intros Hfree Hpk Hex. unfold MakeUpClass.super_save.
  rewrite (code_is_free_existsb table self Hfree). simpl.
  rewrite Hpk, Hex. reflexivity.
Qed.

Lemma find_pk_unique (table : list MakeUpClass.t) (x : MakeUpClass.t) (k : Z) :
  In x table -> MakeUpClass.pk x = Some k ->
  (forall r, In r table -> MakeUpClass.pk r = Some k -> r = x) ->
  find (fun m => opt_eqb (MakeUpClass.pk m) k) table = Some x.
Proof.
  intros Hin Hpk Huniq.
  destruct (find (fun m => opt_eqb (MakeUpClass.pk m) k) table) as [r|] eqn:Hf.
  - apply find_some in Hf. destruct Hf as [Hr Hk]. apply opt_eqb_eq in Hk.
    rewrite (Huniq r Hr Hk). reflexivity.
  - exfalso. pose proof (find_none _ _ Hf x Hin) as H. simpl in H.
    rewrite Hpk in H. simpl in H. rewrite Z.eqb_refl in H. discriminate.
Qed.

Lemma fill_keeps (m : MakeUpClass.t) (e : datetime) :
  MakeUpClass.code_expiry m = Some e -> MakeUpClass.fill_code_expiry m = m.
Proof. unfold MakeUpClass.fill_code_expiry. intros ->. reflexivity. Qed.


(** What [save] does, whatever the expiry of the instance. *)
Lemma save_ok (now : datetime) (table : list MakeUpClass.t) (m : MakeUpClass.t)
    (e : datetime) :
  code_is_free table m ->
  MakeUpClass.code_expiry (MakeUpClass.fill_code_expiry m) = Some e ->
  exists m' table' k,
    MakeUpClass.save now table m = Ok (m', table')
    /\ MakeUpClass.pk m' = Some k
    /\ MakeUpClass.code_expiry m' = Some e
    /\ (exists r, In r table' /\ MakeUpClass.pk r = Some k)
    /\ (forall r, In r table' -> MakeUpClass.pk r = Some k ->
          MakeUpClass.code_expiry r = Some (as_stored e)).
Proof.
  intros Hfree He. unfold MakeUpClass.save.
  assert (Hfree' : code_is_free table (MakeUpClass.fill_code_expiry m)).
  { unfold MakeUpClass.fill_code_expiry.
    destruct (_ && _); [|exact Hfree]. exact Hfree. }
  destruct (super_save_ok now table _ Hfree')
    as (m' & table' & Hs & Hexp & _ & Hin & k & Hk & Huniq & _).
  exists m', table', k. split; [exact Hs|]. split; [exact Hk|].
  rewrite Hexp, He. split; [reflexivity|]. split.
  - exists (MakeUpClass.stored m'). split; [exact Hin | exact Hk].
  - intros r Hr Hrk. rewrite (Huniq r Hr Hrk). simpl. rewrite Hexp, He. reflexivity.
Qed.


End Expiry.


(** ** The status of a session *)

Section Lifecycle.
Context {zone : TimeZone}.
Context {ipv6 : IPv6Library}.

Lemma find_other (table : list MakeUpClass.t) (row : MakeUpClass.t) (k j : Z) :
  MakeUpClass.pk row = Some k -> j <> k ->
  find (fun m => opt_eqb (MakeUpClass.pk m) j)
       (map (fun r => if opt_eqb (MakeUpClass.pk r) k then row else r) table)
  = find (fun m => opt_eqb (MakeUpClass.pk m) j) table.
Proof.
  intros Hrow Hjk. induction table as [|a l IH]; simpl; [reflexivity|].
  destruct (opt_eqb (MakeUpClass.pk a) k) eqn:Ha.
  - apply opt_eqb_eq in Ha. rewrite Hrow, Ha. simpl.
    destruct (Z.eqb_spec k j); [congruence | exact IH].
  - rewrite IH. reflexivity.
Qed.

(** Writing back a row read from the table, with a new status. *)
Lemma save_with_status (now : datetime) (table : list MakeUpClass.t)
    (m : MakeUpClass.t) (k : Z) (s : Status) :
  In m table -> MakeUpClass.pk m = Some k -> code_is_free table m ->
  exists m' row,
    MakeUpClass.save now table (MakeUpClass.with_status s m)
    = Ok (m', map (fun r => if opt_eqb (MakeUpClass.pk r) k then row else r) table)
    /\ MakeUpClass.pk row = Some k
    /\ MakeUpClass.status row = s
    /\ MakeUpClass.course m' = MakeUpClass.course m.
Proof.
  intros Hin Hpk Hfree. unfold MakeUpClass.save.
  set (m1 := MakeUpClass.fill_code_expiry (MakeUpClass.with_status s m)).
  assert (H1 : MakeUpClass.pk m1 = Some k
               /\ MakeUpClass.status m1 = s
               /\ MakeUpClass.course m1 = MakeUpClass.course m
               /\ MakeUpClass.remedial_code m1 = MakeUpClass.remedial_code m).
  { unfold m1, MakeUpClass.fill_code_expiry.
    destruct (_ && _); simpl; repeat split; assumption || reflexivity. }
  destruct H1 as (Hk1 & Hs1 & Hc1 & Hcode1).
  assert (Hfree1 : code_is_free table m1).
  { intros r Hr Hcode. rewrite Hcode1 in Hcode.
    destruct (Hfree r Hr Hcode) as [j [Hj Hrj]].
    exists j. split; [congruence | exact Hrj]. }
  assert (Hex : existsb (fun r => opt_eqb (MakeUpClass.pk r) k) table = true).
  { apply existsb_exists. exists m. split; [exact Hin | apply opt_eqb_eq; exact Hpk]. }
  rewrite (super_save_update now table m1 k Hfree1 Hk1 Hex).
  eexists _, _. split; [reflexivity|]. simpl. repeat split; assumption.
Qed.

Lemma status_after_save (db : DB) (table : list MakeUpClass.t)
    (row : MakeUpClass.t) (k : Z) :
  MakeUpClass.pk row = Some k ->
  existsb (fun r => opt_eqb (MakeUpClass.pk r) k) (makeup_classes db) = true ->
  table = map (fun r => if opt_eqb (MakeUpClass.pk r) k then row else r)
              (makeup_classes db) ->
  forall db', makeup_classes db' = table ->
  status_at db' k = Some (MakeUpClass.status row)
  /\ forall j, j <> k -> status_at db' j = status_at db j.
Proof.
  intros Hrow Hex -> db' Hdb'. unfold status_at. rewrite Hdb'. split.
  - rewrite (find_replaced (fun r => opt_eqb (MakeUpClass.pk r) k));
      [reflexivity | apply opt_eqb_eq; exact Hrow | exact Hex].
  - intros j Hj. rewrite (find_other _ row k j Hrow Hj). reflexivity.
Qed.

Lemma sent_keeps_sessions (now : datetime) (db db' : DB) (m : MakeUpClass.t)
    (n : Z) :
  send_code_notification now db m = Ok (db', n) ->
  makeup_classes db' = makeup_classes db.
Proof.
  unfold send_code_notification.
  destruct (course_of db m) as [c|e]; simpl; [|discriminate].
  intro H. injection H as <- _.
  destruct (map _ (Course.students c)); reflexivity.
Qed.

(** C7, as the code has it. For the faculty member who owns the session,
    [complete_class] stores [completed] and [activate_code] stores
    [active], whatever the status was: a completed session stays
    completed under [complete_class], but [activate_code] takes a
    completed or cancelled session back to [active], and [complete_class]
    takes a cancelled one to [completed]. The other sessions keep their
    status, and no operation stores [scheduled] or [cancelled]. *)
Theorem status_is_overwritten (clock pk : Z) (db : DB) (request : HttpRequest)
    (u : User.t) (m : MakeUpClass.t) (c : Course.t) :
  user request = Some u -> method request = "POST" ->
  owned_makeup db u pk = Ok m ->
  code_is_free (makeup_classes db) m ->
  course_of db m = Ok c ->
  (exists db' response,
     complete_class clock pk db request = Ok (db', response)
     /\ status_at db' pk = Some completed
     /\ forall j, j <> pk -> status_at db' j = status_at db j)
  /\ (exists db' response,
        activate_code clock pk db request = Ok (db', response)
        /\ status_at db' pk = Some active
        /\ forall j, j <> pk -> status_at db' j = status_at db j).
Proof.
  intros Hu Hpost Hown Hfree Hc.
  destruct (get_object_or_404_In _ _ _ _ Hown) as [Hin Hp].
  apply andb_true_iff in Hp. destruct Hp as [Hpk _]. apply opt_eqb_eq in Hpk.
  assert (Hex : existsb (fun r => opt_eqb (MakeUpClass.pk r) pk)
                        (makeup_classes db) = true).
  { apply existsb_exists. exists m. split; [exact Hin | apply opt_eqb_eq; exact Hpk]. }
  split.
  - unfold complete_class, login_required, require_POST.
    rewrite Hu, Hpost. simpl. rewrite Hown. simpl.
    destruct (save_with_status (timezone_now clock) _ m pk completed Hin Hpk Hfree)
      as (m' & row & Hsave & Hrow & Hst & _).
    rewrite Hsave. simpl. eexists _, _. split; [reflexivity|].
    rewrite <- Hst.
    apply (status_after_save db _ row pk Hrow Hex eq_refl). reflexivity.
  - unfold activate_code, login_required, require_POST.
    rewrite Hu, Hpost. simpl. rewrite Hown. simpl.
    destruct (save_with_status (timezone_now clock) _ m pk active Hin Hpk Hfree)
      as (m' & row & Hsave & Hrow & Hst & Hcourse).
    rewrite Hsave. simpl.
    destruct (send_code_notification (timezone_now clock) _ m') as [[db' n]|e]
      eqn:Hsent.
    + simpl. eexists _, _. split; [reflexivity|].
      rewrite <- Hst.
      apply (status_after_save db _ row pk Hrow Hex eq_refl).
      rewrite (sent_keeps_sessions _ _ _ _ _ Hsent). reflexivity.
    + exfalso. unfold send_code_notification in Hsent.
      unfold course_of in Hsent, Hc. simpl in Hsent.
      rewrite Hcourse, Hc in Hsent. discriminate.
Qed.

End Lifecycle.

(** C7, as the specification has it, fails. A scheduled session is
    completed by its owner, who then activates it: the completed session
    is active again. *)
Lemma completed_is_left :
  let request := Sample.post Sample.lecturer EmptyString in
  let db0 := Sample.store scheduled (Some (Sample.at_ 1000)) [] in
  let db1 := store_after db0 (@complete_class Sample.utc 100 1 db0 request) in
  let db2 := store_after db1 (@activate_code Sample.utc 200 1 db1 request) in
  status_at db0 1 = Some scheduled
  /\ status_at db1 1 = Some completed
  /\ status_at db2 1 = Some active.
Proof. vm_compute. repeat split. Qed.

(** The same two requests, through the theorem. *)
Lemma status_is_overwritten_witness :
  let request := Sample.post Sample.lecturer EmptyString in
  let db := Sample.store completed (Some (Sample.at_ 1000)) [] in
  exists db' response,
    @activate_code Sample.utc 200 1 db request = Ok (db', response)
    /\ status_at db' 1 = Some active.
Proof.
  intros request db.
  destruct (@status_is_overwritten Sample.utc 200 1 db request Sample.lecturer
              (Sample.session completed (Some (Sample.at_ 1000))) Sample.cs301
              eq_refl eq_refl eq_refl)
    as [_ (db' & response & Hrun & Hst & _)].
  - intros r [<- | []] _. exists 1. split; reflexivity.
  - reflexivity.
  - exists db', response. split; assumption.
Defined.

(** ** The time-of-day factor *)

(** C6, as the code has it. The factor is 0.95 for the start hours 9, 10
    and 11, 0.90 for 14, 15 and 16, 0.75 for 17, 18 and 19, and 0.65 for
    every other hour: each range contains both of its ends. It is the
    third factor of the predicted rate. *)
Theorem time_factor_closed_ranges (h : Z) :
  (9 <= h <= 11 -> AIService.time_factor h = Py.dec 95 2)
  /\ (14 <= h <= 16 -> AIService.time_factor h = Py.dec 90 2)
  /\ (17 <= h <= 19 -> AIService.time_factor h = Py.dec 75 2)
  /\ (h < 9 \/ 11 < h < 14 \/ 19 < h -> AIService.time_factor h = Py.dec 65 2)
  /\ (forall base d start,
        hour start = h ->
        AIService.rate_of base d start
        = Py.fmul (Py.fmul base (AIService.day_factor (weekday d)))
                  (AIService.time_factor h)).
Proof.
  unfold AIService.time_factor. repeat split.
  - intro H. destruct (Z.leb_spec 9 h); [|lia].
    destruct (Z.leb_spec h 11); [reflexivity | lia].
  - intro H. destruct (Z.leb_spec 9 h); destruct (Z.leb_spec h 11);
      try lia; simpl;
      (destruct (Z.leb_spec 14 h); [|lia]);
      (destruct (Z.leb_spec h 16); [reflexivity | lia]).
  - intro H. destruct (Z.leb_spec 9 h); destruct (Z.leb_spec h 11);
      try lia; simpl;
      (destruct (Z.leb_spec 14 h); destruct (Z.leb_spec h 16); try lia; simpl);
      (destruct (Z.leb_spec 17 h); [|lia]);
      (destruct (Z.leb_spec h 19); [reflexivity | lia]).
  - intro H. destruct (Z.leb_spec 9 h); destruct (Z.leb_spec h 11);
      try lia; simpl;
      (destruct (Z.leb_spec 14 h); destruct (Z.leb_spec h 16); try lia; simpl);
      (destruct (Z.leb_spec 17 h); destruct (Z.leb_spec h 19); try lia; simpl);
      reflexivity.
  - intros base d start <-. reflexivity.
Qed.

(** A session starting at 11:45 has the morning factor. *)
Lemma time_factor_closed_ranges_witness :
  AIService.time_factor (hour (mk_time 11 45 0 0)) = Py.dec 95 2.
Proof.
  apply (proj1 (time_factor_closed_ranges 11)). simpl. lia.
Defined.

(** C6, as the specification has it, fails at the upper end of each range:
    the hours 11, 16 and 19 get the factor of their range, not 0.65 and
    not the factor of the half-open table. *)
Lemma time_factor_not_half_open :
  AIService.time_factor 11 = Py.dec 95 2
  /\ time_factor_half_open 11 = Py.dec 65 2
  /\ AIService.time_factor 11 <> time_factor_half_open 11
  /\ AIService.time_factor 16 <> time_factor_half_open 16
  /\ AIService.time_factor 19 <> time_factor_half_open 19.
Proof.
  split; [reflexivity|]. split; [reflexivity|].
  repeat split; vm_compute; discriminate.
Qed.

(** ** The attendance tally *)

Lemma int_truediv_ok (a b : Z) :
  b <> 0 -> exists q, Py.int_truediv a b = Ok q.
Proof.
  intro Hb. unfold Py.int_truediv.
  destruct (Z.eqb_spec b 0); [contradiction|].
  destruct (a =? 0); eexists; reflexivity.
Qed.

(** C10. The tally never divides by zero. For a session that exists, it
    answers with the store untouched; the absent count is
    [max(enrolled - present, 0)], so it is never negative, and is 0 when
    the marks exceed the enrollment; and with no enrolled student the
    rate is the integer 0. *)
Theorem attendance_chart_total (makeup_pk : Z) (db : DB) (request : HttpRequest) :
  api_attendance_chart makeup_pk db request <> Raise ZeroDivisionError
  /\ (forall u makeup c,
        user request = Some u ->
        get_object_or_404 "MakeUpClass"
          (fun m => opt_eqb (MakeUpClass.pk m) makeup_pk) (makeup_classes db)
        = Ok makeup ->
        course_of db makeup = Ok c ->
        let present :=
          Z.of_nat (List.length
            (filter AttendanceRecord.is_present
               (filter (fun r => AttendanceRecord.makeup_class r =? makeup_pk)
                       (attendance_records db)))) in
        let enrolled := Course.students_count c in
        exists absent rate,
          api_attendance_chart makeup_pk db request
          = Ok (db, JsonResponse_chart present absent enrolled rate)
          /\ absent = Z.max (enrolled - present) 0
          /\ 0 <= absent
          /\ (enrolled < present -> absent = 0)
          /\ (enrolled = 0 -> rate = Py.Int 0)).
Proof.
  split.
  - unfold api_attendance_chart, login_required.
    destruct (user request) as [u|]; [|discriminate].
    destruct (get_object_or_404 _ _ _) as [makeup|e] eqn:Hget; simpl.
    + destruct (course_of db makeup) as [c|e] eqn:Hc; simpl.
      * destruct (Z.eqb_spec (Course.students_count c) 0) as [E|E]; simpl;
          [discriminate|].
        destruct (int_truediv_ok
                    (Z.of_nat (List.length
                       (filter AttendanceRecord.is_present
                          (filter (fun r => AttendanceRecord.makeup_class r =? makeup_pk)
                                  (attendance_records db)))))
                    (Course.students_count c) E) as [q Hq].
        rewrite Hq. simpl. discriminate.
      * unfold course_of, objects_get in Hc.
        destruct (filter _ (courses db)) as [|a [|b l]]; congruence.
    + unfold get_object_or_404, objects_get in Hget.
      destruct (filter _ (makeup_classes db)) as [|a [|b l]]; congruence.
  - intros u makeup c Hu Hget Hc present enrolled.
    unfold api_attendance_chart, login_required.
    rewrite Hu, Hget. simpl. rewrite Hc. simpl. fold present. fold enrolled.
    destruct (Z.eqb_spec enrolled 0) as [E|E]; simpl.
    + eexists _, _. split; [reflexivity|]. repeat split; try lia.
    + destruct (int_truediv_ok present enrolled E) as [q Hq].
      rewrite Hq. simpl. eexists _, _. split; [reflexivity|].
      repeat split; try lia.
Qed.

(** A course without students, whose only session holds one mark: the
    tally answers 1 present, 0 absent, 0 enrolled, rate 0. *)
Lemma attendance_chart_total_witness :
  let db := mk_DB [Sample.lecturer] Sample.people
              [Course.mk 1 "Data Structures" "CS301" (Some 1) [] EmptyString EmptyString]
              [Sample.session completed (Some (Sample.at_ 1000))]
              [Sample.old_mark] [] in
  api_attendance_chart 1 db (Sample.post Sample.lecturer EmptyString)
  = Ok (db, JsonResponse_chart 1 0 0 (Py.Int 0)).
Proof.
  intro db.
  destruct (proj2 (attendance_chart_total 1 db
                     (Sample.post Sample.lecturer EmptyString))
              Sample.lecturer (Sample.session completed (Some (Sample.at_ 1000)))
              (Course.mk 1 "Data Structures" "CS301" (Some 1) [] EmptyString EmptyString)
              eq_refl eq_refl eq_refl)
    as (absent & rate & Hrun & Habs & _ & _ & Hrate).
  rewrite Hrun, Habs, (Hrate eq_refl). reflexivity.
Defined.

(** ** The stable sort *)

Lemma insert_sorted_perm {A : Type} (before : A -> A -> bool) (x : A) (l : list A) :
  Permutation (insert_sorted before x l) (x :: l).
Proof.
  induction l as [|y l IH]; simpl; [apply Permutation_refl|].
  destruct (before x y); [apply Permutation_refl|].
  apply Permutation_trans with (y :: x :: l);
    [apply perm_skip; exact IH | apply perm_swap].
Qed.

Lemma stable_sort_perm {A : Type} (before : A -> A -> bool) (l : list A) :
  Permutation (stable_sort before l) l.
Proof.
  induction l as [|x l IH]; simpl; [apply perm_nil|].
  apply Permutation_trans with (x :: stable_sort before l);
    [apply insert_sorted_perm | apply perm_skip; exact IH].
Qed.

Lemma stable_sort_length {A : Type} (before : A -> A -> bool) (l : list A) :
  List.length (stable_sort before l) = List.length l.
Proof. apply Permutation_length. apply stable_sort_perm. Qed.

(** ** The worked example of the prediction *)

Lemma three_of_permutation (l : list Z) (a b c : Z) :
  Permutation l [a; b; c] ->
  l = [a; b; c] \/ l = [a; c; b] \/ l = [b; a; c]
  \/ l = [b; c; a] \/ l = [c; a; b] \/ l = [c; b; a].
Proof.
  intro H. pose proof (Permutation_length H) as Hlen.
  destruct l as [|x [|y [|z [|w l]]]]; try discriminate Hlen.
  apply Permutation_sym in H.
  assert (Hcases : forall (p q r s t v : Z), Permutation [p; q; r] [s; t; v] ->
            (p = s /\ Permutation [q; r] [t; v])
            \/ (p = t /\ Permutation [q; r] [s; v])
            \/ (p = v /\ Permutation [q; r] [s; t])).
  { intros p q r s t v Hp.
    pose proof (Permutation_in p Hp (or_introl eq_refl)) as Hin.
    destruct Hin as [<- | [<- | [<- | []]]].
    - left. split; [reflexivity|]. apply Permutation_cons_inv in Hp. exact Hp.
    - right. left. split; [reflexivity|].
      apply (Permutation_cons_inv (a := t)).
      apply Permutation_trans with (1 := Hp). apply perm_swap.
    - right. right. split; [reflexivity|].
      apply (Permutation_cons_inv (a := v)).
      apply Permutation_trans with (1 := Hp).
      apply Permutation_trans with [s; v; t];
        [apply perm_skip; apply perm_swap | apply perm_swap]. }
  destruct (Hcases a b c x y z H) as [[-> H2] | [[-> H2] | [-> H2]]];
    apply Permutation_length_2 in H2;
    destruct H2 as [[-> ->] | [-> ->]]; tauto.
Qed.

(** The arithmetic of the example, for the three counts in any order. *)
Lemma example_arithmetic (counts : list Z) :
  Permutation counts [20; 25; 30] ->
  exists base,
    AIService.base_rate 30 counts = Ok base
    /\ Py.flt (Py.dec 833 3) base = true /\ Py.flt base (Py.dec 834 3) = true
    /\ let rate := Py.fmul (Py.fmul base (Py.dec 90 2)) (Py.dec 95 2) in
       Py.flt (Py.dec 712 3) rate = true /\ Py.flt rate (Py.dec 713 3) = true
       /\ Py.fgt rate (Py.dec 65 2) = true /\ Py.fgt rate (Py.dec 85 2) = false
       /\ AIService.rush_level_of rate = "medium"
       /\ Py.int_of_float (Py.fmul (Py.of_int 30) rate) = Ok 21
       /\ Py.round (Py.fmul rate (Py.of_int 100)) 1 = Py.dec 712 1.
Proof.
  intro H. apply three_of_permutation in H.
  destruct H as [-> | [-> | [-> | [-> | [-> | ->]]]]];
    eexists; (split; [vm_compute; reflexivity|]);
    vm_compute; repeat split; reflexivity.
Qed.

(** C5. A course of 30 students with exactly three completed sessions,
    attended by 20, 25 and 30 of them, and a target on a Tuesday at ten:
    the base rate is 0.833 to three decimals, the day factor 0.90, the
    time factor 0.95, the predicted rate lies between 0.712 and 0.713,
    and the prediction returned is 21 students out of 30, a rate of 71.2
    per cent, a medium rush, with confidence 0.65. *)
Theorem prediction_example (db : DB) (c : Course.t) (d : date) (start : time) :
  Course.students_count c = 30 ->
  Permutation
    (map (MakeUpClass.attendance_count (attendance_records db))
         (AIService.completed_classes db c))
    [20; 25; 30] ->
  weekday d = 1 -> hour start = 10 ->
  exists base,
    AIService.base_rate 30
      (map (MakeUpClass.attendance_count (attendance_records db))
           (AIService.past_classes db c)) = Ok base
    /\ Py.flt (Py.dec 833 3) base = true /\ Py.flt base (Py.dec 834 3) = true
    /\ AIService.day_factor (weekday d) = Py.dec 90 2
    /\ AIService.time_factor (hour start) = Py.dec 95 2
    /\ Py.flt (Py.dec 712 3) (AIService.rate_of base d start) = true
    /\ Py.flt (AIService.rate_of base d start) (Py.dec 713 3) = true
    /\ Py.fgt (AIService.rate_of base d start) (Py.dec 65 2) = true
    /\ Py.fgt (AIService.rate_of base d start) (Py.dec 85 2) = false
    /\ AIService.predict_attendance db c d start
       = Ok (AIService.mk_prediction 21 30 (Py.dec 712 1) "medium" (Py.dec 65 2)).
Proof.
  intros Hn Hcounts Hd Hh.
  assert (Hlen : List.length (AIService.completed_classes db c) = 3%nat).
  { rewrite <- (length_map (MakeUpClass.attendance_count (attendance_records db))).
    apply (Permutation_length Hcounts). }
  assert (Hpast : Permutation
                    (map (MakeUpClass.attendance_count (attendance_records db))
                         (AIService.past_classes db c))
                    [20; 25; 30]).
  { apply Permutation_trans with (2 := Hcounts). apply Permutation_map.
    unfold AIService.past_classes. rewrite firstn_all2.
    - apply stable_sort_perm.
    - rewrite stable_sort_length, Hlen. repeat constructor. }
  assert (Hthree : List.length (AIService.past_classes db c) = 3%nat).
  { rewrite <- (length_map (MakeUpClass.attendance_count (attendance_records db))).
    apply (Permutation_length Hpast). }
  destruct (example_arithmetic _ Hpast)
    as (base & Hbase & Hlo & Hhi & Hrlo & Hrhi & Hmed & Hnothigh & Hrush & Hcount
        & Hround).
  exists base. unfold AIService.rate_of. rewrite Hd, Hh.
  split; [exact Hbase|]. split; [exact Hlo|]. split; [exact Hhi|].
  split; [reflexivity|]. split; [reflexivity|].
  split; [exact Hrlo|]. split; [exact Hrhi|].
  split; [exact Hmed|]. split; [exact Hnothigh|].
  unfold AIService.predict_attendance, AIService.rate_of.
  rewrite Hn, Hd, Hh. simpl (if 30 =? 0 then _ else _). rewrite Hbase.
  unfold bind.
  change (AIService.day_factor 1) with (Py.dec 90 2).
  change (AIService.time_factor 10) with (Py.dec 95 2).
  rewrite Hcount, Hround, Hrush, Hthree. reflexivity.
Qed.

(** The store [Sample.history] and a target on day 738159, a Tuesday, at
    10:00. *)
Lemma prediction_example_witness :
  AIService.predict_attendance Sample.history Sample.big_course 738159
    (mk_time 10 0 0 0)
  = Ok (AIService.mk_prediction 21 30 (Py.dec 712 1) "medium" (Py.dec 65 2)).
Proof.
  destruct (prediction_example Sample.history Sample.big_course 738159
              (mk_time 10 0 0 0)) as (base & _ & _ & _ & _ & _ & _ & _ & _ & _ & H).
  - reflexivity.
  - vm_compute. apply Permutation_refl.
  - reflexivity.
  - reflexivity.
  - exact H.
Defined.

(** ** The trend *)






Lemma for_each_app_length {A B : Type} (f : A -> result B) (xs : list A)
    (acc out : list B) :
  for_each (fun acc x => y <- f x ;; Ok (acc ++ [y])%list) xs acc = Ok out ->
  List.length out = (List.length acc + List.length xs)%nat.
Proof.
  revert acc. induction xs as [|x xs IH]; intros acc H; simpl in H.
  - injection H as <-. simpl. lia.
  - destruct (f x) as [y|e]; simpl in H; [|discriminate].
    rewrite (IH _ H), length_app. simpl. lia.
Qed.





(** ** The recommended slots *)

Lemma insert_sorted_score (x : AIService.Recommendation)
    (l : list AIService.Recommendation) :
  Sorted score_ge l ->
  Sorted score_ge
    (insert_sorted (fun a b => AIService.score b <=? AIService.score a) x l).
Proof.
  induction l as [|y l IH]; intro Hs; simpl.
  - repeat constructor.
  - destruct (Z.leb_spec (AIService.score y) (AIService.score x)) as [Hle | Hlt].
    + constructor; [exact Hs|]. constructor. exact Hle.
    + inversion Hs as [|? ? Hl Hhd]; subst.
      constructor; [apply IH; exact Hl|].
      destruct l as [|z l]; simpl.
      * constructor. unfold score_ge. lia.
      * destruct (AIService.score z <=? AIService.score x);
          constructor; [unfold score_ge; lia|].
        inversion Hhd; subst. assumption.
Qed.

Lemma sort_by_score_sorted (l : list AIService.Recommendation) :
  Sorted score_ge (AIService.sort_by_score l).
Proof.
  unfold AIService.sort_by_score, stable_sort.
  induction l as [|x l IH]; simpl; [constructor|].
  apply insert_sorted_score. exact IH.
Qed.

Lemma firstn_sorted {A : Type} (R : A -> A -> Prop) (n : nat) (l : list A) :
  Sorted R l -> Sorted R (firstn n l).
Proof.
  revert l. induction n as [|n IH]; intros l Hs; simpl; [constructor|].
  destruct l as [|x l]; [constructor|].
  inversion Hs as [|? ? Hl Hhd]; subst.
  constructor; [apply IH; exact Hl|].
  destruct n; simpl; [constructor|].
  destruct l as [|y l]; [constructor|].
  constructor. inversion Hhd; subst. assumption.
Qed.

Lemma firstn_subset {A : Type} (n : nat) (l : list A) (x : A) :
  In x (firstn n l) -> In x l.
Proof.
  revert l. induction n as [|n IH]; intros l H; simpl in H; [contradiction|].
  destruct l as [|y l]; [contradiction|].
  destruct H as [-> | H]; [left; reflexivity | right; apply IH; exact H].
Qed.

Lemma hour_of_slots :
  AIService.hour_of "09:00" = Ok 9 /\ AIService.hour_of "10:30" = Ok 10
  /\ AIService.hour_of "14:00" = Ok 14 /\ AIService.hour_of "15:30" = Ok 15.
Proof. repeat split; reflexivity. Qed.

(** The inner loop never raises: it appends the free slots of the day,
    all dated that day. *)
Lemma scan_day_spec (booked : list (date * string)) (d : date)
    (acc : list AIService.Recommendation) :
  exists out,
    AIService.scan_day booked d acc = Ok (acc ++ out)%list
    /\ List.length out
       = List.length
           (filter (fun slot => negb (AIService.is_booked booked d (fst slot)))
                   AIService.slots)
    /\ forall r, In r out ->
         AIService.date_ r = d
         /\ AIService.is_booked booked d (AIService.start_time r) = false.
Proof.
  destruct hour_of_slots as (H9 & H10 & H14 & H15).
  unfold AIService.scan_day, AIService.slots.
  unfold for_each, AIService._score_slot, AIService._slot_reason.
  rewrite H9, H10, H14, H15. unfold bind.
  cbn [filter fst negb].
  destruct (AIService.is_booked booked d "09:00") eqn:B1;
    destruct (AIService.is_booked booked d "10:30") eqn:B2;
    destruct (AIService.is_booked booked d "14:00") eqn:B3;
    destruct (AIService.is_booked booked d "15:30") eqn:B4;
    cbn [negb];
    rewrite <- ?app_assoc;
    (eexists; split;
       [first [reflexivity | apply f_equal; symmetry; apply app_nil_r]|];
     split; [reflexivity|]);
    intros r Hr; cbn [app In] in Hr;
    repeat (destruct Hr as [<- | Hr]; [split; [reflexivity | assumption]|]);
    contradiction.
Qed.

(** The outer loop never raises, and a slot of a later day is appended
    only while fewer than five candidates have been collected. *)
Lemma scan_spec (booked : list (date * string)) (base : date) (n : nat) :
  forall (s : nat) (acc : list AIService.Recommendation),
    (List.length acc < 5)%nat ->
    exists out,
      AIService.scan booked base (map Z.of_nat (seq s n)) acc
      = Ok (acc ++ out)%list
      /\ forall r, In r out ->
           exists j,
             (s <= j < s + n)%nat
             /\ AIService.date_ r = base + Z.of_nat j
             /\ AIService.mem (weekday (base + Z.of_nat j)) AIService.good_days
                = true
             /\ AIService.is_booked booked (AIService.date_ r)
                  (AIService.start_time r) = false
             /\ (List.length acc
                 + list_sum (map (fun i => day_count booked (base + Z.of_nat i)%Z)
                                 (seq s (j - s))) < 5)%nat.
Proof.
  induction n as [|n IH]; intros s acc Hacc.
  - exists []. split; [simpl; rewrite app_nil_r; reflexivity | intros r []].
  - cbn [seq map AIService.scan].
    assert (Hstep : forall j, (S s <= j)%nat ->
              list_sum (map (fun i => day_count booked (base + Z.of_nat i)%Z)
                            (seq s (j - s)))
              = (day_count booked (base + Z.of_nat s)%Z
                 + list_sum (map (fun i => day_count booked (base + Z.of_nat i)%Z)
                                 (seq (S s) (j - S s))))%nat).
    { intros j Hj. replace (j - s)%nat with (S (j - S s)) by lia. reflexivity. }
    destruct (AIService.mem (weekday (base + Z.of_nat s)) AIService.good_days)
      eqn:Hgood.
    + destruct (scan_day_spec booked (base + Z.of_nat s) acc)
        as (day & Hday & Hlen & Hin).
      rewrite Hday. unfold bind.
      assert (Hcount : List.length day = day_count booked (base + Z.of_nat s)%Z).
      { unfold day_count. rewrite Hgood. exact Hlen. }
      destruct (Nat.leb_spec 5 (List.length (acc ++ day))) as [Hfull | Hroom].
      * exists day. split; [reflexivity|].
        intros r Hr. destruct (Hin r Hr) as [Hd Hb].
        exists s. rewrite Nat.sub_diag, Hd. simpl.
        repeat split; try assumption; try lia.
      * destruct (IH (S s) (acc ++ day)%list Hroom) as (out & Hrun & Hout).
        exists (day ++ out)%list. rewrite Hrun, app_assoc.
        split; [reflexivity|].
        intros r Hr. apply in_app_or in Hr. destruct Hr as [Hr | Hr].
        -- destruct (Hin r Hr) as [Hd Hb].
           exists s. rewrite Nat.sub_diag, Hd. simpl.
           repeat split; try assumption; try lia.
        -- destruct (Hout r Hr) as (j & Hj & Hd & Hg & Hb & Hsum).
           exists j. rewrite (Hstep j (proj1 Hj)).
           repeat split; try assumption; try lia.
           rewrite length_app, Hcount in Hsum. lia.
    + destruct (IH (S s) acc Hacc) as (out & Hrun & Hout).
      exists out. split; [exact Hrun|].
      intros r Hr. destruct (Hout r Hr) as (j & Hj & Hd & Hg & Hb & Hsum).
      exists j. rewrite (Hstep j (proj1 Hj)).
      repeat split; try assumption; try lia.
      unfold day_count at 1. rewrite Hgood. lia.
Qed.

(** C8, as the code has it. The recommendations are always returned: at
    most five of them, in descending order of score, equal scores
    allowed; each is a free slot of a good day among the fourteen days
    after today, and a day is scanned only while the days before it have
    contributed fewer than five candidates. *)
Theorem recommendations_sorted (clock : Z) (db : DB) (c : Course.t) :
  let booked := AIService.booked_slots db c in
  let base := dt_date (timezone_now clock) + 1 in
  exists recs,
    AIService.get_schedule_recommendations clock db c = Ok recs
    /\ (List.length recs <= 5)%nat
    /\ Sorted score_ge recs
    /\ forall r, In r recs ->
         exists i,
           (i < 14)%nat
           /\ AIService.date_ r = base + Z.of_nat i
           /\ AIService.mem (weekday (AIService.date_ r)) AIService.good_days = true
           /\ AIService.is_booked booked (AIService.date_ r)
                (AIService.start_time r) = false
           /\ (collected_before booked base i < 5)%nat.
Proof.
  intros booked base. unfold AIService.get_schedule_recommendations.
  fold booked. fold base.
  destruct (scan_spec booked base 14 0 []) as (out & Hrun & Hout);
    [simpl; lia|].
  unfold AIService.range14. rewrite Hrun. unfold bind. simpl app.
  eexists. split; [reflexivity|]. split; [apply firstn_le_length|].
  split; [apply firstn_sorted; apply sort_by_score_sorted|].
  intros r Hr. apply firstn_subset in Hr.
  apply (Permutation_in r (stable_sort_perm _ out)) in Hr.
  destruct (Hout r Hr) as (j & Hj & Hd & Hg & Hb & Hsum).
  exists j. rewrite Nat.sub_0_r in Hsum. simpl in Hsum.
  rewrite Hd. repeat split; try assumption; try lia.
  rewrite <- Hd. exact Hb.
Qed.

(** C8, as the specification has it, fails: with nothing booked and a
    Monday as the first day scanned, the two morning slots of the Tuesday
    both score 130 and stand side by side. *)
Lemma recommendations_not_strictly_sorted :
  exists recs,
    AIService.get_schedule_recommendations 0
      (mk_DB [] [] [Sample.cs301] [] [] []) Sample.cs301 = Ok recs
    /\ map AIService.score recs = [130; 130; 125; 125; 120]
    /\ ~ Sorted score_gt recs.
Proof.
  eexists. split; [vm_compute; reflexivity|]. split; [reflexivity|].
  intro H. inversion H as [|? ? _ Hhd]; subst.
  inversion Hhd as [|? ? Hgt]; subst. unfold score_gt in Hgt. simpl in Hgt. lia.
Qed.

(** The same store, through the theorem. *)
Lemma recommendations_sorted_witness :
  exists recs,
    AIService.get_schedule_recommendations 0
      (mk_DB [] [] [Sample.cs301] [] [] []) Sample.cs301 = Ok recs
    /\ (List.length recs <= 5)%nat
    /\ Sorted score_ge recs.
Proof.
  destruct (recommendations_sorted 0
              (mk_DB [] [] [Sample.cs301] [] [] []) Sample.cs301)
    as (recs & Hrun & Hlen & Hsorted & _).
  exists recs. repeat split; assumption.
Defined.

(* ===================================================================== *)
(** * Further properties *)
(* ===================================================================== *)

(** ** The generated code *)

Lemma alphabet_char (k : nat) :
  is_code_char (nth k code_alphabet "A"%char) = true.
Proof.
  do 36 (destruct k as [|k]; [reflexivity|]).
  destruct k; reflexivity.
Qed.

Lemma code_char_plain (c : ascii) :
  is_code_char c = true ->
  Str.is_space c = false /\ Str.upper_char c = c
  /\ (nat_of_ascii c =? 0)%nat = false.
Proof.
  unfold is_code_char, Str.is_space, Str.upper_char.
  intro H. apply orb_true_iff in H.
  assert (Hn : (65 <= nat_of_ascii c <= 90 \/ 48 <= nat_of_ascii c <= 57)%nat).
  { destruct H as [H | H]; apply andb_true_iff in H; destruct H as [H1 H2];
      apply Nat.leb_le in H1, H2; lia. }
  clear H. repeat split.
  - apply orb_false_iff. split; apply andb_false_iff.
    + right. apply Nat.leb_gt. lia.
    + right. apply Nat.leb_gt. lia.
  - destruct (Nat.leb_spec 97 (nat_of_ascii c)); [|reflexivity].
    destruct (Nat.leb_spec (nat_of_ascii c) 122); [lia | reflexivity].
  - apply Nat.eqb_neq. lia.
Qed.

(** X1. Whatever the draws, the generated code has eight characters, all
    upper-case letters or digits, and the check-in form accepts it as it
    is: cleaning changes nothing. *)
Theorem generated_code_is_clean (draws : nat -> nat) :
  (forall i, (i < 8)%nat -> (draws i < 36)%nat) ->
  let code := generate_remedial_code draws in
  String.length code = 8%nat
  /\ (forall c, In c (list_ascii_of_string code) -> is_code_char c = true)
  /\ AttendanceCodeForm.cleaned_remedial_code [("remedial_code", code)]
     = Some code.
Proof.
  intros _ code. unfold code, generate_remedial_code. cbn [seq map].
  set (c0 := nth (draws 0%nat) code_alphabet "A"%char).
  set (c1 := nth (draws 1%nat) code_alphabet "A"%char).
  set (c2 := nth (draws 2%nat) code_alphabet "A"%char).
  set (c3 := nth (draws 3%nat) code_alphabet "A"%char).
  set (c4 := nth (draws 4%nat) code_alphabet "A"%char).
  set (c5 := nth (draws 5%nat) code_alphabet "A"%char).
  set (c6 := nth (draws 6%nat) code_alphabet "A"%char).
  set (c7 := nth (draws 7%nat) code_alphabet "A"%char).
  destruct (code_char_plain c0 (alphabet_char _)) as (S0 & U0 & N0).
  destruct (code_char_plain c1 (alphabet_char _)) as (S1 & U1 & N1).
  destruct (code_char_plain c2 (alphabet_char _)) as (S2 & U2 & N2).
  destruct (code_char_plain c3 (alphabet_char _)) as (S3 & U3 & N3).
  destruct (code_char_plain c4 (alphabet_char _)) as (S4 & U4 & N4).
  destruct (code_char_plain c5 (alphabet_char _)) as (S5 & U5 & N5).
  destruct (code_char_plain c6 (alphabet_char _)) as (S6 & U6 & N6).
  destruct (code_char_plain c7 (alphabet_char _)) as (S7 & U7 & N7).
  cbn [string_of_list_ascii]. split; [reflexivity|]. split.
  - cbn [list_ascii_of_string]. intros c Hc.
    repeat (destruct Hc as [<- | Hc]; [apply alphabet_char|]). contradiction.
  - unfold AttendanceCodeForm.cleaned_remedial_code,
      AttendanceCodeForm.clean_remedial_code.
    cbn [dict_get String.eqb Ascii.eqb Bool.eqb andb].
    assert (Hstrip : Str.strip
                       (String c0 (String c1 (String c2 (String c3 (String c4
                          (String c5 (String c6 (String c7 EmptyString))))))))
                     = String c0 (String c1 (String c2 (String c3 (String c4
                          (String c5 (String c6 (String c7 EmptyString)))))))).
    { unfold Str.strip. cbn [Str.lstrip]. rewrite S0.
      unfold Str.rev. cbn [Str.rev_acc Str.lstrip]. rewrite S7. reflexivity. }
    rewrite !Hstrip. cbn [String.eqb AttendanceCodeForm.has_nul String.length].
    rewrite N0, N1, N2, N3, N4, N5, N6, N7. cbn [orb Nat.ltb Nat.leb].
    cbn [Str.upper]. rewrite U0, U1, U2, U3, U4, U5, U6, U7. reflexivity.
Qed.

Lemma generated_code_is_clean_witness :
  generate_remedial_code (fun i => (7 * i + 3) mod 36)%nat = "DKRY5CJQ"
  /\ AttendanceCodeForm.cleaned_remedial_code [("remedial_code", "DKRY5CJQ")]
     = Some "DKRY5CJQ".
Proof.
  split; [reflexivity|].
  apply (generated_code_is_clean (fun i => (7 * i + 3) mod 36)%nat).
  intros i _. apply Nat.mod_upper_bound. discriminate.
Defined.

(** ** The constraints of the table of sessions *)

Lemma split_by_key {A K : Type} (key : A -> K) (l : list A) (r0 : A) :
  NoDup (map key l) -> In r0 l ->
  exists l1 l2, l = (l1 ++ r0 :: l2)%list
                /\ forall r, In r (l1 ++ l2)%list -> key r <> key r0.
Proof.
  intros Hnd Hin. destruct (in_split _ _ Hin) as (l1 & l2 & ->).
  exists l1, l2. split; [reflexivity|].
  rewrite map_app in Hnd. cbn [map] in Hnd.
  apply NoDup_remove_2 in Hnd. intros r Hr Heq. apply Hnd.
  rewrite <- map_app, <- Heq. apply in_map. exact Hr.
Qed.

Lemma map_replace_split (k : Z) (x r0 : MakeUpClass.t)
    (l1 l2 : list MakeUpClass.t) :
  MakeUpClass.pk r0 = Some k ->
  (forall r, In r (l1 ++ l2)%list -> MakeUpClass.pk r <> MakeUpClass.pk r0) ->
  map (fun r => if opt_eqb (MakeUpClass.pk r) k then x else r)
      (l1 ++ r0 :: l2)%list
  = (l1 ++ x :: l2)%list.
Proof.
  intros Hk Hother.
  assert (Hid : forall l, (forall r, In r l -> In r (l1 ++ l2)%list) ->
            map (fun r => if opt_eqb (MakeUpClass.pk r) k then x else r) l = l).
  { induction l as [|a l IH]; intro Hsub; [reflexivity|]. cbn [map].
    destruct (opt_eqb (MakeUpClass.pk a) k) eqn:E.
    - exfalso. apply opt_eqb_eq in E.
      apply (Hother a (Hsub a (or_introl eq_refl))). congruence.
    - rewrite IH; [reflexivity|]. intros r Hr. apply Hsub. right. exact Hr. }
  rewrite map_app. cbn [map]. rewrite Hk. cbn [opt_eqb]. rewrite Z.eqb_refl.
  rewrite (Hid l1), (Hid l2); [reflexivity | |];
    intros r Hr; apply in_or_app; [right | left]; exact Hr.
Qed.

Lemma NoDup_middle {A : Type} (x : A) (l1 l2 : list A) :
  NoDup (l1 ++ l2)%list -> ~ In x (l1 ++ l2)%list -> NoDup (l1 ++ x :: l2)%list.
Proof.
  intros Hnd Hx. apply (Permutation_NoDup (Permutation_middle l1 l2 x)).
  constructor; assumption.
Qed.

Lemma NoDup_snoc {A : Type} (x : A) (l : list A) :
  NoDup l -> ~ In x l -> NoDup (l ++ [x])%list.
Proof.
  intros Hnd Hx. apply (Permutation_NoDup (Permutation_cons_append l x)).
  constructor; assumption.
Qed.

Section Constraints.
Context {zone : TimeZone}.
Context {ipv6 : IPv6Library}.

Lemma stored_fields (m : MakeUpClass.t) :
  MakeUpClass.pk (MakeUpClass.stored m) = MakeUpClass.pk m
  /\ MakeUpClass.remedial_code (MakeUpClass.stored m) = MakeUpClass.remedial_code m
  /\ MakeUpClass.status (MakeUpClass.stored m) = MakeUpClass.status m
  /\ MakeUpClass.course (MakeUpClass.stored m) = MakeUpClass.course m
  /\ MakeUpClass.faculty (MakeUpClass.stored m) = MakeUpClass.faculty m.
Proof. repeat split. Qed.

Lemma fill_fields (m : MakeUpClass.t) :
  MakeUpClass.pk (MakeUpClass.fill_code_expiry m) = MakeUpClass.pk m
  /\ MakeUpClass.remedial_code (MakeUpClass.fill_code_expiry m)
     = MakeUpClass.remedial_code m
  /\ MakeUpClass.status (MakeUpClass.fill_code_expiry m) = MakeUpClass.status m
  /\ MakeUpClass.course (MakeUpClass.fill_code_expiry m) = MakeUpClass.course m
  /\ MakeUpClass.faculty (MakeUpClass.fill_code_expiry m) = MakeUpClass.faculty m.
Proof.
  unfold MakeUpClass.fill_code_expiry. destruct (_ && _); repeat split.
Qed.

(** What [super().save()] writes, when it writes: the constraints hold
    afterwards, the written row carries the key and the code of the
    instance, and the rows under other keys are kept. *)
Lemma super_save_constraints (now : datetime) (table table' : list MakeUpClass.t)
    (self self' : MakeUpClass.t) :
  sessions_ok table ->
  MakeUpClass.super_save now table self = Ok (self', table') ->
  sessions_ok table'
  /\ In (MakeUpClass.stored self') table'
  /\ MakeUpClass.remedial_code self' = MakeUpClass.remedial_code self
  /\ MakeUpClass.status self' = MakeUpClass.status self
  /\ MakeUpClass.code_expiry self' = MakeUpClass.code_expiry self
  /\ (forall k, MakeUpClass.pk self = Some k -> MakeUpClass.pk self' = Some k)
  /\ (forall r, In r table -> MakeUpClass.pk r <> MakeUpClass.pk self' ->
        In r table')
  /\ (forall r, In r table' -> MakeUpClass.pk r <> MakeUpClass.pk self' ->
        In r table).
Proof.
  intros (Hpk & Hcode & Hsome). unfold MakeUpClass.super_save.
  destruct (existsb _ (filter _ table)) eqn:Hclash; [discriminate|].
  assert (Hfree : forall r, In r table ->
            MakeUpClass.remedial_code r = MakeUpClass.remedial_code self ->
            exists k, MakeUpClass.pk self = Some k /\ MakeUpClass.pk r = Some k).
  { intros r Hr Hc.
    destruct (MakeUpClass.pk self) as [k|] eqn:Hk.
    - exists k. split; [reflexivity|].
      destruct (opt_eqb (MakeUpClass.pk r) k) eqn:E; [apply opt_eqb_eq; exact E|].
      exfalso. rewrite <- not_true_iff_false in Hclash. apply Hclash.
      apply existsb_exists. exists r. split.
      + apply filter_In. split; [exact Hr|]. rewrite E. reflexivity.
      + apply String.eqb_eq. exact Hc.
    - exfalso. rewrite <- not_true_iff_false in Hclash. apply Hclash.
      apply existsb_exists. exists r. split.
      + apply filter_In. split; [exact Hr | reflexivity].
      + apply String.eqb_eq. exact Hc. }
  cbn [MakeUpClass.pk MakeUpClass.with_updated_at].
  destruct (MakeUpClass.pk self) as [k|] eqn:Hk.
  - destruct (existsb (fun r => opt_eqb (MakeUpClass.pk r) k) table) eqn:Hex.
    + intro H. injection H as <- <-.
      apply existsb_exists in Hex. destruct Hex as (r0 & Hr0 & Hk0).
      apply opt_eqb_eq in Hk0.
      destruct (split_by_key MakeUpClass.pk table r0 Hpk Hr0)
        as (l1 & l2 & -> & Hother).
      rewrite (map_replace_split k _ r0 l1 l2 Hk0 Hother).
      set (x := MakeUpClass.stored (MakeUpClass.with_updated_at (Some now) self)).
      assert (Hxk : MakeUpClass.pk x = Some k) by exact Hk.
      split; [|cbn; repeat split].
      * split; [|split].
        -- rewrite map_app in *. cbn [map] in *. rewrite Hxk, <- Hk0. exact Hpk.
        -- rewrite map_app in *. cbn [map] in *.
           apply NoDup_middle; [apply (NoDup_remove_1 _ _ _ Hcode)|].
           rewrite <- map_app. intro Hin. apply in_map_iff in Hin.
           destruct Hin as (r & Hrc & Hr).
           destruct (Hfree r) as (j & Hj & Hrj).
           ++ apply in_app_or in Hr. apply in_or_app.
              destruct Hr; [left | right; right]; assumption.
           ++ exact Hrc.
           ++ apply (Hother r Hr). congruence.
        -- intros r Hr. apply in_app_or in Hr.
           destruct Hr as [Hr | [<- | Hr]];
             [apply Hsome; apply in_or_app; left; exact Hr
             | rewrite Hxk; discriminate
             | apply Hsome; apply in_or_app; right; right; exact Hr].
      * apply in_or_app. right. left. reflexivity.
      * intros j Hj. cbn. congruence.
      * intros r Hr Hne. apply in_app_or in Hr. apply in_or_app.
        destruct Hr as [Hr | [<- | Hr]];
          [left; exact Hr | congruence | right; right; exact Hr].
      * intros r Hr Hne. apply in_app_or in Hr. apply in_or_app.
        destruct Hr as [Hr | [<- | Hr]];
          [left; exact Hr | | right; right; exact Hr].
        exfalso. apply Hne. first [exact Hxk | congruence].
    + intro H. injection H as <- <-.
      set (x := MakeUpClass.stored
                  (MakeUpClass.with_created_at (Some now)
                     (MakeUpClass.with_updated_at (Some now) self))).
      assert (Hxk : MakeUpClass.pk x = Some k) by exact Hk.
      assert (Hnew : ~ In (Some k) (map MakeUpClass.pk table)).
      { intro Hin. apply in_map_iff in Hin. destruct Hin as (r & Hrk & Hr).
        rewrite <- not_true_iff_false in Hex. apply Hex.
        apply existsb_exists. exists r. split; [exact Hr|].
        apply opt_eqb_eq. exact Hrk. }
      split; [|cbn; repeat split].
      * split; [|split].
        -- rewrite map_app. cbn [map]. rewrite Hxk. apply NoDup_snoc; assumption.
        -- rewrite map_app. cbn [map]. apply NoDup_snoc; [exact Hcode|].
           intro Hin. apply in_map_iff in Hin. destruct Hin as (r & Hrc & Hr).
           destruct (Hfree r Hr Hrc) as (j & Hj & Hrj).
           apply Hnew. apply in_map_iff. exists r. split; [congruence | exact Hr].
        -- intros r Hr. apply in_app_or in Hr.
           destruct Hr as [Hr | [<- | []]];
             [apply Hsome; exact Hr | rewrite Hxk; discriminate].
      * apply in_or_app. right. left. reflexivity.
      * intros j Hj. cbn. congruence.
      * intros r Hr _. apply in_or_app. left. exact Hr.
      * intros r Hr Hne. apply in_app_or in Hr.
        destruct Hr as [Hr | [<- | []]]; [exact Hr|].
        exfalso. apply Hne. first [exact Hxk | congruence].
  - intro H. injection H as <- <-.
    set (k := next_pk (flat_map (fun r => match MakeUpClass.pk r with
                                          | Some k => [k]
                                          | None => []
                                          end) table)).
    set (x := MakeUpClass.stored
                (MakeUpClass.with_created_at (Some now)
                   (MakeUpClass.with_pk (Some k)
                      (MakeUpClass.with_updated_at (Some now) self)))).
    assert (Hxk : MakeUpClass.pk x = Some k) by reflexivity.
    assert (Hnew : ~ In (Some k) (map MakeUpClass.pk table)).
    { intro Hin. apply in_map_iff in Hin. destruct Hin as (r & Hrk & Hr).
      assert (Hlt : k < k); [|lia].
      unfold k at 2. apply next_pk_fresh. apply in_flat_map.
      exists r. split; [exact Hr|]. rewrite Hrk. left. reflexivity. }
    split; [|cbn; repeat split].
    + split; [|split].
      * rewrite map_app. cbn [map]. rewrite Hxk. apply NoDup_snoc; assumption.
      * rewrite map_app. cbn [map]. apply NoDup_snoc; [exact Hcode|].
        intro Hin. apply in_map_iff in Hin. destruct Hin as (r & Hrc & Hr).
        destruct (Hfree r Hr Hrc) as (j & Hj & _). discriminate Hj.
      * intros r Hr. apply in_app_or in Hr.
        destruct Hr as [Hr | [<- | []]];
          [apply Hsome; exact Hr | rewrite Hxk; discriminate].
    + apply in_or_app. right. left. reflexivity.
    + intros j Hj. discriminate Hj.
    + intros r Hr _. apply in_or_app. left. exact Hr.
    + intros r Hr Hne. apply in_app_or in Hr.
      destruct Hr as [Hr | [<- | []]]; [exact Hr|].
      exfalso. apply Hne. first [exact Hxk | congruence].
Qed.

End Constraints.

Section SaveConstraints.
Context {zone : TimeZone}.
Context {ipv6 : IPv6Library}.


End SaveConstraints.


(** ** What a check-in writes *)

Section CheckInFrame.
Context {zone : TimeZone}.
Context {ipv6 : IPv6Library}.

Lemma check_in_frame (now : datetime) (u : User.t) (code : string)
    (db db' : DB) (request : HttpRequest) (resp : HttpResponse) :
  check_in now u code db request = Ok (db', resp) ->
  db' = db
  \/ exists r, resp = render_mark_attendance (Some r) /\ status r = "success".
Proof.
  unfold check_in. intro H.
  destruct (objects_get "MakeUpClass" _ (makeup_classes db)) as [makeup|e].
  - destruct (course_of db makeup) as [c|e]; simpl in H; [|discriminate].
    destruct (Course.has_student c (User.pk u)); simpl in H;
      [|injection H as <- _; left; reflexivity].
    destruct (MakeUpClass.is_code_valid now makeup); simpl in H;
      [|injection H as <- _; left; reflexivity].
    destruct (pk_of makeup) as [k|e]; simpl in H; [|discriminate].
    destruct (existsb _ (attendance_records db));
      [injection H as <- _; left; reflexivity|].
    destruct (AttendanceRecord.create _ _ _ _ _ _ _) as [created|e]; simpl in H;
      [|discriminate].
    injection H as _ <-. right. eexists. split; reflexivity.
  - destruct (is_DoesNotExist "MakeUpClass" e); [|discriminate].
    injection H as <- _. left. reflexivity.
Qed.

Lemma mark_attendance_cases (clock : Z) (db db' : DB) (request : HttpRequest)
    (resp : HttpResponse) :
  mark_attendance clock db request = Ok (db', resp) ->
  db' = db
  \/ exists u code r,
       user request = Some u
       /\ check_in (timezone_now clock) u code db request = Ok (db', resp)
       /\ resp = render_mark_attendance (Some r) /\ status r = "success".
Proof.
  unfold mark_attendance, login_required. intro H.
  destruct (user request) as [u|]; [|injection H as <- _; left; reflexivity].
  destruct (profile_of db u) as [profile|e]; simpl in H; [|discriminate].
  destruct (negb _); [injection H as <- _; left; reflexivity|].
  destruct (if String.eqb (method request) "POST"
            then AttendanceCodeForm.cleaned_remedial_code (POST request)
            else None) as [code|];
    [|injection H as <- _; left; reflexivity].
  destruct (check_in_frame _ _ _ _ _ _ _ H) as [-> | (r & Hr & Hs)];
    [left; reflexivity|].
  right. exists u, code, r. repeat split; assumption.
Qed.

(** X3. [mark_attendance] writes to the store only when it answers
    [success]. An anonymous request is sent to the login page, a user who
    is not a student to the dashboard, and any other answer than
    [success] comes with the store as it was. *)
Theorem mark_attendance_frame (clock : Z) (db : DB) (request : HttpRequest) :
  (user request = None ->
   mark_attendance clock db request = Ok (db, redirect "login" None))
  /\ (forall u profile,
        user request = Some u -> profile_of db u = Ok profile ->
        UserProfile.role profile <> UserProfile.student ->
        mark_attendance clock db request = Ok (db, redirect "dashboard" None))
  /\ (forall db' resp,
        mark_attendance clock db request = Ok (db', resp) ->
        db' = db
        \/ exists r, resp = render_mark_attendance (Some r)
                     /\ status r = "success").
Proof.
  repeat split.
  - unfold mark_attendance, login_required. intros ->. reflexivity.
  - unfold mark_attendance, login_required. intros u profile -> -> Hrole. simpl.
    destruct (UserProfile.role profile); [reflexivity | contradiction].
  - intros db' resp H.
    destruct (mark_attendance_cases _ _ _ _ _ H) as [-> | (u & code & r & _ & _ & Hr)];
      [left; reflexivity | right; exists r; exact Hr].
Qed.

Lemma create_keeps_marks (now : datetime) (table table' : list AttendanceRecord.t)
    (m s : Z) (present : bool) (method : AttendanceRecord.Verification)
    (ip : option string) (row : AttendanceRecord.t) :
  marks_ok table ->
  AttendanceRecord.create now table m s present method ip = Ok (row, table') ->
  marks_ok table' /\ table' = (table ++ [row])%list /\ mark_pair row = (m, s).
Proof.
  unfold AttendanceRecord.create, marks_ok. intros Hok H.
  destruct (existsb (AttendanceRecord.for_pair m s) table) eqn:Hex; [discriminate|].
  injection H as <- <-. split; [|split; reflexivity].
  rewrite map_app. cbn [map]. apply NoDup_snoc; [exact Hok|].
  intro Hin. apply in_map_iff in Hin. destruct Hin as (r & Hp & Hr).
  rewrite <- not_true_iff_false in Hex. apply Hex.
  apply for_pair_exists. exists r. unfold mark_pair in Hp. cbn in Hp.
  injection Hp as Hm Hs. repeat split; assumption.
Qed.

(** X4. No check-in gives a student two marks for one session.
    [AttendanceRecord.create] raises [IntegrityError] exactly when the
    pair is marked already, and appends one row for the pair otherwise;
    and [mark_attendance] keeps a table of marks without repeated pairs
    so. *)
Theorem one_mark_per_pair :
  (forall now table m s present method ip,
     (exists r, In r table /\ AttendanceRecord.makeup_class r = m
                /\ AttendanceRecord.student r = s)
     <-> AttendanceRecord.create now table m s present method ip
         = Raise IntegrityError)
  /\ (forall now table m s present method ip row table',
        marks_ok table ->
        AttendanceRecord.create now table m s present method ip
        = Ok (row, table') ->
        marks_ok table' /\ table' = (table ++ [row])%list
        /\ mark_pair row = (m, s))
  /\ (forall clock db request db' resp,
        marks_ok (attendance_records db) ->
        mark_attendance clock db request = Ok (db', resp) ->
        marks_ok (attendance_records db')).
Proof.
  split; [|split].
  - intros now table m s present method ip. rewrite <- for_pair_exists.
    unfold AttendanceRecord.create.
    destruct (existsb (AttendanceRecord.for_pair m s) table);
      split; intro H; try reflexivity; discriminate.
  - intros now table m s present method ip row table' Hok H.
    apply (create_keeps_marks now table table' m s present method ip row Hok H).
  - intros clock db request db' resp Hok H.
    destruct (mark_attendance_cases _ _ _ _ _ H)
      as [-> | (u & code & r & _ & Hrun & -> & Hs)]; [exact Hok|].
    destruct (check_in_success _ _ _ _ _ _ _ Hrun Hs)
      as (makeup & c & k & _ & _ & _ & _ & _ & Hfree & _ & ->).
    cbn [attendance_records with_notifications with_attendance_records].
    unfold marks_ok. rewrite map_app. cbn [map].
    apply NoDup_snoc; [exact Hok|].
    intro Hin. apply in_map_iff in Hin. destruct Hin as (r0 & Hp & Hr0).
    rewrite <- not_true_iff_false in Hfree. apply Hfree.
    apply for_pair_exists. exists r0. unfold mark_pair in Hp. cbn in Hp.
    injection Hp as Hm Hst. repeat split; assumption.
Qed.

End CheckInFrame.

(** The pupil checks in twice with the same valid code: one mark. *)
Lemma one_mark_per_pair_witness :
  let db := Sample.store active (Some (Sample.at_ 1000)) [] in
  let request := Sample.post Sample.pupil "AB12CD34" in
  let db1 := store_after db (@mark_attendance Sample.utc Sample.ipv6 500 db request) in
  let db2 := store_after db1 (@mark_attendance Sample.utc Sample.ipv6 600 db1 request) in
  List.length (attendance_records db1) = 1%nat
  /\ marks_ok (attendance_records db2)
  /\ List.length (attendance_records db2) = 1%nat.
Proof.
  intros db request db1 db2. split; [reflexivity|]. split; [|reflexivity].
  unfold db2.
  destruct (@mark_attendance Sample.utc Sample.ipv6 600 db1 request) as [[db' resp]|e] eqn:H2.
  - cbn [store_after].
    apply (proj2 (proj2 (@one_mark_per_pair Sample.utc Sample.ipv6)) 600 db1 request db' resp);
      [|exact H2].
    unfold marks_ok. cbn. repeat constructor. intros [].
  - vm_compute in H2. discriminate H2.
Defined.

(** A lecturer and an anonymous visitor at the check-in page. *)
Lemma mark_attendance_frame_witness :
  let db := Sample.store active (Some (Sample.at_ 1000)) [] in
  @mark_attendance Sample.utc Sample.ipv6 500 db (Sample.post Sample.lecturer "AB12CD34")
  = Ok (db, redirect "dashboard" None)
  /\ @mark_attendance Sample.utc Sample.ipv6 500 db
       (mk_request None "POST" [("remedial_code", "AB12CD34")] [])
     = Ok (db, redirect "login" None).
Proof.
  intro db. split.
  - apply (proj1 (proj2 (@mark_attendance_frame Sample.utc Sample.ipv6 500 db
                           (Sample.post Sample.lecturer "AB12CD34")))
             Sample.lecturer
             (UserProfile.mk 1 UserProfile.faculty "Computer Science" EmptyString
                             EmptyString));
      [reflexivity | reflexivity | discriminate].
  - apply (proj1 (@mark_attendance_frame Sample.utc Sample.ipv6 500 db _)). reflexivity.
Defined.

(** ** Who may activate and complete *)

Section Gates.
Context {zone : TimeZone}.
Context {ipv6 : IPv6Library}.

Lemma not_owned (db : DB) (u : User.t) (pk : Z) :
  (forall m, In m (makeup_classes db) -> MakeUpClass.pk m = Some pk ->
     MakeUpClass.faculty m <> User.pk u) ->
  owned_makeup db u pk = Raise Http404.
Proof.
  intro H. unfold owned_makeup, get_object_or_404, objects_get.
  rewrite filter_none; [reflexivity|].
  intros m Hm. apply andb_false_iff.
  destruct (opt_eqb (MakeUpClass.pk m) pk) eqn:E; [right | left; reflexivity].
  apply opt_eqb_eq in E. apply Z.eqb_neq. apply H; assumption.
Qed.

(** X5. [activate_code] and [complete_class] act only for the faculty
    member who owns the session, on a POST: an anonymous request is sent
    to the login page, another method is answered "not allowed", and a
    user who owns no session under the key gets [Http404], be the key
    that of a colleague's session or of none. In each case the store is
    as it was. *)
Theorem faculty_actions_gated (clock pk : Z) (db : DB) (request : HttpRequest) :
  (user request = None ->
   activate_code clock pk db request = Ok (db, redirect "login" None)
   /\ complete_class clock pk db request = Ok (db, redirect "login" None))
  /\ (forall u, user request = Some u -> method request <> "POST" ->
        activate_code clock pk db request = Ok (db, HttpResponseNotAllowed)
        /\ complete_class clock pk db request = Ok (db, HttpResponseNotAllowed))
  /\ (forall u, user request = Some u -> method request = "POST" ->
        (forall m, In m (makeup_classes db) -> MakeUpClass.pk m = Some pk ->
           MakeUpClass.faculty m <> User.pk u) ->
        activate_code clock pk db request = Raise Http404
        /\ complete_class clock pk db request = Raise Http404).
Proof.
  unfold activate_code, complete_class, login_required, require_POST.
  split; [|split].
  - intros ->. split; reflexivity.
  - intros u -> Hm. apply String.eqb_neq in Hm. rewrite Hm. split; reflexivity.
  - intros u -> -> Hno. simpl. rewrite (not_owned db u pk Hno).
    split; reflexivity.
Qed.

End Gates.

(** A student posts to the activation of the lecturer's session, and the
    lecturer sends a GET. *)
Lemma faculty_actions_gated_witness :
  let db := Sample.store scheduled (Some (Sample.at_ 1000)) [] in
  @activate_code Sample.utc 500 1 db (Sample.post Sample.pupil EmptyString)
  = Raise Http404
  /\ @complete_class Sample.utc 500 1 db
       (mk_request (Some Sample.lecturer) "GET" [] [])
     = Ok (db, HttpResponseNotAllowed).
Proof.
  intro db. split.
  - apply (proj2 (proj2 (@faculty_actions_gated Sample.utc 500 1 db
                           (Sample.post Sample.pupil EmptyString)))
             Sample.pupil eq_refl eq_refl).
    intros m [<- | []] _. discriminate.
  - apply (proj1 (proj2 (@faculty_actions_gated Sample.utc 500 1 db
                           (mk_request (Some Sample.lecturer) "GET" [] [])))
             Sample.lecturer eq_refl).
    discriminate.
Defined.

(** ** Looking sessions up in a table that satisfies its constraints *)

Lemma filter_one {A : Type} (p : A -> bool) (l1 l2 : list A) (x : A) :
  p x = true -> (forall r, In r (l1 ++ l2)%list -> p r = false) ->
  filter p (l1 ++ x :: l2)%list = [x].
Proof.
  intros Hx Hother. rewrite filter_app. cbn [filter]. rewrite Hx.
  rewrite (filter_none p l1), (filter_none p l2); [reflexivity | |];
    intros r Hr; apply Hother; apply in_or_app; [right | left]; exact Hr.
Qed.

Lemma lookup_by_code (table : list MakeUpClass.t) (m : MakeUpClass.t) :
  sessions_ok table -> In m table ->
  objects_get "MakeUpClass"
    (fun r => String.eqb (MakeUpClass.remedial_code r) (MakeUpClass.remedial_code m))
    table = Ok m.
Proof.
  intros (_ & Hcode & _) Hin.
  destruct (split_by_key MakeUpClass.remedial_code table m Hcode Hin)
    as (l1 & l2 & -> & Hother).
  unfold objects_get. rewrite filter_one; [reflexivity | apply String.eqb_refl |].
  intros r Hr. apply String.eqb_neq. apply Hother. exact Hr.
Qed.

Lemma lookup_owned (db : DB) (u : User.t) (m : MakeUpClass.t) (k : Z) :
  sessions_ok (makeup_classes db) -> In m (makeup_classes db) ->
  MakeUpClass.pk m = Some k -> MakeUpClass.faculty m = User.pk u ->
  owned_makeup db u k = Ok m.
Proof.
  intros (Hpk & _ & _) Hin Hk Hf.
  destruct (split_by_key MakeUpClass.pk (makeup_classes db) m Hpk Hin)
    as (l1 & l2 & Htable & Hother).
  unfold owned_makeup, get_object_or_404, objects_get. rewrite Htable.
  rewrite filter_one; [reflexivity | |].
  - rewrite Hk, Hf. cbn. rewrite !Z.eqb_refl. reflexivity.
  - intros r Hr. apply andb_false_iff. left.
    destruct (opt_eqb (MakeUpClass.pk r) k) eqn:E; [|reflexivity].
    apply opt_eqb_eq in E. exfalso. apply (Hother r Hr). congruence.
Qed.

Lemma sessions_ok_free (table : list MakeUpClass.t) (m m1 : MakeUpClass.t) (k : Z) :
  sessions_ok table -> In m table -> MakeUpClass.pk m = Some k ->
  MakeUpClass.pk m1 = Some k ->
  MakeUpClass.remedial_code m1 = MakeUpClass.remedial_code m ->
  code_is_free table m1.
Proof.
  intros (_ & Hcode & _) Hin Hk Hk1 Hc1 r Hr Hrc.
  exists k. split; [exact Hk1|].
  destruct (split_by_key MakeUpClass.remedial_code table m Hcode Hin)
    as (l1 & l2 & -> & Hother).
  apply in_app_or in Hr. destruct Hr as [Hr | [<- | Hr]]; [|exact Hk|];
    exfalso; apply (Hother r); [apply in_or_app; left; exact Hr | congruence
                               | apply in_or_app; right; exact Hr | congruence].
Qed.

Section Runs.
Context {zone : TimeZone}.
Context {ipv6 : IPv6Library}.

Lemma super_save_fields (now : datetime) (table table' : list MakeUpClass.t)
    (self self' : MakeUpClass.t) :
  MakeUpClass.super_save now table self = Ok (self', table') ->
  MakeUpClass.course self' = MakeUpClass.course self
  /\ MakeUpClass.faculty self' = MakeUpClass.faculty self
  /\ MakeUpClass.title self' = MakeUpClass.title self.
Proof.
  unfold MakeUpClass.super_save. destruct (existsb _ _); [discriminate|].
  cbn [MakeUpClass.pk MakeUpClass.with_updated_at].
  destruct (MakeUpClass.pk self) as [k|].
  - destruct (existsb _ table); intro H; injection H as <- _; repeat split.
  - intro H. injection H as <- _. repeat split.
Qed.

(** What writing a stored session back with a new status gives. *)
Lemma status_run (now : datetime) (table : list MakeUpClass.t)
    (m : MakeUpClass.t) (k : Z) (s : Status) (e : datetime) :
  sessions_ok table -> In m table -> MakeUpClass.pk m = Some k ->
  MakeUpClass.code_expiry m = Some e ->
  exists m' table',
    MakeUpClass.save now table (MakeUpClass.with_status s m) = Ok (m', table')
    /\ sessions_ok table'
    /\ In (MakeUpClass.stored m') table'
    /\ MakeUpClass.pk m' = Some k
    /\ MakeUpClass.status m' = s
    /\ MakeUpClass.code_expiry m' = Some e
    /\ MakeUpClass.remedial_code m' = MakeUpClass.remedial_code m
    /\ MakeUpClass.course m' = MakeUpClass.course m
    /\ MakeUpClass.faculty m' = MakeUpClass.faculty m.
Proof.
  intros Hok Hin Hk He.
  assert (Hfree : code_is_free table (MakeUpClass.with_status s m)).
  { apply (sessions_ok_free table m _ k Hok Hin Hk); [exact Hk | reflexivity]. }
  destruct (save_ok now table (MakeUpClass.with_status s m) e Hfree)
    as (m' & table' & j & Hsave & _).
  { rewrite (fill_keeps _ e); exact He. }
  exists m', table'. split; [exact Hsave|].
  unfold MakeUpClass.save in Hsave.
  rewrite (fill_keeps (MakeUpClass.with_status s m) e He) in Hsave.
  destruct (super_save_constraints now table table' _ m' Hok Hsave)
    as (Hok' & Hin' & Hc & Hs & Hexp & Hkey & _).
  destruct (super_save_fields now table table' _ m' Hsave) as (Hco & Hfa & _).
  split; [exact Hok'|]. split; [exact Hin'|].
  split; [apply Hkey; exact Hk|]. split; [exact Hs|].
  split; [rewrite Hexp; exact He|]. split; [exact Hc|].
  split; [exact Hco | exact Hfa].
Qed.

Lemma complete_class_run (clock k : Z) (db : DB) (request : HttpRequest)
    (u : User.t) (m : MakeUpClass.t) (e : datetime) :
  user request = Some u -> method request = "POST" ->
  sessions_ok (makeup_classes db) -> In m (makeup_classes db) ->
  MakeUpClass.pk m = Some k -> MakeUpClass.faculty m = User.pk u ->
  MakeUpClass.code_expiry m = Some e ->
  exists m' table',
    MakeUpClass.save (timezone_now clock) (makeup_classes db)
      (MakeUpClass.with_status completed m) = Ok (m', table')
    /\ complete_class clock k db request
       = Ok (with_makeup_classes table' db, redirect "makeup_detail" (Some k)).
Proof.
  intros Hu Hpost Hok Hin Hk Hf He.
  destruct (status_run (timezone_now clock) _ m k completed e Hok Hin Hk He)
    as (m' & table' & Hsave & _).
  exists m', table'. split; [exact Hsave|].
  unfold complete_class, login_required, require_POST.
  rewrite Hu, Hpost. simpl. rewrite (lookup_owned db u m k Hok Hin Hk Hf). simpl.
  rewrite Hsave. reflexivity.
Qed.

Lemma activate_code_run (clock k : Z) (db : DB) (request : HttpRequest)
    (u : User.t) (m : MakeUpClass.t) (e : datetime) (c : Course.t) :
  user request = Some u -> method request = "POST" ->
  sessions_ok (makeup_classes db) -> In m (makeup_classes db) ->
  MakeUpClass.pk m = Some k -> MakeUpClass.faculty m = User.pk u ->
  MakeUpClass.code_expiry m = Some e ->
  course_of db m = Ok c ->
  exists m' table' db' n,
    MakeUpClass.save (timezone_now clock) (makeup_classes db)
      (MakeUpClass.with_status active m) = Ok (m', table')
    /\ send_code_notification (timezone_now clock)
         (with_makeup_classes table' db) m' = Ok (db', n)
    /\ n = Course.students_count c
    /\ activate_code clock k db request
       = Ok (db', redirect "makeup_detail" (Some k)).
Proof.
  intros Hu Hpost Hok Hin Hk Hf He Hc.
  destruct (status_run (timezone_now clock) _ m k active e Hok Hin Hk He)
    as (m' & table' & Hsave & _ & _ & _ & _ & _ & _ & Hco & _).
  assert (Hc' : course_of (with_makeup_classes table' db) m' = Ok c).
  { unfold course_of in *. cbn [courses with_makeup_classes]. rewrite Hco.
    exact Hc. }
  assert (Hsent : exists db', send_code_notification (timezone_now clock)
                                (with_makeup_classes table' db) m'
                              = Ok (db', Course.students_count c)).
  { unfold send_code_notification. rewrite Hc'. simpl. eexists.
    unfold Course.students_count. rewrite length_map. reflexivity. }
  destruct Hsent as (db' & Hsent).
  exists m', table', db', (Course.students_count c).
  split; [exact Hsave|]. split; [exact Hsent|]. split; [reflexivity|].
  unfold activate_code, login_required, require_POST.
  rewrite Hu, Hpost. simpl. rewrite (lookup_owned db u m k Hok Hin Hk Hf). simpl.
  rewrite Hsave. simpl. rewrite Hsent. reflexivity.
Qed.

Lemma sent_frame (now : datetime) (db db' : DB) (m : MakeUpClass.t) (n : Z) :
  send_code_notification now db m = Ok (db', n) ->
  makeup_classes db' = makeup_classes db
  /\ courses db' = courses db /\ profiles db' = profiles db
  /\ attendance_records db' = attendance_records db /\ users db' = users db.
Proof.
  unfold send_code_notification.
  destruct (course_of db m) as [c|e]; simpl; [|discriminate].
  intro H. injection H as <- _.
  destruct (map _ (Course.students c)); repeat split.
Qed.

End Runs.

(** ** The life of a code *)

Section CodeLife.
Context {zone : TimeZone}.
Context {ipv6 : IPv6Library}.

(** The answer to a student enrolled in the course of a stored session
    who presents its code. *)
Lemma check_in_outcome (t : Z) (db : DB) (request : HttpRequest) (s : User.t)
    (row : MakeUpClass.t) (c : Course.t) (k : Z) :
  user request = Some s ->
  (exists profile, profile_of db s = Ok profile
                   /\ UserProfile.role profile = UserProfile.student) ->
  method request = "POST" ->
  AttendanceCodeForm.cleaned_remedial_code (POST request)
  = Some (MakeUpClass.remedial_code row) ->
  sessions_ok (makeup_classes db) -> In row (makeup_classes db) ->
  MakeUpClass.pk row = Some k ->
  course_of db row = Ok c -> In (User.pk s) (Course.students c) ->
  (MakeUpClass.is_code_valid (timezone_now t) row = false ->
   mark_attendance t db request
   = Ok (db, render_mark_attendance (Some (inactive_or_expired row))))
  /\ (MakeUpClass.is_code_valid (timezone_now t) row = true ->
      marked db s k ->
      mark_attendance t db request
      = Ok (db, render_mark_attendance (Some (already_marked row))))
  /\ (MakeUpClass.is_code_valid (timezone_now t) row = true ->
      ~ marked db s k ->
      exists db',
        mark_attendance t db request
        = Ok (db', render_mark_attendance (Some (success row c)))
        /\ marked db' s k
        /\ makeup_classes db' = makeup_classes db
        /\ courses db' = courses db
        /\ profiles db' = profiles db).
Proof.
  intros Hu Hp Hpost Hform Hok Hin Hk Hc Hen.
  rewrite (mark_attendance_check_in t db request s _ Hu Hp Hpost Hform).
  unfold check_in. rewrite (lookup_by_code _ row Hok Hin), Hc. simpl.
  rewrite (proj2 (has_student_In c (User.pk s)) Hen). simpl.
  unfold pk_of. rewrite Hk. split; [|split].
  - intros ->. reflexivity.
  - intros -> Hm. simpl.
    rewrite (proj2 (for_pair_exists _ _ _) Hm). reflexivity.
  - intros -> Hm. simpl.
    assert (Hfree : existsb (AttendanceRecord.for_pair k (User.pk s))
                            (attendance_records db) = false).
    { apply not_true_is_false. intro H. apply Hm.
      apply for_pair_exists. exact H. }
    rewrite Hfree. unfold AttendanceRecord.create. rewrite Hfree. simpl.
    eexists. split; [reflexivity|]. split; [|repeat split].
    eexists. split; [apply in_or_app; right; left; reflexivity|].
    split; reflexivity.
Qed.

Variables (db : DB) (owner pupil : User.t) (m : MakeUpClass.t) (c : Course.t).
Variables (k : Z) (e : datetime).
Variables (by_owner by_pupil : HttpRequest).

Hypothesis Hok : sessions_ok (makeup_classes db).
Hypothesis Hin : In m (makeup_classes db).
Hypothesis Hk : MakeUpClass.pk m = Some k.
Hypothesis Howner : MakeUpClass.faculty m = User.pk owner.
Hypothesis He : MakeUpClass.code_expiry m = Some e.
Hypothesis Hc : course_of db m = Ok c.
Hypothesis Hen : In (User.pk pupil) (Course.students c).
Hypothesis Hpupil :
  exists profile, profile_of db pupil = Ok profile
                  /\ UserProfile.role profile = UserProfile.student.
Hypothesis Hfresh : ~ marked db pupil k.
Hypothesis Hreq_owner : user by_owner = Some owner /\ method by_owner = "POST".
Hypothesis Hreq_pupil :
  user by_pupil = Some pupil /\ method by_pupil = "POST"
  /\ AttendanceCodeForm.cleaned_remedial_code (POST by_pupil)
     = Some (MakeUpClass.remedial_code m).

(** X6. A code opens and closes with the status of its session. Before
    the expiry, an enrolled student who presents the code of a session
    that is not active is refused; once the owner has activated the
    session the same request succeeds; once the owner has completed it
    the same request is refused again. *)
Theorem code_follows_status (t0 t1 t : Z) :
  t < instant e ->
  (MakeUpClass.status m <> active ->
   mark_attendance t db by_pupil
   = Ok (db, render_mark_attendance (Some (inactive_or_expired m))))
  /\ exists db1 m1,
       activate_code t0 k db by_owner
       = Ok (db1, redirect "makeup_detail" (Some k))
       /\ MakeUpClass.status m1 = active
       /\ (exists db2,
             mark_attendance t db1 by_pupil
             = Ok (db2, render_mark_attendance (Some (success m1 c))))
       /\ exists db3 m3,
            complete_class t1 k db1 by_owner
            = Ok (db3, redirect "makeup_detail" (Some k))
            /\ MakeUpClass.status m3 = completed
            /\ mark_attendance t db3 by_pupil
               = Ok (db3, render_mark_attendance (Some (inactive_or_expired m3))).
Proof.
  intro Ht. destruct Hreq_owner as (Hou & Hop).
  destruct Hreq_pupil as (Hpu & Hpp & Hform).
  split.
  - intro Hs.
    apply (check_in_outcome t db by_pupil pupil m c k Hpu Hpupil Hpp Hform
             Hok Hin Hk Hc Hen).
    apply not_true_is_false. intro Hv. apply is_code_valid_spec in Hv.
    destruct Hv as [Hact _]. contradiction.
  - destruct (activate_code_run t0 k db by_owner owner m e c Hou Hop Hok Hin Hk
                Howner He Hc) as (m' & table1 & db1 & n & Hsave & Hsent & _ & Hrun).
    destruct (status_run (timezone_now t0) _ m k active e Hok Hin Hk He)
      as (m'' & table'' & Hsave' & Hok1 & Hin1 & Hk1 & Hs1 & He1 & Hc1 & Hco1 & Hf1).
    rewrite Hsave in Hsave'. injection Hsave' as <- <-.
    destruct (sent_frame _ _ _ _ _ Hsent) as (Ht1 & Hcs1 & Hps1 & Hrs1 & _).
    cbn [makeup_classes courses profiles attendance_records with_makeup_classes]
      in Ht1, Hcs1, Hps1, Hrs1.
    set (row1 := MakeUpClass.stored m') in *.
    assert (Hcourse1 : course_of db1 row1 = Ok c).
    { unfold course_of in *. rewrite Hcs1.
      change (MakeUpClass.course row1) with (MakeUpClass.course m').
      rewrite Hco1. exact Hc. }
    assert (Hpupil1 : exists profile, profile_of db1 pupil = Ok profile
                        /\ UserProfile.role profile = UserProfile.student).
    { unfold profile_of in *. rewrite Hps1. exact Hpupil. }
    assert (Hform1 : AttendanceCodeForm.cleaned_remedial_code (POST by_pupil)
                     = Some (MakeUpClass.remedial_code row1)).
    { change (MakeUpClass.remedial_code row1) with (MakeUpClass.remedial_code m').
      rewrite Hc1. exact Hform. }
    assert (Hexp1 : MakeUpClass.code_expiry row1 = Some (as_stored e)).
    { unfold row1, MakeUpClass.stored. cbn. rewrite He1. reflexivity. }
    assert (Hlive : instant (as_stored e) = instant e) by reflexivity.
    exists db1, row1. split; [exact Hrun|]. split; [exact Hs1|]. split.
    + destruct (check_in_outcome t db1 by_pupil pupil row1 c k Hpu Hpupil1 Hpp
                  Hform1) as (_ & _ & Hgo); try assumption.
      * rewrite Ht1. exact Hok1.
      * rewrite Ht1. exact Hin1.
      * destruct Hgo as (db2 & Hrun2 & _).
        -- apply is_code_valid_spec. split; [exact Hs1|].
           exists (as_stored e). split; [exact Hexp1 | rewrite Hlive; exact Ht].
        -- unfold marked. rewrite Hrs1. exact Hfresh.
        -- exists db2. exact Hrun2.
    + assert (Hok1' : sessions_ok (makeup_classes db1)) by (rewrite Ht1; exact Hok1).
      assert (Hin1' : In row1 (makeup_classes db1)) by (rewrite Ht1; exact Hin1).
      assert (Hf1' : MakeUpClass.faculty row1 = User.pk owner).
      { change (MakeUpClass.faculty row1) with (MakeUpClass.faculty m').
        rewrite Hf1. exact Howner. }
      destruct (complete_class_run t1 k db1 by_owner owner row1 (as_stored e)
                  Hou Hop Hok1' Hin1' Hk1 Hf1' Hexp1)
        as (m3 & table3 & Hsave3 & Hrun3).
      destruct (status_run (timezone_now t1) _ row1 k completed (as_stored e)
                  Hok1' Hin1' Hk1 Hexp1)
        as (m3' & table3' & Hsave3' & Hok3 & Hin3 & Hk3 & Hs3 & He3 & Hc3 & Hco3 & _).
      rewrite Hsave3 in Hsave3'. injection Hsave3' as <- <-.
      set (row3 := MakeUpClass.stored m3) in *.
      exists (with_makeup_classes table3 db1), row3.
      split; [exact Hrun3|]. split; [exact Hs3|].
      apply (check_in_outcome t _ by_pupil pupil row3 c k Hpu); try assumption.
      * change (MakeUpClass.remedial_code row3) with (MakeUpClass.remedial_code m3).
        rewrite Hc3. exact Hform1.
      * unfold course_of in *. cbn [courses with_makeup_classes].
        change (MakeUpClass.course row3) with (MakeUpClass.course m3).
        rewrite Hco3. exact Hcourse1.
      * apply not_true_is_false. intro Hv. apply is_code_valid_spec in Hv.
        destruct Hv as [Hact _].
        change (MakeUpClass.status row3) with (MakeUpClass.status m3) in Hact.
        rewrite Hs3 in Hact. discriminate Hact.
Qed.

End CodeLife.

(** The pupil presents the code at 200, the lecturer activates at 100 and
    completes at 300, the expiry being 1000. *)
Lemma code_follows_status_witness :
  let db := Sample.store scheduled (Some (Sample.at_ 1000)) [] in
  let by_owner := Sample.post Sample.lecturer EmptyString in
  let by_pupil := Sample.post Sample.pupil "ab12cd34" in
  exists db1 m1,
    @activate_code Sample.utc 100 1 db by_owner
    = Ok (db1, redirect "makeup_detail" (Some 1))
    /\ MakeUpClass.status m1 = active
    /\ (exists db2,
          @mark_attendance Sample.utc Sample.ipv6 200 db1 by_pupil
          = Ok (db2, render_mark_attendance (Some (success m1 Sample.cs301))))
    /\ exists db3 m3,
         @complete_class Sample.utc 300 1 db1 by_owner
         = Ok (db3, redirect "makeup_detail" (Some 1))
         /\ MakeUpClass.status m3 = completed
         /\ @mark_attendance Sample.utc Sample.ipv6 200 db3 by_pupil
            = Ok (db3, render_mark_attendance (Some (inactive_or_expired m3))).
Proof.
  intros db by_owner by_pupil.
  refine (proj2 (@code_follows_status Sample.utc Sample.ipv6 db Sample.lecturer Sample.pupil
                   (Sample.session scheduled (Some (Sample.at_ 1000)))
                   Sample.cs301 1 (Sample.at_ 1000) by_owner by_pupil
                   _ _ eq_refl eq_refl eq_refl eq_refl _ _ _ _ _ 100 300 200 _)).
  - repeat split; cbn.
    + repeat constructor. intros [].
    + repeat constructor. intros [].
    + intros r [<- | []]. discriminate.
  - left. reflexivity.
  - left. reflexivity.
  - eexists. split; reflexivity.
  - intros (r & [] & _).
  - split; reflexivity.
  - repeat split.
  - reflexivity.
Defined.

(** ** Presenting a code twice *)

Section Resubmission.
Context {zone : TimeZone}.
Context {ipv6 : IPv6Library}.

Lemma existsb_snoc {A : Type} (p : A -> bool) (l : list A) (x : A) :
  p x = true -> existsb p (l ++ [x])%list = true.
Proof.
  intro H. rewrite existsb_app. simpl. rewrite H.
  rewrite orb_true_r. reflexivity.
Qed.

(** X7. A check-in does not succeed twice. When [mark_attendance] has
    answered [success], the same request on the store it left, at any
    time, is answered [already_marked] if the code of the session is
    valid then and [inactive_or_expired] if it is not, and writes
    nothing. *)
Theorem resubmission_is_refused (clock clock' : Z) (db db' : DB)
    (request : HttpRequest) (r : CheckIn) :
  mark_attendance clock db request = Ok (db', render_mark_attendance (Some r)) ->
  status r = "success" ->
  exists code makeup,
    AttendanceCodeForm.cleaned_remedial_code (POST request) = Some code
    /\ held_by db code makeup
    /\ mark_attendance clock' db' request
       = Ok (db', render_mark_attendance
                    (Some (if MakeUpClass.is_code_valid (timezone_now clock') makeup
                           then already_marked makeup
                           else inactive_or_expired makeup))).
Proof.
  unfold mark_attendance, login_required. intros H Hs.
  destruct (user request) as [u|] eqn:Hu; [|discriminate].
  destruct (profile_of db u) as [profile|e] eqn:Hp; simpl in H; [|discriminate].
  destruct (negb _) eqn:Hrole; [discriminate|].
  destruct (String.eqb (method request) "POST"); [|discriminate].
  destruct (AttendanceCodeForm.cleaned_remedial_code (POST request)) as [code|];
    [|discriminate].
  destruct (check_in_success _ _ _ _ _ _ _ H Hs)
    as (makeup & c & k & Hheld & Hc & Hk & Hin & Hv & Hm & Hr & Hdb).
  exists code, makeup. split; [reflexivity|]. split; [assumption|].
  assert (Hp' : profile_of db' u = Ok profile) by (subst db'; exact Hp).
  rewrite Hp'. simpl. rewrite Hrole.
  unfold check_in.
  assert (Hget : objects_get "MakeUpClass"
                   (fun m => String.eqb (MakeUpClass.remedial_code m) code)
                   (makeup_classes db') = Ok makeup)
    by (subst db'; exact Hheld).
  assert (Hc' : course_of db' makeup = Ok c) by (subst db'; exact Hc).
  rewrite Hget, Hc'. simpl. rewrite Hin. simpl.
  destruct (MakeUpClass.is_code_valid (timezone_now clock') makeup);
    [|reflexivity].
  simpl. unfold pk_of. rewrite Hk. simpl.
  assert (Hex : existsb (AttendanceRecord.for_pair k (User.pk u))
                        (attendance_records db') = true).
  { subst db'. cbn [attendance_records with_notifications with_attendance_records].
    apply existsb_snoc. unfold AttendanceRecord.for_pair. simpl.
    rewrite !Z.eqb_refl. reflexivity. }
  rewrite Hex. reflexivity.
Qed.

End Resubmission.

(** The pupil presents the valid code twice, at 500 and at 600. *)
Lemma resubmission_is_refused_witness :
  let db := Sample.store active (Some (Sample.at_ 1000)) [] in
  let request := Sample.post Sample.pupil "AB12CD34" in
  let db' := store_after db (@mark_attendance Sample.utc Sample.ipv6 500 db request) in
  @mark_attendance Sample.utc Sample.ipv6 600 db' request
  = Ok (db', render_mark_attendance
               (Some (already_marked (Sample.session active (Some (Sample.at_ 1000)))))).
Proof.
  intros db request db'.
  destruct (@resubmission_is_refused Sample.utc Sample.ipv6 500 600 db db' request
              (success (Sample.session active (Some (Sample.at_ 1000))) Sample.cs301)
              eq_refl eq_refl)
    as (code & makeup & Hcode & Hheld & H).
  injection Hcode as <-.
  vm_compute in Hheld. injection Hheld as <-. exact H.
Defined.

(** ** A new code for a session *)

Lemma same_key_same_row {A K : Type} (key : A -> K) (l : list A) (a b : A) :
  NoDup (map key l) -> In a l -> In b l -> key a = key b -> a = b.
Proof.
  intros Hnd Ha Hb Hk.
  destruct (split_by_key key l a Hnd Ha) as (l1 & l2 & -> & Hother).
  apply in_app_or in Hb. destruct Hb as [Hb | [Hb | Hb]]; [|exact Hb|];
    exfalso; apply (Hother b); [apply in_or_app; left; exact Hb | congruence
                               | apply in_or_app; right; exact Hb | congruence].
Qed.

Section Regenerate.
Context {zone : TimeZone}.
Context {ipv6 : IPv6Library}.

Lemma set_code_fields (v : string) (m : MakeUpClass.t) :
  MakeUpClass.pk (set_remedial_code v m) = MakeUpClass.pk m
  /\ MakeUpClass.remedial_code (set_remedial_code v m) = v
  /\ MakeUpClass.status (set_remedial_code v m) = MakeUpClass.status m
  /\ MakeUpClass.code_expiry (set_remedial_code v m) = MakeUpClass.code_expiry m
  /\ MakeUpClass.faculty (set_remedial_code v m) = MakeUpClass.faculty m
  /\ MakeUpClass.course (set_remedial_code v m) = MakeUpClass.course m.
Proof. repeat split. Qed.

(** X8. [regenerate_code] acts only for a faculty member who owns the
    session, on a POST: an anonymous request is sent to the login page,
    another method is answered "not allowed", a user whose profile is not
    that of a faculty member gets the answer 403 whatever the key, and a
    faculty member who owns no session under the key gets [Http404]. In
    each case the store is as it was. *)
Theorem regenerate_code_gated (draws : nat -> nat) (clock pk : Z) (db : DB)
    (request : HttpRequest) :
  (user request = None ->
   views.regenerate_code draws clock pk db request
   = Ok (db, page (redirect "login" None)))
  /\ (forall u, user request = Some u -> method request <> "POST" ->
        views.regenerate_code draws clock pk db request
        = Ok (db, page HttpResponseNotAllowed))
  /\ (forall u profile,
        user request = Some u -> method request = "POST" ->
        profile_of db u = Ok profile ->
        UserProfile.role profile <> UserProfile.faculty ->
        views.regenerate_code draws clock pk db request
        = Ok (db, JsonResponse 403 [("error", JStr "Unauthorized")]))
  /\ (forall u profile,
        user request = Some u -> method request = "POST" ->
        profile_of db u = Ok profile ->
        UserProfile.role profile = UserProfile.faculty ->
        (forall m, In m (makeup_classes db) -> MakeUpClass.pk m = Some pk ->
           MakeUpClass.faculty m <> User.pk u) ->
        views.regenerate_code draws clock pk db request = Raise Http404).
Proof.
  unfold views.regenerate_code, login_required_as, require_POST_as.
  split; [intros ->; reflexivity|]. split; [|split].
  - intros u -> Hm. apply String.eqb_neq in Hm. rewrite Hm. reflexivity.
  - intros u profile -> -> Hp Hrole. simpl. rewrite Hp. simpl.
    destruct (UserProfile.role profile); [contradiction Hrole|]; reflexivity.
  - intros u profile -> -> Hp Hrole Hnone. simpl. rewrite Hp. cbn [bind].
    rewrite Hrole. simpl. rewrite (not_owned db u pk Hnone). reflexivity.
Qed.

(** X9. For the owner, [regenerate_code] either replaces the code of the
    session or fails on the unique constraint. If the drawn code is held
    by another session the view raises [IntegrityError]. Otherwise it
    answers with the drawn code; the table still satisfies its
    constraints; the session is stored under its key with the drawn code,
    its status and its owner as before; the sessions under other keys are
    those of before; and when the drawn code differs from the old one, no
    session holds the old code any more, so that a student who presents
    it is answered [not_found]. *)
Theorem regenerate_code_replaces (draws : nat -> nat) (clock k : Z) (db : DB)
    (request : HttpRequest) (u : User.t) (profile : UserProfile.t)
    (m : MakeUpClass.t) :
  user request = Some u -> method request = "POST" ->
  profile_of db u = Ok profile ->
  UserProfile.role profile = UserProfile.faculty ->
  sessions_ok (makeup_classes db) -> In m (makeup_classes db) ->
  MakeUpClass.pk m = Some k -> MakeUpClass.faculty m = User.pk u ->
  let code := generate_remedial_code draws in
  ((exists r, In r (makeup_classes db) /\ MakeUpClass.remedial_code r = code
              /\ MakeUpClass.pk r <> Some k) ->
   views.regenerate_code draws clock k db request = Raise IntegrityError)
  /\ ((forall r, In r (makeup_classes db) -> MakeUpClass.remedial_code r = code ->
         MakeUpClass.pk r = Some k) ->
      exists db' row,
        views.regenerate_code draws clock k db request
        = Ok (db', JsonResponse 200 [("code", JStr code); ("success", JBool true)])
        /\ sessions_ok (makeup_classes db')
        /\ In row (makeup_classes db')
        /\ MakeUpClass.pk row = Some k
        /\ MakeUpClass.remedial_code row = code
        /\ MakeUpClass.status row = MakeUpClass.status m
        /\ MakeUpClass.faculty row = MakeUpClass.faculty m
        /\ (forall r, MakeUpClass.pk r <> Some k ->
              (In r (makeup_classes db) <-> In r (makeup_classes db')))
        /\ courses db' = courses db /\ profiles db' = profiles db
        /\ attendance_records db' = attendance_records db
        /\ notifications db' = notifications db
        /\ (code <> MakeUpClass.remedial_code m ->
            forall t s by_student,
              user by_student = Some s ->
              (exists p, profile_of db s = Ok p
                         /\ UserProfile.role p = UserProfile.student) ->
              method by_student = "POST" ->
              AttendanceCodeForm.cleaned_remedial_code (POST by_student)
              = Some (MakeUpClass.remedial_code m) ->
              mark_attendance t db' by_student
              = Ok (db', render_mark_attendance (Some not_found)))).
Proof.
  intros Hu Hpost Hp Hrole Hok Hin Hk Hf code.
  unfold views.regenerate_code, login_required_as, require_POST_as.
  rewrite Hu, Hpost. simpl. rewrite Hp. cbn [bind]. rewrite Hrole. simpl.
  rewrite (lookup_owned db u m k Hok Hin Hk Hf). cbn [bind].
  fold code. unfold MakeUpClass.save.
  set (m2 := MakeUpClass.fill_code_expiry (set_remedial_code code m)).
  destruct (fill_fields (set_remedial_code code m))
    as (Hfk & Hfc & Hfs & _ & Hff).
  fold m2 in Hfk, Hfc, Hfs, Hff.
  assert (Hk2 : MakeUpClass.pk m2 = Some k) by (rewrite Hfk; exact Hk).
  assert (Hc2 : MakeUpClass.remedial_code m2 = code) by (rewrite Hfc; reflexivity).
  split.
  - intros (r & Hr & Hrc & Hne). unfold MakeUpClass.super_save.
    rewrite Hk2, Hc2.
    assert (Hclash : existsb
              (fun r0 => String.eqb (MakeUpClass.remedial_code r0) code)
              (filter (fun r0 => negb (opt_eqb (MakeUpClass.pk r0) k))
                      (makeup_classes db)) = true).
    { apply existsb_exists. exists r. split; [|apply String.eqb_eq; exact Hrc].
      apply filter_In. split; [exact Hr|].
      destruct (opt_eqb (MakeUpClass.pk r) k) eqn:E; [|reflexivity].
      apply opt_eqb_eq in E. contradiction. }
    rewrite Hclash. reflexivity.
  - intro Hfree.
    assert (Hfree2 : code_is_free (makeup_classes db) m2).
    { intros r Hr Hrc. exists k. split; [exact Hk2|]. apply Hfree; [exact Hr|].
      rewrite Hrc. exact Hc2. }
    destruct (super_save_ok (timezone_now clock) _ m2 Hfree2)
      as (m' & table' & Hsave & _).
    destruct (super_save_constraints _ _ table' m2 m' Hok Hsave)
      as (Hok' & Hin' & Hc' & Hs' & _ & Hkey & Hkeep & Hback).
    destruct (super_save_fields _ _ table' m2 m' Hsave) as (_ & Hfa' & _).
    pose proof (Hkey k Hk2) as Hk'.
    rewrite Hsave. simpl.
    exists (with_makeup_classes table' db), (MakeUpClass.stored m').
    rewrite Hc', Hc2. split; [reflexivity|].
    cbn [makeup_classes courses profiles attendance_records notifications
         with_makeup_classes].
    destruct (stored_fields m') as (_ & Hsc & Hss & _ & Hsf).
    split; [exact Hok'|]. split; [exact Hin'|]. split; [exact Hk'|].
    split; [rewrite Hsc, Hc'; exact Hc2|].
    split; [rewrite Hss, Hs'; exact Hfs|].
    split; [rewrite Hsf, Hfa'; exact Hff|].
    split.
    { intros r Hne. rewrite <- Hk' in Hne.
      split; intro Hr; [apply Hkeep | apply Hback]; assumption. }
    do 4 (split; [reflexivity|]).
    intros Hnew t s by_student Hs Hstudent Hpost' Hform.
    assert (Hstudent' : exists p, profile_of (with_makeup_classes table' db) s = Ok p
                                  /\ UserProfile.role p = UserProfile.student)
      by exact Hstudent.
    rewrite (mark_attendance_check_in t _ by_student s _ Hs Hstudent' Hpost' Hform).
    unfold check_in. cbn [makeup_classes with_makeup_classes].
    unfold objects_get. rewrite filter_none; [reflexivity|].
    intros r Hr. apply String.eqb_neq. intro Hold.
    destruct (opt_eqb (MakeUpClass.pk r) k) eqn:E.
    + apply opt_eqb_eq in E.
      assert (r = MakeUpClass.stored m').
      { destruct Hok' as (Hpk' & _).
        apply (same_key_same_row MakeUpClass.pk table' _ _ Hpk' Hr Hin').
        cbn. congruence. }
      subst r. apply Hnew. rewrite <- Hold, Hsc, Hc'. symmetry. exact Hc2.
    + assert (Hne : MakeUpClass.pk r <> MakeUpClass.pk m').
      { rewrite Hk'. intro Heq. rewrite Heq in E. cbn in E.
        rewrite Z.eqb_refl in E. discriminate. }
      pose proof (Hback r Hr Hne) as Hr0.
      destruct Hok as (_ & Hcodes & _).
      assert (r = m)
        by (apply (same_key_same_row MakeUpClass.remedial_code _ _ _ Hcodes Hr0 Hin);
            exact Hold).
      subst r. apply Hne. congruence.
Qed.

End Regenerate.

(** A student asks for a new code for the session of the lecturer. *)
Lemma regenerate_code_gated_witness :
  let db := Sample.store active (Some (Sample.at_ 1000)) [] in
  @views.regenerate_code Sample.utc (fun i => i) 500 1 db
    (Sample.post Sample.pupil EmptyString)
  = Ok (db, JsonResponse 403 [("error", JStr "Unauthorized")]).
Proof.
  intro db.
  apply (proj1 (proj2 (proj2
           (@regenerate_code_gated Sample.utc (fun i => i) 500 1 db
              (Sample.post Sample.pupil EmptyString))))
           Sample.pupil
           (UserProfile.mk 2 UserProfile.student "Computer Science" "CS-2024-001"
                           EmptyString));
    try reflexivity.
  discriminate.
Defined.

(** The lecturer draws the code DKRY5CJQ for the active session; the pupil
    then presents the code the session had. *)
Lemma regenerate_code_replaces_witness :
  let db := Sample.store active (Some (Sample.at_ 1000)) [] in
  let draws := fun i => ((7 * i + 3) mod 36)%nat in
  exists db',
    @views.regenerate_code Sample.utc draws 100 1 db
      (Sample.post Sample.lecturer EmptyString)
    = Ok (db', JsonResponse 200 [("code", JStr "DKRY5CJQ"); ("success", JBool true)])
    /\ @mark_attendance Sample.utc Sample.ipv6 200 db' (Sample.post Sample.pupil "ab12cd34")
       = Ok (db', render_mark_attendance (Some not_found)).
Proof.
  intros db draws.
  pose proof (@regenerate_code_replaces Sample.utc Sample.ipv6 draws 100 1 db
                (Sample.post Sample.lecturer EmptyString) Sample.lecturer
                (UserProfile.mk 1 UserProfile.faculty "Computer Science"
                                EmptyString EmptyString)
                (Sample.session active (Some (Sample.at_ 1000)))
                eq_refl eq_refl eq_refl eq_refl) as H.
  cbv zeta in H.
  destruct H as [_ H].
  - repeat split; cbn.
    + repeat constructor. intros [].
    + repeat constructor. intros [].
    + intros r [<- | []]. discriminate.
  - left. reflexivity.
  - reflexivity.
  - reflexivity.
  - destruct H as (db' & row & Hrun & _ & _ & _ & _ & _ & _ & _ & _ & _ & _ & _
                   & Hdead).
    + intros r [<- | []]. discriminate.
    + exists db'. split; [exact Hrun|].
      apply (Hdead ltac:(discriminate) 200 Sample.pupil); try reflexivity.
      eexists. split; reflexivity.
Defined.

(** ** Joining a course *)

Lemma filter_map_same {A : Type} (f : A -> A) (p : A -> bool) (l : list A) :
  (forall x, p (f x) = p x) -> filter p (map f l) = map f (filter p l).
Proof.
  intro H. induction l as [|a l IH]; [reflexivity|].
  cbn [map filter]. rewrite H. destruct (p a); cbn [map]; rewrite IH; reflexivity.
Qed.

Lemma objects_get_one {A : Type} (model : string) (p : A -> bool) (l : list A)
    (x : A) :
  objects_get model p l = Ok x <-> filter p l = [x].
Proof.
  unfold objects_get. split.
  - destruct (filter p l) as [|a [|b rest]]; try discriminate.
    intro H. injection H as ->. reflexivity.
  - intros ->. reflexivity.
Qed.

Lemma add_student_fields (s : Z) (c : Course.t) :
  Course.pk (add_student s c) = Course.pk c
  /\ Course.code (add_student s c) = Course.code c
  /\ Course.name (add_student s c) = Course.name c
  /\ Course.has_student (add_student s c) s = true
  /\ (forall x, In x (Course.students c) -> In x (Course.students (add_student s c)))
  /\ (forall x, In x (Course.students (add_student s c)) ->
        x = s \/ In x (Course.students c)).
Proof.
  unfold add_student. destruct (Course.has_student c s) eqn:E.
  - do 3 (split; [reflexivity|]). split; [exact E|].
    split; intros x Hx; [exact Hx | right; exact Hx].
  - do 3 (split; [reflexivity|]). split; [|split].
    + unfold Course.has_student. cbn [Course.students].
      rewrite existsb_app. cbn. rewrite Z.eqb_refl, orb_true_r. reflexivity.
    + intros x Hx. cbn [Course.students]. apply in_or_app. left. exact Hx.
    + cbn [Course.students]. intros x Hx. apply in_app_or in Hx.
      destruct Hx as [Hx | [Hx | []]]; [right; exact Hx | left; symmetry; exact Hx].
Qed.

Lemma add_student_again (s : Z) (c : Course.t) :
  add_student s (add_student s c) = add_student s c.
Proof.
  destruct (add_student_fields s c) as (_ & _ & _ & H & _).
  unfold add_student at 1. rewrite H. reflexivity.
Qed.

Section Enrollment.
Context {zone : TimeZone}.
Context {ipv6 : IPv6Library}.

(** The course code [enroll_course] looks up. *)
Let posted (request : HttpRequest) : string :=
  Str.upper (Str.strip (match dict_get (POST request) "course_code" with
                        | Some v => v
                        | None => EmptyString
                        end)).

(** The rows of the courses after [u] has joined the course of key [k]. *)
Let joined (u : User.t) (k : Z) (table : list Course.t) : list Course.t :=
  map (fun c => if Course.pk c =? k then add_student (User.pk u) c else c) table.

Lemma enroll_course_run (db : DB) (request : HttpRequest) (u : User.t)
    (c : Course.t) :
  user request = Some u -> method request = "POST" ->
  (exists profile, profile_of db u = Ok profile
                   /\ UserProfile.role profile = UserProfile.student) ->
  objects_get "Course" (fun c0 => String.eqb (Course.code c0) (posted request))
    (courses db) = Ok c ->
  views.enroll_course db request
  = Ok (with_courses (joined u (Course.pk c) (courses db)) db,
        JsonResponse 200 [("success", JBool true);
                          ("course", JStr (Course.name c));
                          ("code", JStr (Course.code c))]).
Proof.
  intros Hu Hpost (profile & Hp & Hrole) Hget.
  unfold views.enroll_course, login_required_as, require_POST_as.
  rewrite Hu, Hpost. simpl. rewrite Hp. cbn [bind]. rewrite Hrole. simpl.
  fold (posted request). rewrite Hget. reflexivity.
Qed.

Lemma joined_lookup (u : User.t) (k : Z) (p : Course.t -> bool)
    (table : list Course.t) (c : Course.t) (model : string) :
  (forall x, p (add_student (User.pk u) x) = p x) ->
  objects_get model p table = Ok c ->
  objects_get model p (joined u k table)
  = Ok (if Course.pk c =? k then add_student (User.pk u) c else c).
Proof.
  intros Hp Hget. apply objects_get_one in Hget. apply objects_get_one.
  unfold joined. rewrite filter_map_same.
  - rewrite Hget. reflexivity.
  - intro x. destruct (Course.pk x =? k); [apply Hp | reflexivity].
Qed.

Lemma joined_again (u : User.t) (k : Z) (table : list Course.t) :
  joined u k (joined u k table) = joined u k table.
Proof.
  unfold joined. rewrite map_map. apply map_ext. intro x.
  destruct (Course.pk x =? k) eqn:E.
  - destruct (add_student_fields (User.pk u) x) as (-> & _).
    rewrite E. apply add_student_again.
  - rewrite E. reflexivity.
Qed.

(** X10. [enroll_course] acts only for a student, on a POST, and only on
    a course whose code is the posted text, stripped and in upper case.
    An anonymous request is sent to the login page, another method is
    answered "not allowed", a user whose profile is not that of a student
    gets the answer 403, and a student whose text is the code of no
    course gets the answer 404. In each case the store is as it was. *)
Theorem enroll_course_gated (db : DB) (request : HttpRequest) :
  (user request = None ->
   views.enroll_course db request = Ok (db, page (redirect "login" None)))
  /\ (forall u, user request = Some u -> method request <> "POST" ->
        views.enroll_course db request = Ok (db, page HttpResponseNotAllowed))
  /\ (forall u profile,
        user request = Some u -> method request = "POST" ->
        profile_of db u = Ok profile ->
        UserProfile.role profile <> UserProfile.student ->
        views.enroll_course db request
        = Ok (db, JsonResponse 403 [("error", JStr "Only students can enroll")]))
  /\ (forall u profile,
        user request = Some u -> method request = "POST" ->
        profile_of db u = Ok profile ->
        UserProfile.role profile = UserProfile.student ->
        (forall c, In c (courses db) ->
           Course.code c
           <> Str.upper (Str.strip (match dict_get (POST request) "course_code" with
                                    | Some v => v
                                    | None => EmptyString
                                    end))) ->
        views.enroll_course db request
        = Ok (db, JsonResponse 404
                    [("error", JStr "Course not found with that code.")])).
Proof.
  unfold views.enroll_course, login_required_as, require_POST_as.
  split; [intros ->; reflexivity|]. split; [|split].
  - intros u -> Hm. apply String.eqb_neq in Hm. rewrite Hm. reflexivity.
  - intros u profile -> -> Hp Hrole. simpl. rewrite Hp. cbn [bind].
    destruct (UserProfile.role profile); [|contradiction Hrole]; reflexivity.
  - intros u profile -> -> Hp Hrole Hnone. simpl. rewrite Hp. cbn [bind].
    rewrite Hrole. simpl. unfold objects_get.
    rewrite filter_none; [reflexivity|].
    intros c Hc. apply String.eqb_neq. apply Hnone. exact Hc.
Qed.

(** X11. A student who posts the code of a course becomes a member of it,
    once. The view answers with the name and the code of the course; in
    the store it leaves, the row of the course has the student among its
    students and keeps those it had, the rows under other keys and the
    other tables are as before; and the same request on that store gives
    the same answer and leaves the store as it is. *)
Theorem enroll_course_adds_once (db : DB) (request : HttpRequest) (u : User.t)
    (c : Course.t) :
  user request = Some u -> method request = "POST" ->
  (exists profile, profile_of db u = Ok profile
                   /\ UserProfile.role profile = UserProfile.student) ->
  objects_get "Course"
    (fun c0 => String.eqb (Course.code c0)
       (Str.upper (Str.strip (match dict_get (POST request) "course_code" with
                              | Some v => v
                              | None => EmptyString
                              end))))
    (courses db) = Ok c ->
  exists db' c',
    let answer := JsonResponse 200 [("success", JBool true);
                                    ("course", JStr (Course.name c));
                                    ("code", JStr (Course.code c))] in
    views.enroll_course db request = Ok (db', answer)
    /\ In c' (courses db') /\ Course.pk c' = Course.pk c
    /\ Course.code c' = Course.code c
    /\ In (User.pk u) (Course.students c')
    /\ (forall s, In s (Course.students c) -> In s (Course.students c'))
    /\ (forall s, In s (Course.students c') ->
          s = User.pk u \/ In s (Course.students c))
    /\ (forall r, Course.pk r <> Course.pk c ->
          (In r (courses db) <-> In r (courses db')))
    /\ makeup_classes db' = makeup_classes db /\ profiles db' = profiles db
    /\ attendance_records db' = attendance_records db
    /\ notifications db' = notifications db
    /\ views.enroll_course db' request = Ok (db', answer).
Proof.
  intros Hu Hpost Hstudent Hget.
  pose proof (enroll_course_run db request u c Hu Hpost Hstudent Hget) as Hrun.
  destruct (objects_get_In _ _ _ _ Hget) as (Hin & _).
  destruct (add_student_fields (User.pk u) c) as (Hk & Hcode & Hname & Hhas & Hold & Hnew).
  exists (with_courses (joined u (Course.pk c) (courses db)) db),
         (add_student (User.pk u) c).
  cbv zeta. split; [exact Hrun|].
  cbn [courses makeup_classes profiles attendance_records notifications
       with_courses].
  split.
  { unfold joined. apply in_map_iff. exists c. rewrite Z.eqb_refl.
    split; [reflexivity | exact Hin]. }
  split; [exact Hk|]. split; [exact Hcode|].
  split; [apply has_student_In; exact Hhas|].
  split; [exact Hold|]. split; [exact Hnew|].
  split.
  { intros r Hne. unfold joined. rewrite in_map_iff. split.
    - intro Hr. exists r. split; [|exact Hr].
      destruct (Course.pk r =? Course.pk c) eqn:E; [|reflexivity].
      apply Z.eqb_eq in E. contradiction.
    - intros (x & Hx & Hxin).
      destruct (Course.pk x =? Course.pk c) eqn:E.
      + apply Z.eqb_eq in E. subst r. exfalso. apply Hne.
        destruct (add_student_fields (User.pk u) x) as (-> & _). exact E.
      + subst r. exact Hxin. }
  do 4 (split; [reflexivity|]).
  set (db' := with_courses (joined u (Course.pk c) (courses db)) db).
  assert (Hget' : objects_get "Course"
                    (fun c0 => String.eqb (Course.code c0) (posted request))
                    (courses db') = Ok (add_student (User.pk u) c)).
  { cbn [db' courses with_courses].
    rewrite (joined_lookup u (Course.pk c) _ (courses db) c "Course").
    - rewrite Z.eqb_refl. reflexivity.
    - intro x. destruct (add_student_fields (User.pk u) x) as (_ & -> & _).
      reflexivity.
    - exact Hget. }
  rewrite (enroll_course_run db' request u _ Hu Hpost Hstudent Hget').
  rewrite Hk, Hcode, Hname. cbn [db' courses with_courses].
  rewrite joined_again. reflexivity.
Qed.

(** X12. Joining the course opens its check-in. A student who is not a
    member and presents the valid code of a session of the course is
    answered [not_enrolled]; after [enroll_course] for that course, the
    same request succeeds. *)
Theorem enrollment_opens_checkin (clock : Z) (db : DB)
    (join present : HttpRequest) (u : User.t) (c : Course.t)
    (makeup : MakeUpClass.t) (code : string) (k : Z) :
  user join = Some u -> method join = "POST" ->
  (exists profile, profile_of db u = Ok profile
                   /\ UserProfile.role profile = UserProfile.student) ->
  objects_get "Course"
    (fun c0 => String.eqb (Course.code c0)
       (Str.upper (Str.strip (match dict_get (POST join) "course_code" with
                              | Some v => v
                              | None => EmptyString
                              end))))
    (courses db) = Ok c ->
  user present = Some u -> method present = "POST" ->
  AttendanceCodeForm.cleaned_remedial_code (POST present) = Some code ->
  held_by db code makeup -> course_of db makeup = Ok c ->
  MakeUpClass.pk makeup = Some k ->
  valid clock makeup -> ~ marked db u k ->
  (~ enrolled_in u c ->
   mark_attendance clock db present
   = Ok (db, render_mark_attendance (Some not_enrolled)))
  /\ exists db' answer c' db'',
       views.enroll_course db join = Ok (db', answer)
       /\ course_of db' makeup = Ok c'
       /\ mark_attendance clock db' present
          = Ok (db'', render_mark_attendance (Some (success makeup c'))).
Proof.
  intros Hu Hpost Hstudent Hget Hu' Hpost' Hform Hheld Hc Hk Hv Hm.
  split.
  - intro Hn.
    rewrite (mark_attendance_check_in clock db present u code Hu' Hstudent Hpost' Hform).
    unfold check_in. unfold held_by in Hheld. rewrite Hheld, Hc. simpl.
    assert (Hout : Course.has_student c (User.pk u) = false).
    { apply not_true_is_false. intro H. apply Hn. apply has_student_In. exact H. }
    rewrite Hout. reflexivity.
  - pose proof (enroll_course_run db join u c Hu Hpost Hstudent Hget) as Hrun.
    set (db' := with_courses (joined u (Course.pk c) (courses db)) db) in *.
    destruct (add_student_fields (User.pk u) c) as (_ & _ & _ & Hhas & _).
    assert (Hc' : course_of db' makeup = Ok (add_student (User.pk u) c)).
    { unfold course_of in *. cbn [db' courses with_courses].
      rewrite (joined_lookup u (Course.pk c) _ (courses db) c "Course").
      - rewrite Z.eqb_refl. reflexivity.
      - intro x. destruct (add_student_fields (User.pk u) x) as (-> & _).
        reflexivity.
      - exact Hc. }
    assert (Hstudent' : exists profile, profile_of db' u = Ok profile
                          /\ UserProfile.role profile = UserProfile.student)
      by exact Hstudent.
    eexists db', _, (add_student (User.pk u) c), _.
    split; [exact Hrun|]. split; [exact Hc'|].
    rewrite (mark_attendance_check_in clock db' present u code Hu' Hstudent' Hpost' Hform).
    unfold check_in. unfold held_by in Hheld.
    cbn [db' makeup_classes with_courses]. rewrite Hheld.
    fold db'. rewrite Hc'. cbn [bind]. rewrite Hhas. cbn [negb].
    rewrite (valid_is_valid clock makeup Hv). cbn [negb].
    unfold pk_of. rewrite Hk. cbn [bind].
    assert (Hfree : existsb (AttendanceRecord.for_pair k (User.pk u))
                            (attendance_records db') = false).
    { apply not_true_is_false. intro H. apply Hm.
      apply for_pair_exists. exact H. }
    rewrite Hfree. unfold AttendanceRecord.create. rewrite Hfree. reflexivity.
Qed.

End Enrollment.

(** A student posts the code of no course. *)
Lemma enroll_course_gated_witness :
  let db := Sample.store active (Some (Sample.at_ 1000)) [] in
  @views.enroll_course db
    (mk_request (Some Sample.stranger) "POST" [("course_code", "cs999")] [])
  = Ok (db, JsonResponse 404 [("error", JStr "Course not found with that code.")]).
Proof.
  intro db.
  apply (proj2 (proj2 (proj2
           (enroll_course_gated db
              (mk_request (Some Sample.stranger) "POST"
                          [("course_code", "cs999")] []))))
           Sample.stranger
           (UserProfile.mk 3 UserProfile.student "Computer Science" "CS-2024-002"
                           EmptyString));
    try reflexivity.
  intros c [<- | []]. discriminate.
Defined.

(** A student who is not a member posts the code of the course, in lower
    case and between blanks. *)
Lemma enroll_course_adds_once_witness :
  let db := Sample.store active (Some (Sample.at_ 1000)) [] in
  let request :=
    mk_request (Some Sample.stranger) "POST" [("course_code", " cs301 ")] [] in
  let answer := JsonResponse 200 [("success", JBool true);
                                  ("course", JStr "Data Structures");
                                  ("code", JStr "CS301")] in
  exists db' c',
    views.enroll_course db request = Ok (db', answer)
    /\ In c' (courses db') /\ In 3 (Course.students c')
    /\ In 2 (Course.students c')
    /\ views.enroll_course db' request = Ok (db', answer).
Proof.
  intros db request answer.
  destruct (enroll_course_adds_once db request Sample.stranger Sample.cs301
              eq_refl eq_refl)
    as (db' & c' & Hrun & Hin & _ & _ & Hu & Hold & _ & _ & _ & _ & _ & _ & Hagain).
  - eexists. split; reflexivity.
  - reflexivity.
  - exists db', c'. split; [exact Hrun|]. split; [exact Hin|].
    split; [exact Hu|]. split; [apply Hold; left; reflexivity | exact Hagain].
Defined.

(** The same student presents the valid code of the session before and
    after joining the course. *)
Lemma enrollment_opens_checkin_witness :
  let db := Sample.store active (Some (Sample.at_ 1000)) [] in
  let join :=
    mk_request (Some Sample.stranger) "POST" [("course_code", "cs301")] [] in
  let present := Sample.post Sample.stranger "AB12CD34" in
  @mark_attendance Sample.utc Sample.ipv6 500 db present
  = Ok (db, render_mark_attendance (Some not_enrolled))
  /\ exists db' answer c' db'',
       views.enroll_course db join = Ok (db', answer)
       /\ course_of db' (Sample.session active (Some (Sample.at_ 1000))) = Ok c'
       /\ @mark_attendance Sample.utc Sample.ipv6 500 db' present
          = Ok (db'', render_mark_attendance
                        (Some (success (Sample.session active (Some (Sample.at_ 1000)))
                                       c'))).
Proof.
  intros db join present.
  destruct (@enrollment_opens_checkin Sample.utc Sample.ipv6 500 db join present
              Sample.stranger Sample.cs301
              (Sample.session active (Some (Sample.at_ 1000))) "AB12CD34" 1
              eq_refl eq_refl) as [Hbefore Hafter].
  - eexists. split; reflexivity.
  - reflexivity.
  - reflexivity.
  - reflexivity.
  - reflexivity.
  - reflexivity.
  - reflexivity.
  - reflexivity.
  - split; [reflexivity|]. eexists. split; [reflexivity|]. cbn. lia.
  - intros (r & [] & _).
  - split; [|exact Hafter]. apply Hbefore.
    unfold enrolled_in. cbn. intros [E | []]. discriminate E.
Defined.

(** ** Sorting by a key, largest first *)

Lemma insert_sorted_key {A : Type} (key : A -> Z) (x : A) (l : list A) :
  Sorted (fun a b => key b <= key a) l ->
  Sorted (fun a b => key b <= key a)
         (insert_sorted (fun a b => key b <=? key a) x l).
Proof.
  induction l as [|y l IH]; intro Hs; cbn [insert_sorted].
  - repeat constructor.
  - destruct (Z.leb_spec (key y) (key x)) as [Hle | Hlt].
    + constructor; [exact Hs|]. constructor. exact Hle.
    + inversion Hs as [|? ? Hl Hhd]; subst.
      constructor; [apply IH; exact Hl|].
      destruct l as [|z l]; cbn [insert_sorted].
      * constructor. lia.
      * destruct (key z <=? key x); constructor; [lia|].
        inversion Hhd; subst. assumption.
Qed.

Lemma stable_sort_key {A : Type} (key : A -> Z) (l : list A) :
  Sorted (fun a b => key b <= key a)
         (stable_sort (fun a b => key b <=? key a) l).
Proof.
  unfold stable_sort. induction l as [|x l IH]; cbn [fold_right]; [constructor|].
  apply insert_sorted_key. exact IH.
Qed.

Lemma stable_sort_In {A : Type} (before : A -> A -> bool) (l : list A) (x : A) :
  In x (stable_sort before l) <-> In x l.
Proof.
  split; apply Permutation_in;
    [|apply Permutation_sym]; apply stable_sort_perm.
Qed.

(** ** The inbox *)

Section Inbox.
Context {zone : TimeZone}.
Context {ipv6 : IPv6Library}.

Variable db : DB.
Variable u : User.t.

(** What [update(is_read=True)] does to a row. *)
Let seen (n : Notification.t) : Notification.t :=
  if (Notification.recipient n =? User.pk u) && negb (Notification.is_read n)
  then mark_read n else n.

Lemma seen_fields (n : Notification.t) :
  Notification.pk (seen n) = Notification.pk n
  /\ Notification.recipient (seen n) = Notification.recipient n
  /\ (Notification.recipient n = User.pk u -> Notification.is_read (seen n) = true)
  /\ (Notification.recipient n <> User.pk u -> seen n = n).
Proof.
  unfold seen. destruct (Z.eqb_spec (Notification.recipient n) (User.pk u)) as [E | E].
  - destruct (Notification.is_read n) eqn:R; cbn [andb negb].
    + split; [reflexivity|]. split; [reflexivity|]. split; [intros _; exact R|].
      intro H. contradiction.
    + split; [reflexivity|]. split; [reflexivity|]. split; [reflexivity|].
      intro H. contradiction.
  - cbn [andb]. split; [reflexivity|]. split; [reflexivity|].
    split; [intro H; contradiction | reflexivity].
Qed.

Lemma unread_after (v : User.t) :
  unread_count (with_notifications (map seen (notifications db)) db) v
  = if User.pk v =? User.pk u then 0 else unread_count db v.
Proof.
  unfold unread_count. cbn [notifications with_notifications].
  destruct (Z.eqb_spec (User.pk v) (User.pk u)) as [E | E].
  - rewrite filter_none; [reflexivity|]. intros n Hn.
    apply in_map_iff in Hn. destruct Hn as (x & <- & _).
    destruct (seen_fields x) as (_ & Hr & Hread & _). rewrite Hr, E.
    destruct (Z.eqb_spec (Notification.recipient x) (User.pk u)) as [Ex | Ex];
      [|reflexivity].
    rewrite (Hread Ex). reflexivity.
  - rewrite filter_map_same; [rewrite length_map; reflexivity|].
    intro x. destruct (seen_fields x) as (_ & Hr & _ & Hsame). rewrite Hr.
    destruct (Z.eqb_spec (Notification.recipient x) (User.pk v)) as [Ex | Ex];
      [|reflexivity].
    rewrite Hsame; [reflexivity | congruence].
Qed.

(** X13. Opening the inbox marks the notifications of the user as read,
    and only those. For a user with a profile, [notifications] hands the
    page every notification of the user and no other, each marked read,
    the newest first; in the store it leaves, the count of unread
    notifications of the user, as [api_unread_count] reports it, is 0,
    those of the other users are as before, and the rows keep their keys
    and their recipients. *)
Theorem inbox_marks_read (request : HttpRequest) (profile : UserProfile.t) :
  user request = Some u -> profile_of db u = Ok profile ->
  exists db' rows,
    views.notifications db request = (db', Ok (render_notifications rows profile))
    /\ (forall n, In n rows <->
                  In n (notifications db') /\ Notification.recipient n = User.pk u)
    /\ (forall n, In n rows -> Notification.is_read n = true)
    /\ Sorted (fun a b => views.created_key b <= views.created_key a) rows
    /\ views.api_unread_count db' request
       = Ok (db', JsonResponse 200 [("count", JInt 0)])
    /\ (forall v, User.pk v <> User.pk u -> unread_count db' v = unread_count db v)
    /\ map Notification.pk (notifications db') = map Notification.pk (notifications db)
    /\ map Notification.recipient (notifications db')
       = map Notification.recipient (notifications db)
    /\ makeup_classes db' = makeup_classes db /\ courses db' = courses db
    /\ attendance_records db' = attendance_records db
    /\ profiles db' = profiles db.
Proof.
  intros Hu Hp. unfold views.notifications. rewrite Hu.
  fold seen. set (db' := with_notifications (map seen (notifications db)) db).
  assert (Hp' : profile_of db' u = Ok profile) by exact Hp.
  rewrite Hp'. cbn [bind].
  eexists db', _. split; [reflexivity|].
  split.
  { intro n. rewrite stable_sort_In, filter_In, Z.eqb_eq. reflexivity. }
  split.
  { intros n Hn. apply stable_sort_In in Hn. apply filter_In in Hn.
    destruct Hn as (Hn & Hr). apply Z.eqb_eq in Hr.
    cbn [db' notifications with_notifications] in Hn.
    apply in_map_iff in Hn. destruct Hn as (x & <- & _).
    destruct (seen_fields x) as (_ & Hrx & Hread & _).
    apply Hread. rewrite <- Hrx. exact Hr. }
  split; [apply stable_sort_key|].
  split.
  { unfold views.api_unread_count, login_required_as. rewrite Hu.
    unfold db'. rewrite unread_after, Z.eqb_refl. reflexivity. }
  split.
  { intros v Hv. unfold db'. rewrite unread_after.
    apply Z.eqb_neq in Hv. rewrite Hv. reflexivity. }
  cbn [db' notifications with_notifications makeup_classes courses
       attendance_records profiles].
  rewrite !map_map.
  split; [apply map_ext; intro x; apply seen_fields|].
  split; [apply map_ext; intro x; apply seen_fields|].
  repeat split.
Qed.

End Inbox.

(** The pupil opens an inbox of two notifications, one unread, while the
    lecturer has one unread. *)
Lemma inbox_marks_read_witness :
  let note := fun k to read t =>
    Notification.mk (Some k) to Notification.reminder "Reminder" "Tomorrow at 10"
                    read (Some 1) (Some (Sample.at_ t)) in
  let db := with_notifications [note 1 2 false 10; note 2 1 false 20; note 3 2 true 30]
              (Sample.store active (Some (Sample.at_ 1000)) []) in
  let request := Sample.post Sample.pupil EmptyString in
  exists db' rows profile,
    @views.notifications Sample.utc db request
    = (db', Ok (render_notifications rows profile))
    /\ views.api_unread_count db' request
       = Ok (db', JsonResponse 200 [("count", JInt 0)])
    /\ unread_count db' Sample.lecturer = 1.
Proof.
  intros note db request.
  destruct (@inbox_marks_read Sample.utc db Sample.pupil request
              (UserProfile.mk 2 UserProfile.student "Computer Science"
                              "CS-2024-001" EmptyString)
              eq_refl eq_refl)
    as (db' & rows & Hrun & _ & _ & _ & Hcount & Hothers & _).
  eexists db', rows, _. split; [exact Hrun|]. split; [exact Hcount|].
  rewrite (Hothers Sample.lecturer); [reflexivity | discriminate].
Defined.

(** ** The notifications sent to a course *)

Section Alerts.

(** A stored row [a] made from the unsaved instance [r]. *)
Let stamped (now : datetime) (a r : Notification.t) : Prop :=
  Notification.recipient a = Notification.recipient r
  /\ Notification.notification_type a = Notification.notification_type r
  /\ Notification.title a = Notification.title r
  /\ Notification.message a = Notification.message r
  /\ Notification.is_read a = Notification.is_read r
  /\ Notification.related_class a = Notification.related_class r
  /\ Notification.created_at a = Some now.

Lemma pks_snoc (table : list Notification.t) (a : Notification.t) (k : Z) :
  Notification.pk a = Some k ->
  Notification.pks (table ++ [a])%list = (Notification.pks table ++ [k])%list.
Proof.
  intro H. unfold Notification.pks. rewrite flat_map_app. cbn [flat_map].
  rewrite H. reflexivity.
Qed.

Lemma bulk_create_spec (now : datetime) (rows table : list Notification.t) :
  exists added,
    Notification.bulk_create now table rows = (table ++ added)%list
    /\ Forall2 (stamped now) added rows
    /\ (NoDup (Notification.pks table) ->
        NoDup (Notification.pks (table ++ added)%list)).
Proof.
  unfold Notification.bulk_create. revert table.
  induction rows as [|r rows IH]; intro table; cbn [fold_left].
  - exists []. rewrite app_nil_r. split; [reflexivity|].
    split; [constructor | intro H; exact H].
  - assert (Hins : exists a,
              Notification.insert now table r = (table ++ [a])%list
              /\ stamped now a r
              /\ Notification.pk a = Some (next_pk (Notification.pks table))).
    { eexists. split; [reflexivity|]. split; [|reflexivity].
      unfold stamped. repeat split. }
    destruct Hins as (a & Hins & Hst & Hpk).
    destruct (IH (Notification.insert now table r)) as (added & Hrun & Hall & Hnd).
    rewrite Hins in Hrun, Hnd.
    rewrite <- app_assoc in Hrun, Hnd. cbn [app] in Hrun, Hnd.
    exists (a :: added). split; [rewrite Hins; exact Hrun|]. split.
    + constructor; [exact Hst | exact Hall].
    + intro H. apply Hnd. rewrite (pks_snoc table a _ Hpk).
      apply NoDup_snoc; [exact H|]. intro Hin.
      apply next_pk_fresh in Hin. lia.
Qed.

Lemma unread_among (v : User.t) (added : list Notification.t) :
  Forall (fun a => Notification.is_read a = false) added ->
  Z.of_nat (List.length
    (filter (fun n => (Notification.recipient n =? User.pk v)
                      && negb (Notification.is_read n)) added))
  = Z.of_nat (count_occ Z.eq_dec (map Notification.recipient added) (User.pk v)).
Proof.
  intro H. f_equal. induction H as [|a l Ha Hl IH]; [reflexivity|].
  cbn [filter map count_occ]. rewrite Ha. cbn [negb]. rewrite andb_true_r.
  destruct (Z.eq_dec (Notification.recipient a) (User.pk v)) as [E | E].
  - rewrite E, Z.eqb_refl. cbn [List.length]. rewrite IH. reflexivity.
  - apply Z.eqb_neq in E. rewrite E. exact IH.
Qed.

(** What sending one notification to each member of a list does. *)
Lemma fan_out (now : datetime) (db : DB) (students : list Z)
    (type : Notification.Type_) (title message : string) (related : option Z) :
  let alerts :=
    map (fun s => Notification.new s type title message related) students in
  let db' := match alerts with
             | [] => db
             | _ => with_notifications
                      (Notification.bulk_create now (notifications db) alerts) db
             end in
  exists added,
    notifications db' = (notifications db ++ added)%list
    /\ map Notification.recipient added = students
    /\ Forall (fun a => Notification.notification_type a = type
                        /\ Notification.title a = title
                        /\ Notification.message a = message
                        /\ Notification.is_read a = false
                        /\ Notification.related_class a = related
                        /\ Notification.created_at a = Some now) added
    /\ (NoDup (Notification.pks (notifications db)) ->
        NoDup (Notification.pks (notifications db')))
    /\ (forall v, unread_count db' v
                  = unread_count db v
                    + Z.of_nat (count_occ Z.eq_dec students (User.pk v)))
    /\ (students = [] -> db' = db)
    /\ makeup_classes db' = makeup_classes db /\ courses db' = courses db
    /\ profiles db' = profiles db
    /\ attendance_records db' = attendance_records db
    /\ users db' = users db.
Proof.
  intros alerts db'.
  destruct (bulk_create_spec now alerts (notifications db))
    as (added & Hrun & Hall & Hnd).
  assert (Hrec : map Notification.recipient added = students
                 /\ Forall (fun a => Notification.notification_type a = type
                        /\ Notification.title a = title
                        /\ Notification.message a = message
                        /\ Notification.is_read a = false
                        /\ Notification.related_class a = related
                        /\ Notification.created_at a = Some now) added).
  { clear Hrun Hnd db'. subst alerts. revert added Hall.
    induction students as [|s l IH]; intros added Hall; cbn [map] in Hall.
    - inversion Hall. split; [reflexivity | constructor].
    - inversion Hall as [|a r added' rows' Hst Hrest]; subst.
      destruct Hst as (H1 & H2 & H3 & H4 & H5 & H6 & H7).
      destruct (IH _ Hrest) as (IHa & IHb).
      split; [cbn [map]; rewrite IHa; f_equal; exact H1|].
      constructor; [|exact IHb]. repeat split; assumption. }
  destruct Hrec as (Hrec & Hfields).
  assert (Hnotes : notifications db' = (notifications db ++ added)%list).
  { subst db'. destruct alerts as [|a l] eqn:Ha.
    - inversion Hall. rewrite app_nil_r. reflexivity.
    - cbn [notifications with_notifications]. exact Hrun. }
  exists added. split; [exact Hnotes|]. split; [exact Hrec|].
  split; [exact Hfields|]. split; [rewrite Hnotes; exact Hnd|].
  split.
  { intro v. unfold unread_count. rewrite Hnotes, filter_app, length_app.
    rewrite Nat2Z.inj_add. f_equal. rewrite <- Hrec. apply unread_among.
    apply Forall_impl with (2 := Hfields). intros a H. apply H. }
  split.
  { intros ->. reflexivity. }
  subst db'. destruct alerts; repeat split.
Qed.

(** X14. [generate_auto_alerts] and [send_code_notification] write one
    notification for each student of the course of the session and return
    their number. The recipients of the new rows are the students of the
    course, in whatever order the database hands them over: nothing is
    said of that order. Each new row is unread, stamped with the time of
    the call, and refers to the session; the first kind is
    [makeup_scheduled], the second [code_generated]. The rows that were
    there stay, keys that were distinct stay distinct, the count of
    unread notifications of a user goes up by the number of times the
    user is among the students, the other tables are as before, and for
    a course without students the store is as it was. *)
Theorem alerts_reach_each_student (now : datetime) (db : DB)
    (m : MakeUpClass.t) (c : Course.t) :
  course_of db m = Ok c ->
  let reached := fun (type : Notification.Type_) (db' : DB) =>
    exists added,
      notifications db' = (notifications db ++ added)%list
      /\ Permutation (map Notification.recipient added) (Course.students c)
      /\ Forall (fun a => Notification.notification_type a = type
                          /\ Notification.is_read a = false
                          /\ Notification.related_class a = MakeUpClass.pk m
                          /\ Notification.created_at a = Some now) added
      /\ (NoDup (Notification.pks (notifications db)) ->
          NoDup (Notification.pks (notifications db')))
      /\ (forall v, unread_count db' v
                    = unread_count db v
                      + Z.of_nat (count_occ Z.eq_dec (Course.students c) (User.pk v)))
      /\ (Course.students c = [] -> db' = db)
      /\ makeup_classes db' = makeup_classes db /\ courses db' = courses db
      /\ profiles db' = profiles db
      /\ attendance_records db' = attendance_records db in
  (exists db', generate_auto_alerts now db m = Ok (db', Course.students_count c)
               /\ reached Notification.makeup_scheduled db')
  /\ (exists db', send_code_notification now db m = Ok (db', Course.students_count c)
                  /\ reached Notification.code_generated db').
Proof.
  intros Hc reached.
  assert (Hweak : forall type title message db',
            (exists added,
               notifications db' = (notifications db ++ added)%list
               /\ map Notification.recipient added = Course.students c
               /\ Forall (fun a => Notification.notification_type a = type
                        /\ Notification.title a = title
                        /\ Notification.message a = message
                        /\ Notification.is_read a = false
                        /\ Notification.related_class a = MakeUpClass.pk m
                        /\ Notification.created_at a = Some now) added
               /\ (NoDup (Notification.pks (notifications db)) ->
                   NoDup (Notification.pks (notifications db')))
               /\ (forall v, unread_count db' v
                             = unread_count db v
                               + Z.of_nat (count_occ Z.eq_dec (Course.students c)
                                                     (User.pk v)))
               /\ (Course.students c = [] -> db' = db)
               /\ makeup_classes db' = makeup_classes db /\ courses db' = courses db
               /\ profiles db' = profiles db
               /\ attendance_records db' = attendance_records db
               /\ users db' = users db) ->
            reached type db').
  { intros type title message db'
           (added & H1 & H2 & H3 & H4 & H5 & H6 & H7 & H8 & H9 & H10 & _).
    exists added. split; [exact H1|].
    split; [rewrite H2; apply Permutation_refl|].
    split.
    { apply Forall_impl with (2 := H3). intros a (A1 & _ & _ & A4 & A5 & A6).
      repeat split; assumption. }
    repeat split; assumption. }
  split.
  - unfold generate_auto_alerts. rewrite Hc. cbn [bind].
    eexists. split.
    + unfold Course.students_count. rewrite length_map. reflexivity.
    + eapply Hweak. apply fan_out.
  - unfold send_code_notification. rewrite Hc. cbn [bind].
    eexists. split.
    + unfold Course.students_count. rewrite length_map. reflexivity.
    + eapply Hweak. apply fan_out.
Qed.

End Alerts.

(** A session of the course of three students is announced, then its
    code, to an inbox that holds two notifications already, one of them
    unread and addressed to the second student. *)
Lemma alerts_reach_each_student_witness :
  let note := fun k to read =>
    Notification.mk (Some k) to Notification.reminder "Reminder" "Tomorrow at 10"
                    read None (Some (Sample.at_ 10)) in
  let db := with_notifications [note 4 2 false; note 7 5 true] Sample.uneven in
  let m := Sample.held 11 738130 in
  let reached := fun (db' : DB) =>
    firstn 2 (notifications db') = notifications db
    /\ List.length (notifications db') = 5%nat
    /\ NoDup (Notification.pks (notifications db'))
    /\ Permutation (map Notification.recipient (skipn 2 (notifications db')))
                   [1; 2; 3]
    /\ unread_count db' Sample.lecturer = 1
    /\ unread_count db' Sample.pupil = 2
    /\ unread_count db' Sample.stranger = 1 in
  (exists db', generate_auto_alerts (Sample.at_ 50) db m = Ok (db', 3)
               /\ reached db')
  /\ (exists db', send_code_notification (Sample.at_ 50) db m = Ok (db', 3)
                  /\ reached db').
Proof.
  intros note db m reached.
  assert (Hkeys : NoDup (Notification.pks (notifications db))).
  { cbn. repeat constructor; cbn; intuition discriminate. }
  destruct (alerts_reach_each_student (Sample.at_ 50) db m Sample.trio eq_refl)
    as [(db1 & Hrun1 & added1 & Hrows1 & Hto1 & _ & Hnd1 & Hcount1 & _)
        (db2 & Hrun2 & added2 & Hrows2 & Hto2 & _ & Hnd2 & Hcount2 & _)].
  assert (Hlen1 : List.length added1 = 3%nat).
  { rewrite <- (length_map Notification.recipient).
    apply (Permutation_length Hto1). }
  assert (Hlen2 : List.length added2 = 3%nat).
  { rewrite <- (length_map Notification.recipient).
    apply (Permutation_length Hto2). }
  split; [exists db1 | exists db2]; (split; [assumption|]); unfold reached.
  - split; [rewrite Hrows1; reflexivity|].
    split; [rewrite Hrows1, length_app, Hlen1; reflexivity|].
    split; [exact (Hnd1 Hkeys)|].
    split; [rewrite Hrows1; exact Hto1|].
    rewrite !Hcount1. repeat split.
  - split; [rewrite Hrows2; reflexivity|].
    split; [rewrite Hrows2, length_app, Hlen2; reflexivity|].
    split; [exact (Hnd2 Hkeys)|].
    split; [rewrite Hrows2; exact Hto2|].
    rewrite !Hcount2. repeat split.
Defined.

(** ** The history a prediction reads *)

Lemma strongly_sorted_app {A : Type} (R : A -> A -> Prop) (l1 l2 : list A)
    (a b : A) :
  StronglySorted R (l1 ++ l2)%list -> In a l1 -> In b l2 -> R a b.
Proof.
  induction l1 as [|x l1 IH]; intros Hs Ha Hb; [contradiction|].
  cbn [app] in Hs. inversion Hs as [|? ? Hrest Hall]; subst.
  destruct Ha as [<- | Ha].
  - rewrite Forall_forall in Hall. apply Hall. apply in_or_app. right. exact Hb.
  - apply IH; assumption.
Qed.

(** X15. [predict_attendance] reads the ten most recent completed
    sessions of the course. The sessions read are completed sessions of
    the course taken from the store, as many as there are up to ten, in
    descending order of date; and a completed session of the course that
    is more recent than one that is read is read too. *)
Theorem past_classes_newest_ten (db : DB) (c : Course.t) :
  let past := AIService.past_classes db c in
  List.length past = Nat.min 10 (List.length (AIService.completed_classes db c))
  /\ (forall m, In m past ->
        In m (makeup_classes db) /\ MakeUpClass.course m = Course.pk c
        /\ MakeUpClass.status m = completed)
  /\ Sorted (fun a b => MakeUpClass.scheduled_date b <= MakeUpClass.scheduled_date a)
            past
  /\ (forall m p, In m (AIService.completed_classes db c) -> In p past ->
        MakeUpClass.scheduled_date p < MakeUpClass.scheduled_date m ->
        In m past).
Proof.
  intro past. unfold past, AIService.past_classes.
  set (sorted := stable_sort _ (AIService.completed_classes db c)).
  assert (Hsorted : Sorted (fun a b => MakeUpClass.scheduled_date b
                                       <= MakeUpClass.scheduled_date a) sorted)
    by apply stable_sort_key.
  split; [rewrite length_firstn; unfold sorted; rewrite stable_sort_length;
          reflexivity|].
  split.
  { intros m Hm. apply firstn_subset in Hm. apply stable_sort_In in Hm.
    unfold AIService.completed_classes in Hm. apply filter_In in Hm.
    destruct Hm as (Hin & Hp). apply andb_true_iff in Hp. destruct Hp as (Hc & Hs).
    split; [exact Hin|]. split; [apply Z.eqb_eq; exact Hc|].
    apply status_eqb_eq. exact Hs. }
  split; [apply firstn_sorted; exact Hsorted|].
  intros m p Hm Hp Hlt.
  assert (Hin : In m sorted) by (apply stable_sort_In; exact Hm).
  rewrite <- (firstn_skipn 10 sorted) in Hin. apply in_app_or in Hin.
  destruct Hin as [Hin | Hin]; [exact Hin|]. exfalso.
  apply Sorted_StronglySorted in Hsorted; [|intros x y z Hxy Hyz; lia].
  rewrite <- (firstn_skipn 10 sorted) in Hsorted.
  pose proof (strongly_sorted_app _ _ _ p m Hsorted Hp Hin) as Hle.
  cbv beta in Hle. lia.
Qed.

Lemma confidence_table (len : nat) :
  Py.round
    (Py.fmin (Py.dec 95 2)
       (Py.fadd (Py.dec 5 1)
          (Py.fmul (Py.of_int (Z.of_nat (Nat.min 10 len))) (Py.dec 5 2))))
    2
  = Py.dec (50 + 5 * Z.min (Z.of_nat len) 9) 2.
Proof.
  do 10 (destruct len as [|len]; [vm_compute; reflexivity|]).
  replace (Nat.min 10 (S (S (S (S (S (S (S (S (S (S len)))))))))))
    with 10%nat by reflexivity.
  replace (Z.min (Z.of_nat (S (S (S (S (S (S (S (S (S (S len))))))))))) 9)
    with 9 by lia.
  vm_compute. reflexivity.
Qed.

(** X16. The confidence of a prediction is read off the number of
    completed sessions of the course alone: 0.50 without any, 0.05 more
    for each, and 0.95 from nine on. The count of enrolled students it
    reports is that of the course, or 30 for a course without
    students. *)
Theorem confidence_by_history (db : DB) (c : Course.t) (d : date) (start : time)
    (p : AIService.Prediction) :
  AIService.predict_attendance db c d start = Ok p ->
  AIService.confidence p
  = Py.dec (50 + 5 * Z.min (Z.of_nat (List.length (AIService.completed_classes db c)))
                           9) 2
  /\ AIService.enrolled_count p
     = (if Course.students_count c =? 0 then 30 else Course.students_count c).
Proof.
  unfold AIService.predict_attendance. intro H.
  destruct (AIService.base_rate _ _) as [base|e]; cbn [bind] in H; [|discriminate].
  destruct (Py.int_of_float _) as [n|e]; cbn [bind] in H; [|discriminate].
  injection H as <-. cbn [AIService.confidence AIService.enrolled_count].
  split; [|reflexivity].
  unfold AIService.past_classes. rewrite length_firstn, stable_sort_length.
  apply confidence_table.
Qed.

(** The course of thirty students and three completed sessions. *)
Lemma confidence_by_history_witness :
  exists p,
    AIService.predict_attendance Sample.history Sample.big_course 738159
      (mk_time 10 0 0 0) = Ok p
    /\ AIService.confidence p = Py.dec 65 2
    /\ AIService.enrolled_count p = 30.
Proof.
  destruct (AIService.predict_attendance Sample.history Sample.big_course 738159
              (mk_time 10 0 0 0)) as [p|e] eqn:E;
    [|vm_compute in E; discriminate E].
  exists p. split; [reflexivity|].
  exact (confidence_by_history Sample.history Sample.big_course 738159
           (mk_time 10 0 0 0) p E).
Defined.

(** ** The score and the reason of a slot *)

Lemma weekday_cases (d : date) :
  weekday d = 0 \/ weekday d = 1 \/ weekday d = 2 \/ weekday d = 3
  \/ weekday d = 4 \/ weekday d = 5 \/ weekday d = 6.
Proof.
  unfold weekday. pose proof (Z.mod_pos_bound (d + 6) 7 ltac:(lia)). lia.
Qed.

(** X17. A start time whose hour cannot be read makes [_score_slot] and
    [_slot_reason] raise alike. Otherwise both return: the score is from
    100 to 130, and a slot scores above 100 while its reason is the
    default one exactly on a Thursday outside the morning and afternoon
    ranges, the day [_score_slot] rewards and [_slot_reason] does not
    name. *)
Theorem score_and_reason (d : date) (time_str : string) :
  (forall e, AIService.hour_of time_str = Raise e ->
     AIService._score_slot d time_str = Raise e
     /\ AIService._slot_reason d time_str = Raise e)
  /\ (forall h, AIService.hour_of time_str = Ok h ->
        exists s r,
          AIService._score_slot d time_str = Ok s
          /\ AIService._slot_reason d time_str = Ok r
          /\ 100 <= s <= 130
          /\ ((100 < s /\ r = "Good availability window")
              <-> (weekday d = 3 /\ ~ 9 <= h <= 11 /\ ~ 14 <= h <= 16))).
Proof.
  unfold AIService._score_slot, AIService._slot_reason. split.
  - intros e ->. split; reflexivity.
  - intros h ->. cbn [bind].
    destruct (Z.leb_spec 9 h); destruct (Z.leb_spec h 11);
      destruct (Z.leb_spec 14 h); destruct (Z.leb_spec h 16); try lia;
      cbn [andb];
      destruct (weekday_cases d) as [E | [E | [E | [E | [E | [E | E]]]]]];
      rewrite E; cbn [AIService.mem existsb Z.eqb Pos.eqb orb app Str.join];
      (eexists _, _; split; [reflexivity|]; split; [reflexivity|];
       split; [lia|]; split;
       [intros (Hs & Hr); first [lia | discriminate Hr]
       | intros (Hd & Hm & Ha); first [lia | split; [lia | reflexivity]]]).
Qed.

(** A Thursday at six in the evening: ten points above the base, and the
    default reason. *)
Lemma score_and_reason_witness :
  exists s r,
    AIService._score_slot 738161 "18:00" = Ok s
    /\ AIService._slot_reason 738161 "18:00" = Ok r
    /\ 100 < s /\ r = "Good availability window".
Proof.
  destruct (proj2 (score_and_reason 738161 "18:00") 18 eq_refl)
    as (s & r & Hs & Hr & _ & Hiff).
  exists s, r. split; [exact Hs|]. split; [exact Hr|].
  apply Hiff. split; [reflexivity | split; lia].
Defined.

(** ** The recommendations for a course with nothing booked *)

Lemma weekday_add (d i : Z) : weekday (d + i) = (weekday d + i) mod 7.
Proof.
  unfold weekday. rewrite Z.add_mod_idemp_l by lia. f_equal. lia.
Qed.

Lemma scan_cons (booked : list (date * string)) (base i : Z) (rest : list Z)
    (acc : list AIService.Recommendation) :
  AIService.scan booked base (i :: rest) acc
  = if AIService.mem (weekday (base + i)) AIService.good_days
    then recommendations <- AIService.scan_day booked (base + i) acc ;;
         if (5 <=? List.length recommendations)%nat
         then Ok recommendations
         else AIService.scan booked base rest recommendations
    else AIService.scan booked base rest acc.
Proof. reflexivity. Qed.

(** On a day with nothing booked the four slots are appended, each with
    one of the two time bonuses. *)
Lemma scan_day_free (d : date) (acc : list AIService.Recommendation) :
  exists out,
    AIService.scan_day [] d acc = Ok (acc ++ out)%list
    /\ List.length out = 4%nat
    /\ forall r, In r out ->
         AIService.date_ r = d /\ 115 <= AIService.score r <= 130.
Proof.
  destruct hour_of_slots as (H9 & H10 & H14 & H15).
  unfold AIService.scan_day, AIService.slots.
  unfold for_each, AIService._score_slot, AIService._slot_reason.
  rewrite H9, H10, H14, H15. unfold bind.
  cbn [AIService.is_booked existsb negb].
  rewrite <- !app_assoc. cbn [app].
  eexists. split; [reflexivity|]. split; [reflexivity|].
  intros r Hr. cbn [In] in Hr.
  destruct (AIService.mem (weekday d) [1; 2; 3]);
    repeat (destruct Hr as [<- | Hr];
            [split; [reflexivity | cbn; lia]|]);
    contradiction.
Qed.

Ltac scan_skip E :=
  rewrite scan_cons, weekday_add, E;
  match goal with
  | |- context [AIService.mem ?x AIService.good_days] =>
      change (AIService.mem x AIService.good_days) with false; cbv iota
  end.

Ltac scan_take E out Hlen Hin :=
  rewrite scan_cons, weekday_add, E;
  match goal with
  | |- context [AIService.mem ?x AIService.good_days] =>
      change (AIService.mem x AIService.good_days) with true; cbv iota
  end;
  match goal with
  | |- context [AIService.scan_day [] ?d ?acc] =>
      destruct (scan_day_free d acc) as (out & -> & Hlen & Hin)
  end;
  cbn [bind]; rewrite ?length_app, ?Hlen.

Ltac scan_done Hlen1 Hlen2 Hin1 Hin2 :=
  eexists; split; [reflexivity|]; cbn [app];
  split; [rewrite length_app, Hlen1, Hlen2; reflexivity|];
  let r := fresh "r" in
  let Hr := fresh "Hr" in
  let Hs := fresh "Hs" in
  intros r Hr; apply in_app_or in Hr;
  destruct Hr as [Hr | Hr];
    [destruct (Hin1 r Hr) as (-> & Hs) | destruct (Hin2 r Hr) as (-> & Hs)];
    (split; [cbn; lia | exact Hs]).

(** What the loop collects when nothing is booked: the slots of the
    first two good days, which lie among the first five days scanned. *)
Lemma scan_free (base : date) :
  exists out,
    AIService.scan [] base AIService.range14 [] = Ok out
    /\ List.length out = 8%nat
    /\ forall r, In r out ->
         base <= AIService.date_ r <= base + 4
         /\ 115 <= AIService.score r <= 130.
Proof.
  unfold AIService.range14. cbn [seq map].
  destruct (weekday_cases base) as [E | [E | [E | [E | [E | [E | E]]]]]].
  - scan_take E out1 Hlen1 Hin1. cbn [List.length Nat.leb Nat.add].
    scan_take E out2 Hlen2 Hin2. rewrite Hlen1. cbn [List.length Nat.leb Nat.add].
    scan_done Hlen1 Hlen2 Hin1 Hin2.
  - scan_take E out1 Hlen1 Hin1. cbn [List.length Nat.leb Nat.add].
    scan_take E out2 Hlen2 Hin2. rewrite Hlen1. cbn [List.length Nat.leb Nat.add].
    scan_done Hlen1 Hlen2 Hin1 Hin2.
  - scan_take E out1 Hlen1 Hin1. cbn [List.length Nat.leb Nat.add].
    scan_take E out2 Hlen2 Hin2. rewrite Hlen1. cbn [List.length Nat.leb Nat.add].
    scan_done Hlen1 Hlen2 Hin1 Hin2.
  - scan_take E out1 Hlen1 Hin1. cbn [List.length Nat.leb Nat.add].
    scan_skip E. scan_skip E. scan_skip E. scan_take E out2 Hlen2 Hin2. rewrite Hlen1. cbn [List.length Nat.leb Nat.add].
    scan_done Hlen1 Hlen2 Hin1 Hin2.
  - scan_skip E. scan_skip E. scan_skip E. scan_take E out1 Hlen1 Hin1. cbn [List.length Nat.leb Nat.add].
    scan_take E out2 Hlen2 Hin2. rewrite Hlen1. cbn [List.length Nat.leb Nat.add].
    scan_done Hlen1 Hlen2 Hin1 Hin2.
  - scan_skip E. scan_skip E. scan_take E out1 Hlen1 Hin1. cbn [List.length Nat.leb Nat.add].
    scan_take E out2 Hlen2 Hin2. rewrite Hlen1. cbn [List.length Nat.leb Nat.add].
    scan_done Hlen1 Hlen2 Hin1 Hin2.
  - scan_skip E. scan_take E out1 Hlen1 Hin1. cbn [List.length Nat.leb Nat.add].
    scan_take E out2 Hlen2 Hin2. rewrite Hlen1. cbn [List.length Nat.leb Nat.add].
    scan_done Hlen1 Hlen2 Hin1 Hin2.
Qed.

(** X18. For a course with no scheduled and no active session,
    [get_schedule_recommendations] returns exactly five slots: the loop
    stops after the second good day, so every slot returned lies among
    tomorrow and the four days after it, and each has a time bonus, its
    score being from 115 to 130. *)
Theorem free_course_gets_five (clock : Z) (db : DB) (c : Course.t) :
  AIService.booked_slots db c = [] ->
  let tomorrow := dt_date (timezone_now clock) + 1 in
  exists recs,
    AIService.get_schedule_recommendations clock db c = Ok recs
    /\ List.length recs = 5%nat
    /\ forall r, In r recs ->
         tomorrow <= AIService.date_ r <= tomorrow + 4
         /\ 115 <= AIService.score r <= 130.
Proof.
  intros Hfree tomorrow. unfold AIService.get_schedule_recommendations.
  rewrite Hfree. fold tomorrow.
  destruct (scan_free tomorrow) as (out & -> & Hlen & Hin). cbn [bind].
  eexists. split; [reflexivity|]. split.
  - rewrite length_firstn. unfold AIService.sort_by_score.
    rewrite stable_sort_length, Hlen. reflexivity.
  - intros r Hr. apply firstn_subset in Hr. apply stable_sort_In in Hr.
    apply Hin. exact Hr.
Qed.

(** A store without sessions. *)
Lemma free_course_gets_five_witness :
  exists recs,
    AIService.get_schedule_recommendations 0
      (mk_DB [] [] [Sample.cs301] [] [] []) Sample.cs301 = Ok recs
    /\ List.length recs = 5%nat.
Proof.
  destruct (free_course_gets_five 0 (mk_DB [] [] [Sample.cs301] [] [] [])
              Sample.cs301 eq_refl) as (recs & Hrun & Hlen & _).
  exists recs. split; assumption.
Defined.

(** ** Who may see a session *)

(** X19. [makeup_detail] turns away the faculty member who does not own
    the session and the student who is not enrolled in its course, and
    never writes to the store; [api_attendance_chart] makes no such
    check: whoever is logged in gets the answer the owner gets. *)
Theorem detail_is_gated_chart_is_not (pk : Z) (db : DB) :
  (forall request u makeup profile,
     user request = Some u ->
     get_object_or_404 "MakeUpClass"
       (fun m => opt_eqb (MakeUpClass.pk m) pk) (makeup_classes db) = Ok makeup ->
     profile_of db u = Ok profile ->
     (UserProfile.role profile = UserProfile.faculty ->
      MakeUpClass.faculty makeup <> User.pk u ->
      views.makeup_detail pk db request = Ok (db, page (redirect "makeup_list" None)))
     /\ (forall c, UserProfile.role profile = UserProfile.student ->
           course_of db makeup = Ok c -> ~ enrolled_in u c ->
           views.makeup_detail pk db request
           = Ok (db, page (redirect "dashboard" None))))
  /\ (forall request db' reply,
        views.makeup_detail pk db request = Ok (db', reply) -> db' = db)
  /\ (forall request request',
        user request <> None -> user request' <> None ->
        api_attendance_chart pk db request = api_attendance_chart pk db request').
Proof.
  split; [|split].
  - intros request u makeup profile Hu Hm Hp.
    unfold views.makeup_detail, login_required_as. rewrite Hu, Hm. cbn [bind].
    rewrite Hp. cbn [bind]. split.
    + intros Hrole Hne. rewrite Hrole. apply Z.eqb_neq in Hne. rewrite Hne.
      reflexivity.
    + intros c Hrole Hc Hout. rewrite Hrole, Hc. cbn.
      assert (Hno : Course.has_student c (User.pk u) = false).
      { apply not_true_is_false. intro H. apply Hout. apply has_student_In.
        exact H. }
      rewrite Hno. reflexivity.
  - intros request db' reply. unfold views.makeup_detail, login_required_as.
    destruct (user request) as [u|]; [|intro H; injection H as <- _; reflexivity].
    destruct (get_object_or_404 _ _ _) as [makeup|e]; cbn [bind]; [|discriminate].
    destruct (profile_of db u) as [profile|e]; cbn [bind]; [|discriminate].
    destruct (_ && _); [intro H; injection H as <- _; reflexivity|].
    destruct (UserProfile.role_eqb (UserProfile.role profile) UserProfile.student).
    + destruct (course_of db makeup) as [c|e]; cbn [bind]; [|discriminate].
      destruct (negb _); [intro H; injection H as <- _; reflexivity|].
      destruct (UserProfile.role_eqb _ UserProfile.faculty).
      * destruct (AIService.analyze_attendance_patterns db c); cbn [bind];
          [|discriminate].
        destruct (AIService.predict_attendance _ _ _ _); cbn [bind];
          [|discriminate].
        intro H. injection H as <- _. reflexivity.
      * intro H. injection H as <- _. reflexivity.
    + cbn [bind].
      destruct (course_of db makeup) as [c|e]; cbn [bind]; [|discriminate].
      destruct (UserProfile.role_eqb _ UserProfile.faculty).
      * destruct (AIService.analyze_attendance_patterns db c); cbn [bind];
          [|discriminate].
        destruct (AIService.predict_attendance _ _ _ _); cbn [bind];
          [|discriminate].
        intro H. injection H as <- _. reflexivity.
      * intro H. injection H as <- _. reflexivity.
  - intros request request' Hu Hu'. unfold api_attendance_chart, login_required.
    destruct (user request) as [u|]; [|contradiction].
    destruct (user request') as [u'|]; [|contradiction]. reflexivity.
Qed.


(** A student who is not enrolled asks for the page of the session and
    for its chart. *)
Lemma detail_is_gated_chart_is_not_witness :
  let db := Sample.store active (Some (Sample.at_ 1000)) [Sample.old_mark] in
  views.makeup_detail 1 db (Sample.post Sample.stranger EmptyString)
  = Ok (db, page (redirect "dashboard" None))
  /\ api_attendance_chart 1 db (Sample.post Sample.stranger EmptyString)
     = api_attendance_chart 1 db (Sample.post Sample.lecturer EmptyString).
Proof.
  intro db.
  destruct (detail_is_gated_chart_is_not 1 db) as (Hgate & _ & Hopen).
  split.
  - apply (proj2 (Hgate (Sample.post Sample.stranger EmptyString) Sample.stranger
                    (Sample.session active (Some (Sample.at_ 1000)))
                    (UserProfile.mk 3 UserProfile.student "Computer Science"
                                    "CS-2024-002" EmptyString)
                    eq_refl eq_refl eq_refl) Sample.cs301 eq_refl eq_refl).
    unfold enrolled_in. cbn. intros [E | []]. discriminate E.
  - apply Hopen; discriminate.
Defined.

(** ** The session the form accepts *)





(** ** The shape of an analysis *)

Lemma day_name_not_empty (d : date) : day_name d <> EmptyString.
Proof.
  unfold day_name.
  destruct (weekday_cases d) as [E | [E | [E | [E | [E | [E | E]]]]]];
    rewrite E; discriminate.
Qed.

Lemma append_to_keys (stats : list (string * list Py.float)) (day : string)
    (rate : Py.float) :
  day <> EmptyString ->
  Forall (fun kv => fst kv <> EmptyString) stats ->
  Forall (fun kv => fst kv <> EmptyString) (AIService.append_to stats day rate)
  /\ AIService.append_to stats day rate <> [].
Proof.
  intros Hday Hall. induction Hall as [|[k v] rest Hk Hrest IH];
    cbn [AIService.append_to].
  - split; [repeat constructor; exact Hday | discriminate].
  - destruct (String.eqb k day).
    + split; [constructor; assumption | discriminate].
    + split; [constructor; [exact Hk | apply IH] | discriminate].
Qed.

Lemma day_stats_keys (db : DB) (enrolled : Z) (classes : list MakeUpClass.t) :
  forall acc out,
    Forall (fun kv => fst kv <> EmptyString) acc ->
    for_each (fun day_stats cls =>
                rate <- AIService.rate_percent db enrolled cls ;;
                Ok (AIService.append_to day_stats
                      (day_name (MakeUpClass.scheduled_date cls)) rate))
             classes acc = Ok out ->
    Forall (fun kv => fst kv <> EmptyString) out
    /\ (classes <> [] \/ acc <> [] -> out <> []).
Proof.
  induction classes as [|cls classes IH]; intros acc out Hacc H; cbn [for_each] in H.
  - injection H as <-. split; [exact Hacc|]. intros [Hc | Ha]; [contradiction Hc|];
      [reflexivity | exact Ha].
  - destruct (AIService.rate_percent db enrolled cls) as [rate|e]; cbn [bind] in H;
      [|discriminate].
    destruct (append_to_keys acc (day_name (MakeUpClass.scheduled_date cls)) rate
                (day_name_not_empty _) Hacc) as (Hkeys & Hne).
    destruct (IH _ _ Hkeys H) as (Hout & Hnon).
    split; [exact Hout|]. intros _. apply Hnon. right. exact Hne.
Qed.

Lemma best_day_key (stats : list (string * list Py.float)) (b : option string) :
  stats <> [] -> AIService.best_day_of stats = Ok b ->
  exists k, b = Some k /\ In k (map fst stats).
Proof.
  intros Hne H. destruct stats as [|[k0 v0] rest]; [contradiction Hne; reflexivity|].
  cbn [AIService.best_day_of] in H.
  destruct (AIService.mean v0) as [m0|e]; cbn [bind] in H; [|discriminate].
  assert (Hloop : forall (l : list (string * list Py.float))
                         (best out : string * Py.float),
            for_each (fun best kv =>
                        m <- AIService.mean (snd kv) ;;
                        if Py.fgt m (snd best) then Ok (fst kv, m) else Ok best)
                     l best = Ok out ->
            fst out = fst best \/ In (fst out) (map fst l)).
  { induction l as [|kv l IH]; intros best out Hrun; cbn [for_each] in Hrun.
    - injection Hrun as <-. left. reflexivity.
    - destruct (AIService.mean (snd kv)) as [m|e]; cbn [bind] in Hrun;
        [|discriminate].
      destruct (Py.fgt m (snd best)).
      + destruct (IH _ _ Hrun) as [Hb | Hb].
        * right. left. cbn [fst] in Hb. symmetry. exact Hb.
        * right. right. exact Hb.
      + destruct (IH _ _ Hrun) as [Hb | Hb]; [left; exact Hb | right; right; exact Hb]. }
  destruct (for_each _ rest (k0, m0)) as [best|e] eqn:Hrun; cbn [bind] in H;
    [|discriminate].
  injection H as <-. exists (fst best). split; [reflexivity|].
  destruct (Hloop _ _ _ Hrun) as [Hb | Hb]; cbn [map fst] in *.
  - left. symmetry. exact Hb.
  - right. exact Hb.
Qed.

(** The day block never leaves without its insight once a session has
    been read. *)
Lemma day_block_appends (db : DB) (enrolled : Z) (classes : list MakeUpClass.t)
    (insights out : list AIService.Insight) :
  classes <> [] ->
  AIService.day_block db enrolled classes insights = Ok out ->
  exists best,
    out = (insights ++ [best])%list
    /\ AIService.type best = "best_day" /\ AIService.severity best = "success".
Proof.
  intros Hne H. unfold AIService.day_block in H.
  destruct (for_each _ classes []) as [stats|e] eqn:Hstats; cbn [bind] in H;
    [|discriminate].
  destruct (day_stats_keys db enrolled classes [] stats (Forall_nil _) Hstats)
    as (Hkeys & Hnon).
  destruct (AIService.best_day_of stats) as [b|e] eqn:Hbest; cbn [bind] in H;
    [|discriminate].
  destruct (best_day_key stats b (Hnon (or_introl Hne)) Hbest) as (k & -> & Hk).
  assert (Hknon : k <> EmptyString).
  { apply in_map_iff in Hk. destruct Hk as (kv & <- & Hin).
    rewrite Forall_forall in Hkeys. apply Hkeys. exact Hin. }
  destruct k as [|ch rest]; [contradiction Hknon; reflexivity|].
  destruct (AIService.mean _) as [avg|e]; cbn [bind] in H; [|discriminate].
  injection H as <-. eexists. split; [reflexivity|]. split; reflexivity.
Qed.

(** X21. The shape of an analysis. Without a completed session of the
    course [analyze_attendance_patterns] returns its message and nothing
    else. With some, whenever it returns it reports their number, and its
    insights are one [best_day] insight, followed by one [trend] insight
    exactly when there are three completed sessions or more. *)
Theorem analysis_shape (db : DB) (c : Course.t) :
  let n := List.length (AIService.completed_classes db c) in
  (n = 0%nat ->
   AIService.analyze_attendance_patterns db c
   = Ok (AIService.mk_analysis (Some "Not enough data for analysis yet.") [] None))
  /\ (forall a,
        (0 < n)%nat -> AIService.analyze_attendance_patterns db c = Ok a ->
        AIService.message a = None
        /\ AIService.total_classes a = Some (Z.of_nat n)
        /\ exists best rest,
             AIService.insights a = best :: rest
             /\ AIService.type best = "best_day"
             /\ AIService.severity best = "success"
             /\ ((n < 3)%nat -> rest = [])
             /\ ((3 <= n)%nat ->
                 exists t, rest = [t] /\ AIService.type t = "trend"
                           /\ (AIService.severity t = "info"
                               \/ AIService.severity t = "warning"))).
Proof.
  intro n. unfold AIService.analyze_attendance_patterns. subst n. split.
  - intro H. destruct (AIService.completed_classes db c); [reflexivity | discriminate H].
  - intros a Hpos H.
    destruct (AIService.completed_classes db c) as [|cls classes] eqn:Hclasses;
      [cbn in Hpos; lia|].
    destruct (AIService.day_block _ _ _ _) as [insights|e] eqn:Hday;
      cbn [bind] in H; [|discriminate].
    assert (Hsome : cls :: classes <> []) by discriminate.
    destruct (day_block_appends _ _ _ _ _ Hsome Hday)
      as (best & -> & Htype & Hsev).
    destruct (AIService.rates_by_date _ _ _) as [rates|e] eqn:Hrates;
      cbn [bind] in H; [|discriminate].
    assert (Hlen : List.length rates = List.length (cls :: classes)).
    { unfold AIService.rates_by_date, AIService.map_each in Hrates.
      apply for_each_app_length in Hrates. rewrite Hrates, Hclasses.
      rewrite stable_sort_length. reflexivity. }
    unfold AIService.trend_block in H. rewrite Hlen in H.
    destruct (Nat.leb_spec 3 (List.length (cls :: classes))) as [Hge | Hlt].
    + destruct (AIService.recent_avg rates) as [recent|e]; cbn [bind] in H;
        [|discriminate].
      destruct (AIService.older_avg rates) as [older|e]; cbn [bind] in H;
        [|discriminate].
      injection H as <-. cbn [AIService.message AIService.total_classes
                              AIService.insights app].
      split; [reflexivity|]. split; [reflexivity|].
      eexists best, _. split; [reflexivity|]. split; [exact Htype|].
      split; [exact Hsev|]. split; [intro; lia|]. intros _.
      eexists. split; [reflexivity|]. split; [reflexivity|].
      destruct (Py.fgt recent older); [left | right]; reflexivity.
    + cbn [bind] in H. injection H as <-.
      cbn [AIService.message AIService.total_classes AIService.insights app].
      split; [reflexivity|]. split; [reflexivity|].
      exists best, []. split; [reflexivity|]. split; [exact Htype|].
      split; [exact Hsev|]. split; [reflexivity | intro; lia].
Qed.

(** The course of three completed sessions. *)
Lemma analysis_shape_witness :
  exists a best t,
    AIService.analyze_attendance_patterns Sample.history Sample.big_course = Ok a
    /\ AIService.total_classes a = Some 3
    /\ AIService.insights a = [best; t]
    /\ AIService.type best = "best_day" /\ AIService.type t = "trend".
Proof.
  destruct (AIService.analyze_attendance_patterns Sample.history Sample.big_course)
    as [a|e] eqn:E; [|vm_compute in E; discriminate E].
  destruct (proj2 (analysis_shape Sample.history Sample.big_course) a
              ltac:(cbn; lia) E)
    as (_ & Htotal & best & rest & Hins & Htype & _ & _ & Htrend).
  destruct Htrend as (t & -> & Ht & _); [cbn; lia|].
  exists a, best, t. split; [reflexivity|]. split; [exact Htotal|].
  split; [exact Hins|]. split; assumption.
Defined.

(** ** The code the check-in form hands over *)

Lemma upper_char_facts (c : ascii) :
  Str.is_space (Str.upper_char c) = Str.is_space c
  /\ Str.upper_char (Str.upper_char c) = Str.upper_char c
  /\ (nat_of_ascii (Str.upper_char c) =? 0)%nat = (nat_of_ascii c =? 0)%nat.
Proof.
  destruct c as [[] [] [] [] [] [] [] []]; repeat split; reflexivity.
Qed.

Lemma append_empty (s : string) : s ++ EmptyString = s.
Proof. induction s as [|c s IH]; [reflexivity|]. cbn. rewrite IH. reflexivity. Qed.

Lemma append_assoc' (a b c : string) : (a ++ b) ++ c = a ++ (b ++ c).
Proof. induction a as [|x a IH]; [reflexivity|]. cbn. rewrite IH. reflexivity. Qed.

Lemma lstrip_idem (s : string) : Str.lstrip (Str.lstrip s) = Str.lstrip s.
Proof.
  induction s as [|c s IH]; [reflexivity|]. cbn [Str.lstrip].
  destruct (Str.is_space c) eqn:E; [exact IH|]. cbn [Str.lstrip]. rewrite E.
  reflexivity.
Qed.

Lemma lstrip_head (s : string) (c : ascii) (rest : string) :
  Str.lstrip s = String c rest -> Str.is_space c = false.
Proof.
  induction s as [|d s IH]; [discriminate|]. cbn [Str.lstrip].
  destruct (Str.is_space d) eqn:E; [exact IH|]. intro H. injection H as <- _.
  exact E.
Qed.

Lemma lstrip_keeps_last (y : string) (c : ascii) :
  Str.is_space c = false ->
  exists z, Str.lstrip (y ++ String c EmptyString) = z ++ String c EmptyString.
Proof.
  intro Hc. induction y as [|d y IH]; cbn [append Str.lstrip].
  - rewrite Hc. exists EmptyString. reflexivity.
  - destruct (Str.is_space d); [exact IH|]. exists (String d y). reflexivity.
Qed.

Lemma rev_acc_app (s acc : string) :
  Str.rev_acc s acc = Str.rev_acc s EmptyString ++ acc.
Proof.
  revert acc. induction s as [|c s IH]; intro acc; [reflexivity|].
  cbn [Str.rev_acc]. rewrite (IH (String c acc)), (IH (String c EmptyString)).
  rewrite append_assoc'. reflexivity.
Qed.

Lemma rev_acc_snoc (z acc : string) (c : ascii) :
  Str.rev_acc (z ++ String c EmptyString) acc = String c (Str.rev_acc z acc).
Proof.
  revert acc. induction z as [|d z IH]; intro acc; [reflexivity|].
  cbn [append Str.rev_acc]. apply IH.
Qed.

Lemma rev_acc_twice (s a b : string) :
  Str.rev_acc (Str.rev_acc s a) b = Str.rev_acc a (s ++ b).
Proof.
  revert a b. induction s as [|c s IH]; intros a b; [reflexivity|].
  cbn [Str.rev_acc append]. rewrite IH. reflexivity.
Qed.

Lemma strip_stripped (c : ascii) (t : string) :
  Str.is_space c = false ->
  exists z,
    Str.rev (Str.lstrip (Str.rev (String c t))) = String c (Str.rev z)
    /\ Str.lstrip (z ++ String c EmptyString) = z ++ String c EmptyString.
Proof.
  intro Hc. unfold Str.rev. cbn [Str.rev_acc]. rewrite (rev_acc_app t).
  destruct (lstrip_keeps_last (Str.rev_acc t EmptyString) c Hc) as (z & Hz).
  exists z. rewrite Hz, rev_acc_snoc. split; [reflexivity|].
  rewrite <- Hz. apply lstrip_idem.
Qed.

Lemma strip_idem (s : string) : Str.strip (Str.strip s) = Str.strip s.
Proof.
  unfold Str.strip. destruct (Str.lstrip s) as [|c t] eqn:Ht; [reflexivity|].
  pose proof (lstrip_head s c t Ht) as Hc.
  destruct (strip_stripped c t Hc) as (z & -> & Hu).
  cbn [Str.lstrip]. rewrite Hc.
  unfold Str.rev. cbn [Str.rev_acc]. rewrite rev_acc_twice. cbn [Str.rev_acc].
  rewrite Hu, rev_acc_snoc. reflexivity.
Qed.

Lemma lstrip_upper (s : string) :
  Str.lstrip (Str.upper s) = Str.upper (Str.lstrip s).
Proof.
  induction s as [|c s IH]; [reflexivity|]. cbn [Str.upper Str.lstrip].
  destruct (upper_char_facts c) as (-> & _).
  destruct (Str.is_space c); [exact IH | reflexivity].
Qed.

Lemma rev_acc_upper (s acc : string) :
  Str.rev_acc (Str.upper s) (Str.upper acc) = Str.upper (Str.rev_acc s acc).
Proof.
  revert acc. induction s as [|c s IH]; intro acc; [reflexivity|].
  cbn [Str.upper Str.rev_acc]. rewrite <- IH. reflexivity.
Qed.

Lemma rev_upper (s : string) : Str.rev (Str.upper s) = Str.upper (Str.rev s).
Proof. exact (rev_acc_upper s EmptyString). Qed.

Lemma strip_upper (s : string) : Str.strip (Str.upper s) = Str.upper (Str.strip s).
Proof.
  unfold Str.strip.
  rewrite lstrip_upper, rev_upper, lstrip_upper, rev_upper. reflexivity.
Qed.

Lemma upper_facts (s : string) :
  Str.upper (Str.upper s) = Str.upper s
  /\ String.length (Str.upper s) = String.length s
  /\ AttendanceCodeForm.has_nul (Str.upper s) = AttendanceCodeForm.has_nul s
  /\ (Str.upper s = EmptyString -> s = EmptyString).
Proof.
  induction s as [|c s (IH1 & IH2 & IH3 & _)]; [repeat split|].
  destruct (upper_char_facts c) as (_ & Hu & Hn).
  cbn [Str.upper String.length AttendanceCodeForm.has_nul].
  rewrite Hu, IH1, IH2, Hn, IH3. repeat split. discriminate.
Qed.

(** X22. The code the check-in form hands over is in normal form. For
    a typed text of ASCII characters, an accepted code is not empty, has
    at most twenty characters, has no blank at either end and no
    lower-case letter left, and the form accepts it again as it is. *)
Theorem cleaned_code_is_normal (data : dict) (raw code : string) :
  dict_get data "remedial_code" = Some raw -> ascii_text raw ->
  AttendanceCodeForm.cleaned_remedial_code data = Some code ->
  code = Str.upper (Str.strip raw)
  /\ code <> EmptyString /\ (String.length code <= 20)%nat
  /\ Str.strip code = code /\ Str.upper code = code
  /\ AttendanceCodeForm.cleaned_remedial_code [("remedial_code", code)] = Some code.
Proof.
  unfold AttendanceCodeForm.cleaned_remedial_code,
    AttendanceCodeForm.clean_remedial_code.
  intros Hraw _.
  destruct data as [|entry data]; [discriminate|].
  rewrite Hraw. cbv zeta. rewrite !strip_idem.
  set (v := Str.strip raw).
  destruct (String.eqb v EmptyString) eqn:Hempty; [discriminate|].
  destruct (AttendanceCodeForm.has_nul v) eqn:Hnul; [discriminate|].
  destruct (Nat.ltb_spec 20 (String.length v)) as [Hlong | Hlen]; [discriminate|].
  intro H. injection H as <-.
  destruct (upper_facts v) as (Hup & Hl & Hn & Hne).
  assert (Hstrip : Str.strip (Str.upper v) = Str.upper v).
  { rewrite strip_upper. unfold v. rewrite strip_idem. reflexivity. }
  split; [reflexivity|]. split.
  { intro H. apply Hne in H. rewrite H in Hempty. discriminate. }
  split; [rewrite Hl; exact Hlen|]. split; [exact Hstrip|]. split; [exact Hup|].
  cbn [dict_get String.eqb Ascii.eqb Bool.eqb andb].
  rewrite !Hstrip, Hn, Hnul, Hl, Hup.
  destruct (String.eqb (Str.upper v) EmptyString) eqn:E.
  - apply String.eqb_eq in E. apply Hne in E. rewrite E in Hempty. discriminate.
  - destruct (Nat.ltb_spec 20 (String.length v)); [lia | reflexivity].
Qed.

(** A code typed in lower case between blanks. *)
Lemma cleaned_code_is_normal_witness :
  AttendanceCodeForm.cleaned_remedial_code [("remedial_code", "  ab12cd34 ")]
  = Some "AB12CD34"
  /\ AttendanceCodeForm.cleaned_remedial_code [("remedial_code", "AB12CD34")]
     = Some "AB12CD34".
Proof.
  split; [reflexivity|].
  apply (cleaned_code_is_normal [("remedial_code", "  ab12cd34 ")] "  ab12cd34 "
           "AB12CD34" eq_refl); [|reflexivity].
  intros c Hc. cbn in Hc.
  repeat (destruct Hc as [<- | Hc]; [cbn; lia|]). contradiction.
Defined.
